(** * GUIDED: progression and synchronisation layer of the client

    A shallow embedding of the pieces of the front end that carry state
    contracts: the API client's fetch wrapper, the session store
    ([login]), the route guard, the candidate progression resolver at
    its three call sites, the mentor verification screen, the sign-up
    form and the optimistic handlers of the workflow and mentor
    dashboards; further on, session restore and logout, the request
    headers, the login form end to end, the dashboards' derived lists,
    the onboarding wizard, checkout and the mentor discovery filters.

    Conventions.
    - A settled promise is a value of [Promise A]: [Resolve a] or
      [Reject].  An [await] of [Reject] throws.
    - An [async] event handler is a term of [Prog]: effects performed in
      order, interleaved with awaits of remote calls.
    - React state setters are effects [SetState f]; [f] is the functional
      updater the source passes ([prev => ...]).
    - Counters are JavaScript numbers holding integers; they are modelled
      in [Z], and statements about adding or subtracting 1 assume a
      safe integer ([safeInteger]), where JavaScript's result is exact.
    - A string holds the UTF-8 bytes of the JavaScript string; its
      [length] is counted in UTF-16 code units ([jsLength]). *)

From stdpp Require Import base strings list gmap.
From Stdlib Require Import ZArith Lia.

Local Open Scope string_scope.
Local Open Scope Z_scope.

(* ================================================================== *)
(** ** JavaScript values *)

(** Truthiness of a string: only the empty string is falsy. *)
Definition truthy (s : string) : bool :=
  match s with
  | EmptyString => false
  | String _ _ => true
  end.

(** Truthiness of [string | null | undefined]. *)
Definition truthy_opt (o : option string) : bool :=
  match o with
  | Some s => truthy s
  | None => false
  end.

(** [a || b] on an optional string and a default. *)
Definition or_default (o : option string) (d : string) : string :=
  match o with
  | Some s => if truthy s then s else d
  | None => d
  end.

(** [s.length].  A string of the model holds the UTF-8 bytes of the
    JavaScript string; [length] counts UTF-16 code units.  A byte below
    0x80 is a character of its own; bytes 0x80-0xBF continue a
    character; a lead byte 0xC0-0xEF starts a character of one code
    unit, a lead byte from 0xF0 on one outside the basic plane, which
    takes two (a surrogate pair). *)
Fixpoint jsLength (s : string) : nat :=
  match s with
  | EmptyString => 0%nat
  | String c rest =>
    let b := Ascii.N_of_ascii c in
    ((if (b <? 128)%N then 1
      else if (b <? 192)%N then 0
      else if (b <? 240)%N then 1
      else 2)
     + jsLength rest)%nat
  end.

(** [Number.isSafeInteger]: the whole numbers on which JavaScript's
    addition and subtraction of 1 are exact. *)
Definition safeInteger (n : Z) : Prop := - 2 ^ 53 < n < 2 ^ 53.

(** [obj?.flag] used as a condition: [undefined] is falsy. *)
Definition optional_flag {A} (o : option A) (f : A -> bool) : bool :=
  match o with
  | Some a => f a
  | None => false
  end.

(* ================================================================== *)
(** ** Promises and exceptions *)

Inductive Promise (A : Type) : Type :=
| Resolve (a : A)
| Reject.
Arguments Resolve {A} a.
Arguments Reject {A}.

(** [await p] followed by the rest of an async body. *)
Definition andThen {A B} (p : Promise A) (k : A -> Promise B) : Promise B :=
  match p with
  | Resolve a => k a
  | Reject => Reject
  end.

(** [try { body } catch { handler }]. *)
Definition try_catch {A} (body : Promise A) (handler : Promise A) : Promise A :=
  match body with
  | Resolve a => Resolve a
  | Reject => handler
  end.

Notation "'await' x <- p ; k" := (andThen p (fun x => k))
  (at level 60, x name, p at next level, right associativity).

(* ================================================================== *)
(** ** The network as seen by [fetch] *)

(** What one [fetch] call observes.  [json] is the result of
    [res.json()]: it rejects when the body is not valid JSON. *)
Inductive FetchOutcome (T : Type) : Type :=
| NetworkError
| Aborted
| Arrived (ok : bool) (code : Z) (json : Promise T).
Arguments NetworkError {T}.
Arguments Aborted {T}.
Arguments Arrived {T} ok code json.

Record Response (T : Type) : Type := mkResponse {
  ok : bool;
  code : Z;
  json : Promise T
}.
Arguments mkResponse {T}.
Arguments ok {T}.
Arguments code {T}.
Arguments json {T}.

Definition fetch {T} (o : FetchOutcome T) : Promise (Response T) :=
  match o with
  | NetworkError => Reject
  | Aborted => Reject
  | Arrived b c j => Resolve (mkResponse b c j)
  end.

(** lib/api.ts, [apiFetch]: any failure becomes [null].  On a non-2xx
    response the error body is only logged. *)
Definition apiFetch {T} (o : FetchOutcome T) : Promise (option T) :=
  try_catch
    (await res <- fetch o;
     if negb (ok res) then Resolve None
     else await body <- json res; Resolve (Some body))
    (Resolve None).

(** The request did not deliver a typed payload. *)
Definition fetch_failed {T} (o : FetchOutcome T) : bool :=
  match o with
  | Arrived true _ (Resolve _) => false
  | _ => true
  end.

(* ================================================================== *)
(** ** Async handlers *)

Inductive ToastKind := Success | Error | Info.

(** Effects on the world outside React state. *)
Inductive UiEffect : Type :=
| Push (path : string)
| Replace (path : string)
| Toast (kind : ToastKind) (msg : string)
| WindowOpen (url target : string)
| PreventDefault.

Inductive Eff (St : Type) : Type :=
| Ui (u : UiEffect)
| SetState (f : St -> St).
Arguments Ui {St} u.
Arguments SetState {St} f.

Section Handlers.
Context {St : Type} {C : Type} {R : C -> Type}.

Inductive Prog : Type :=
| Done
| Do (e : Eff St) (k : Prog)
| Await (c : C) (k : Promise (R c) -> Prog).

(** What an observer of a running handler sees, in order. *)
Inductive Obs : Type :=
| Performed (e : Eff St)
| Issued (c : C)
| Settled (c : C).

Variable oracle : forall c : C, Promise (R c).

Fixpoint run (p : Prog) : list Obs :=
  match p with
  | Done => []
  | Do e k => Performed e :: run k
  | Await c k => Issued c :: Settled c :: run (k (oracle c))
  end.

(** Effects performed synchronously, before the first await suspends. *)
Fixpoint sync_effects (p : Prog) : list (Eff St) :=
  match p with
  | Done => []
  | Do e k => e :: sync_effects k
  | Await _ _ => []
  end.

(** All effects of a complete run. *)
Fixpoint effects (p : Prog) : list (Eff St) :=
  match p with
  | Done => []
  | Do e k => e :: effects k
  | Await c k => effects (k (oracle c))
  end.

(** Remote calls issued by a complete run. *)
Fixpoint calls (p : Prog) : list C :=
  match p with
  | Done => []
  | Do _ k => calls k
  | Await c k => c :: calls (k (oracle c))
  end.

End Handlers.
Arguments Prog : clear implicits.
Arguments Obs : clear implicits.

Fixpoint ui_trace {St} (es : list (Eff St)) : list UiEffect :=
  match es with
  | [] => []
  | Ui u :: es' => u :: ui_trace es'
  | SetState _ :: es' => ui_trace es'
  end.

Fixpoint exec {St} (es : list (Eff St)) (s : St) : St :=
  match es with
  | [] => s
  | Ui _ :: es' => exec es' s
  | SetState f :: es' => exec es' (f s)
  end.

(* ================================================================== *)
(** ** lib/auth-context.tsx: identity *)

Inductive Role := candidate | mentor | admin.

Global Instance Role_eq_dec : EqDecision Role.
Proof. solve_decision. Defined.

Module User.
Record t := mk {
  id : string;
  email : string;
  name : string;
  role : Role;
  verified : bool
}.
End User.

(* ================================================================== *)
(** ** lib/api.ts: the calls used by the handlers below *)

Module CandidateStatus.
Record t := mk {
  status : string;
  hasOnboarded : bool;
  hasMentor : bool;
  hasRoadmap : bool;
  candidateId : option string
}.
End CandidateStatus.

(** Every API function returns [Promise<T | null>]. *)
Definition Reply {C : Type} (Payload : C -> Type) : C -> Type :=
  fun c => option (Payload c).

(** A remote call made through the API client: [apiFetch] over whatever
    the network does with the request. *)
Definition apiOracle {C : Type} {Payload : C -> Type}
    (net : forall c : C, FetchOutcome (Payload c))
  : forall c : C, Promise (Reply Payload c) :=
  fun c => apiFetch (net c).

(** Call sites of [getCandidateStatus] share this call alphabet. *)
Inductive StatusCall := getCandidateStatus.
Definition StatusPayload (_ : StatusCall) : Type := CandidateStatus.t.
Definition StatusReply : StatusCall -> Type := Reply StatusPayload.

(** A page without React state of interest. *)
Definition NoState := unit.

(* ================================================================== *)
(** ** app/page.tsx: landing page *)

Module LandingPage.
Import CandidateStatus.

Definition handleGetStarted (user : option User.t)
  : Prog NoState StatusCall StatusReply :=
  match user with
  | None => Do (Ui (Push "/signup")) Done
  | Some u =>
    if negb (bool_decide (User.role u = candidate)) then
      Do (Ui (Toast Info "Sign up as a candidate to generate your roadmap"))
        (Do (Ui (Push "/signup")) Done)
    else
      Await getCandidateStatus (fun r =>
        match r with
        | Resolve status =>
          if optional_flag status hasMentor then
            Do (Ui (Push "/candidate/workflow")) Done
          else if optional_flag status hasRoadmap then
            Do (Ui (Push "/candidate/mentors")) Done
          else if optional_flag status hasOnboarded then
            Do (Ui (Push "/candidate/roadmap")) Done
          else Do (Ui (Push "/candidate/onboarding")) Done
        | Reject => Do (Ui (Push "/candidate/onboarding")) Done
        end)
  end.

Definition handleDashboard (user : option User.t)
  : Prog NoState StatusCall StatusReply :=
  match user with
  | None => Do (Ui (Push "/login")) Done
  | Some u =>
    if bool_decide (User.role u = mentor) then
      Do (Ui (Push (if User.verified u then "/mentor/dashboard"
                    else "/mentor/verification"))) Done
    else
      Await getCandidateStatus (fun r =>
        match r with
        | Resolve status =>
          if optional_flag status hasMentor then
            Do (Ui (Push "/candidate/workflow")) Done
          else if optional_flag status hasRoadmap then
            Do (Ui (Push "/candidate/mentors")) Done
          else if optional_flag status hasOnboarded then
            Do (Ui (Push "/candidate/roadmap")) Done
          else Do (Ui (Push "/candidate/onboarding")) Done
        | Reject => Do (Ui (Push "/candidate/onboarding")) Done
        end)
  end.

End LandingPage.

(* ================================================================== *)
(** ** app/login/page.tsx: post-login redirect *)

Module LoginPage.
Import CandidateStatus.

Definition smartRedirect (role : Role) (verified : bool)
  : Prog NoState StatusCall StatusReply :=
  if bool_decide (role = mentor) then
    Do (Ui (Push (if verified then "/mentor/dashboard"
                  else "/mentor/verification"))) Done
  else
    Await getCandidateStatus (fun r =>
      match r with
      | Resolve status =>
        if optional_flag status hasMentor then
          Do (Ui (Push "/candidate/workflow")) Done
        else if optional_flag status hasRoadmap then
          Do (Ui (Push "/candidate/mentors")) Done
        else if optional_flag status hasOnboarded then
          Do (Ui (Push "/candidate/roadmap")) Done
        else Do (Ui (Push "/candidate/onboarding")) Done
      | Reject => Do (Ui (Push "/candidate/onboarding")) Done
      end).

End LoginPage.

(** The progression resolver as the specification words it: flags in
    priority order, first match wins. *)
Definition nextStep (flags : CandidateStatus.t) : string :=
  if CandidateStatus.hasMentor flags then "/candidate/workflow"
  else if CandidateStatus.hasRoadmap flags then "/candidate/mentors"
  else if CandidateStatus.hasOnboarded flags then "/candidate/roadmap"
  else "/candidate/onboarding".

(** The destination the specification assigns to a settled status
    request: the flags decide when they arrived, onboarding otherwise. *)
Definition resolvedDestination (reply : Promise (option CandidateStatus.t))
  : string :=
  match reply with
  | Resolve (Some flags) => nextStep flags
  | Resolve None => "/candidate/onboarding"
  | Reject => "/candidate/onboarding"
  end.

(** A resolver run that fetched the status once and navigated once. *)
Definition navigatedOnce (dest : string) : list (Obs NoState StatusCall) :=
  [ Issued getCandidateStatus; Settled getCandidateStatus;
    Performed (Ui (Push dest)) ].

(** The screens of the candidate funnel. *)
Definition candidateDestinations : list string :=
  [ "/candidate/onboarding"; "/candidate/roadmap"; "/candidate/mentors";
    "/candidate/checkout"; "/candidate/workflow" ].

(** The network answering the status request with [o]. *)
Definition statusNet (o : FetchOutcome CandidateStatus.t)
  : forall c : StatusCall, FetchOutcome (StatusPayload c) :=
  fun _ => o.

(* ================================================================== *)
(** ** lib/auth-context.tsx: the session store *)

Module AuthData.
(** The fields [login] and [signup] read off the response body. *)
Record t := mk {
  detail : option string;
  token : string;
  user : User.t
}.
End AuthData.

Module AuthResult.
Record t := mk {
  success : bool;
  error : option string;
  user : option User.t
}.
End AuthResult.

Module SignupData.
Record t := mk {
  email : string;
  password : string;
  name : string;
  role : string;
  linkedinUrl : option string
}.
End SignupData.

Module AuthProvider.

Record State := mkState {
  user : option User.t;
  token : option string;
  isLoading : bool;
  localStorage : gmap string string
}.

(** An async body over the provider's state: it settles, and leaves the
    state as it was when it settled. *)
Definition Async (A : Type) : Type := State -> Promise A * State.

Definition ret {A} (a : A) : Async A := fun s => (Resolve a, s).

Definition bind {A B} (m : Async A) (k : A -> Async B) : Async B :=
  fun s =>
    match m s with
    | (Resolve a, s') => k a s'
    | (Reject, s') => (Reject, s')
    end.

Definition awaiting {A} (p : Promise A) : Async A := fun s => (p, s).

Definition tryCatch {A} (body handler : Async A) : Async A :=
  fun s =>
    match body s with
    | (Resolve a, s') => (Resolve a, s')
    | (Reject, s') => handler s'
    end.

Notation "'let*' x := m 'in' k" := (bind m (fun x => k))
  (at level 10, x name, m at level 100, k at level 200).
Notation "'exec*' m 'in' k" := (bind m (fun _ => k))
  (at level 10, m at level 100, k at level 200).

Definition setItem (key value : string) : Async unit :=
  fun s => (Resolve tt,
            mkState (user s) (token s) (isLoading s)
                    (<[key := value]> (localStorage s))).

Definition setToken (t : option string) : Async unit :=
  fun s => (Resolve tt, mkState (user s) t (isLoading s) (localStorage s)).

Definition setUser (u : option User.t) : Async unit :=
  fun s => (Resolve tt, mkState u (token s) (isLoading s) (localStorage s)).

Definition login (net : FetchOutcome AuthData.t) (email password : string)
  : Async AuthResult.t :=
  tryCatch
    (let* res := awaiting (fetch net) in
     let* data := awaiting (json res) in
     if negb (ok res) then
       ret (AuthResult.mk false
              (Some (or_default (AuthData.detail data) "Login failed")) None)
     else
       exec* setItem "guided_token" (AuthData.token data) in
       exec* setToken (Some (AuthData.token data)) in
       exec* setUser (Some (AuthData.user data)) in
       ret (AuthResult.mk true None (Some (AuthData.user data))))
    (ret (AuthResult.mk false (Some "Cannot connect to server") None)).

Definition signup (net : FetchOutcome AuthData.t) (signupData : SignupData.t)
  : Async AuthResult.t :=
  tryCatch
    (let* res := awaiting (fetch net) in
     let* data := awaiting (json res) in
     if negb (ok res) then
       ret (AuthResult.mk false
              (Some (or_default (AuthData.detail data) "Signup failed")) None)
     else
       exec* setItem "guided_token" (AuthData.token data) in
       exec* setToken (Some (AuthData.token data)) in
       exec* setUser (Some (AuthData.user data)) in
       ret (AuthResult.mk true None (Some (AuthData.user data))))
    (ret (AuthResult.mk false (Some "Cannot connect to server") None)).

End AuthProvider.

(* ================================================================== *)
(** ** components/route-guard.tsx *)

Module RouteGuard.

Inductive Rendered := LoadingIndicator | Nothing | Children.

(** The [useEffect] body: the redirect issued for the current session
    state, if any. *)
Definition redirect (user : option User.t) (isLoading : bool)
    (allowedRoles : list Role) : list UiEffect :=
  if isLoading then []
  else
    match user with
    | None => [Replace "/login"]
    | Some u =>
      if negb (bool_decide (User.role u ∈ allowedRoles)) then
        if bool_decide (User.role u = mentor) then [Replace "/mentor/dashboard"]
        else if bool_decide (User.role u = admin) then [Replace "/"]
        else [Replace "/candidate/workflow"]
      else []
    end.

(** The component's return value. *)
Definition render (user : option User.t) (isLoading : bool)
    (allowedRoles : list Role) : Rendered :=
  if isLoading then LoadingIndicator
  else
    match user with
    | None => Nothing
    | Some u =>
      if negb (bool_decide (User.role u ∈ allowedRoles)) then Nothing
      else Children
    end.

End RouteGuard.

(* ================================================================== *)
(** ** app/mentor/verification/page.tsx *)

Module VerificationStatus.
Record t := mk {
  verified : bool;
  pending : bool;
  linkedinUrl : string
}.
End VerificationStatus.

Module MentorVerificationPage.

Inductive Status := loading | unsubmitted | pending | verified.

Record State := mkState {
  linkedinUrl : string;
  status : Status;
  isSubmitting : bool
}.

Definition setStatus (v : Status) : Eff State :=
  SetState (fun s => mkState (linkedinUrl s) v (isSubmitting s)).

Definition setLinkedinUrl (v : string) : Eff State :=
  SetState (fun s => mkState v (status s) (isSubmitting s)).

(** State of a freshly mounted screen. *)
Definition initial : State := mkState EmptyString loading false.

Inductive Call := getMentorVerificationStatus.
Definition Payload (_ : Call) : Type := VerificationStatus.t.

(** The [load] function of the mount effect. *)
Definition load (token : option string) : Prog State Call (Reply Payload) :=
  if negb (truthy_opt token) then Do (Ui (Replace "/login")) Done
  else
    Await getMentorVerificationStatus (fun r =>
      match r with
      | Resolve (Some data) =>
        if VerificationStatus.verified data then Do (setStatus verified) Done
        else if VerificationStatus.pending data then
          Do (setStatus pending)
            (if truthy (VerificationStatus.linkedinUrl data)
             then Do (setLinkedinUrl (VerificationStatus.linkedinUrl data)) Done
             else Done)
        else Do (setStatus unsubmitted) Done
      | Resolve None => Do (setStatus unsubmitted) Done
      | Reject => Done
      end).

End MentorVerificationPage.

(* ================================================================== *)
(** ** app/signup/page.tsx *)

Module SignupPage.

Record State := mkState {
  name : string;
  email : string;
  password : string;
  role : string;
  linkedinUrl : string;
  showPassword : bool;
  isLoading : bool
}.

Definition setIsLoading (v : bool) : Eff State :=
  SetState (fun s => mkState (name s) (email s) (password s) (role s)
                             (linkedinUrl s) (showPassword s) v).

Inductive Call := signup (data : SignupData.t).
Definition Result (_ : Call) : Type := AuthResult.t.

(** [handleSubmit], closed over the form state of the current render.
    [password.length] counts UTF-16 code units. *)
Definition handleSubmit (form : State) : Prog State Call Result :=
  Do (Ui PreventDefault)
  (if negb (truthy (name form)) || negb (truthy (email form))
      || negb (truthy (password form)) then
     Do (Ui (Toast Error "Please fill in all required fields")) Done
   else if Z.of_nat (jsLength (password form)) <? 6 then
     Do (Ui (Toast Error "Password must be at least 6 characters")) Done
   else if String.eqb (role form) "mentor" && negb (truthy (linkedinUrl form)) then
     Do (Ui (Toast Error "LinkedIn URL is required for mentors")) Done
   else
     Do (setIsLoading true)
       (Await (signup (SignupData.mk (email form) (password form) (name form)
                         (role form) (Some (linkedinUrl form))))
          (fun r =>
             match r with
             | Resolve result =>
               Do (setIsLoading false)
                 (if AuthResult.success result then
                    Do (Ui (Toast Success
                              (if String.eqb (role form) "mentor"
                               then "Account created! Your profile is pending verification."
                               else "Account created! Let's set up your profile.")))
                      (Do (Ui (Push (if String.eqb (role form) "mentor"
                                     then "/mentor/verification"
                                     else "/candidate/onboarding"))) Done)
                  else
                    Do (Ui (Toast Error
                              (or_default (AuthResult.error result) "Signup failed")))
                      Done)
             | Reject => Done
             end))).

End SignupPage.

(* ================================================================== *)
(** ** app/candidate/workflow/page.tsx *)

Module Session.
Record t := mk {
  id : string;
  title : string;
  date : string;
  time : string;
  status : string;
  mentor : string;
  notes : option string;
  relative : option string
}.
End Session.

Module ActionItem.
Record t := mk {
  id : string;
  title : string;
  completed : bool;
  dueDate : string
}.
End ActionItem.

Module RoadmapStep.
Record t := mk {
  id : string;
  title : string;
  description : string;
  duration : string;
  status : string
}.
End RoadmapStep.

Module NextSession.
Record t := mk {
  id : string;
  date : string;
  time : string;
  title : string;
  relative : string
}.
End NextSession.

Module Stats.
(** Counts kept by the dashboard.  They are whole numbers; JavaScript
    adds and subtracts 1 exactly on them within the safe-integer range
    ([safeInteger]), which the statements about counter arithmetic
    assume. *)
Record t := mk {
  completedSessions : Z;
  totalSessions : Z;
  completedActions : Z;
  totalActions : Z;
  completedSteps : Z;
  totalSteps : Z
}.
End Stats.

Module WorkflowResponse.
(** Fields the dashboard tests before use ([mentorName], [nextSession],
    [overallProgress], [stats]) may be absent from the payload. *)
Record t := mk {
  candidateId : string;
  mentorName : option string;
  status : string;
  sessions : list Session.t;
  actionItems : list ActionItem.t;
  roadmap : list RoadmapStep.t;
  nextSession : option NextSession.t;
  overallProgress : option Z;
  stats : option Stats.t
}.
End WorkflowResponse.

Module ToggleActionResponse.
Record t := mk {
  message : string;
  actionItemId : string;
  completed : bool;
  completedCount : Z;
  totalCount : Z
}.
End ToggleActionResponse.

Module CompleteSessionResponse.
Record t := mk {
  message : string;
  completedSessions : Z;
  totalSessions : Z
}.
End CompleteSessionResponse.

Module WorkflowDashboard.

Record State := mkState {
  sessions : list Session.t;
  actionItems : list ActionItem.t;
  sampleRoadmap : list RoadmapStep.t;
  mentorName : string;
  nextSession : option NextSession.t;
  overallProgress : Z;
  stats : Stats.t;
  isLoaded : bool
}.

(** State of a freshly mounted dashboard. *)
Definition initial : State :=
  mkState [] [] [] EmptyString None 0 (Stats.mk 0 0 0 0 0 0) false.

(** [setSessions(updater)] and its siblings. *)
Definition setSessions (f : list Session.t -> list Session.t) : Eff State :=
  SetState (fun s => mkState (f (sessions s)) (actionItems s) (sampleRoadmap s)
                             (mentorName s) (nextSession s) (overallProgress s)
                             (stats s) (isLoaded s)).

Definition setActionItems (f : list ActionItem.t -> list ActionItem.t) : Eff State :=
  SetState (fun s => mkState (sessions s) (f (actionItems s)) (sampleRoadmap s)
                             (mentorName s) (nextSession s) (overallProgress s)
                             (stats s) (isLoaded s)).

Definition setSampleRoadmap (v : list RoadmapStep.t) : Eff State :=
  SetState (fun s => mkState (sessions s) (actionItems s) v
                             (mentorName s) (nextSession s) (overallProgress s)
                             (stats s) (isLoaded s)).

Definition setMentorName (v : string) : Eff State :=
  SetState (fun s => mkState (sessions s) (actionItems s) (sampleRoadmap s)
                             v (nextSession s) (overallProgress s)
                             (stats s) (isLoaded s)).

Definition setNextSession (v : option NextSession.t) : Eff State :=
  SetState (fun s => mkState (sessions s) (actionItems s) (sampleRoadmap s)
                             (mentorName s) v (overallProgress s)
                             (stats s) (isLoaded s)).

Definition setOverallProgress (v : Z) : Eff State :=
  SetState (fun s => mkState (sessions s) (actionItems s) (sampleRoadmap s)
                             (mentorName s) (nextSession s) v
                             (stats s) (isLoaded s)).

Definition setStats (f : Stats.t -> Stats.t) : Eff State :=
  SetState (fun s => mkState (sessions s) (actionItems s) (sampleRoadmap s)
                             (mentorName s) (nextSession s) (overallProgress s)
                             (f (stats s)) (isLoaded s)).

Definition setIsLoaded (v : bool) : Eff State :=
  SetState (fun s => mkState (sessions s) (actionItems s) (sampleRoadmap s)
                             (mentorName s) (nextSession s) (overallProgress s)
                             (stats s) v).

(** [{ ...a, completed: v }] *)
Definition withCompleted (v : bool) (a : ActionItem.t) : ActionItem.t :=
  ActionItem.mk (ActionItem.id a) (ActionItem.title a) v (ActionItem.dueDate a).

(** [{ ...s, status: v }] *)
Definition withStatus (v : string) (s : Session.t) : Session.t :=
  Session.mk (Session.id s) (Session.title s) (Session.date s) (Session.time s)
             v (Session.mentor s) (Session.notes s) (Session.relative s).

(** [{ ...s, status: v, relative: r }] *)
Definition withStatusRelative (v r : string) (s : Session.t) : Session.t :=
  Session.mk (Session.id s) (Session.title s) (Session.date s) (Session.time s)
             v (Session.mentor s) (Session.notes s) (Some r).

(** [{ ...s, completedActions: v }] *)
Definition withCompletedActions (v : Z) (s : Stats.t) : Stats.t :=
  Stats.mk (Stats.completedSessions s) (Stats.totalSessions s) v
           (Stats.totalActions s) (Stats.completedSteps s) (Stats.totalSteps s).

(** [{ ...s, completedSessions: v }] *)
Definition withCompletedSessions (v : Z) (s : Stats.t) : Stats.t :=
  Stats.mk v (Stats.totalSessions s) (Stats.completedActions s)
           (Stats.totalActions s) (Stats.completedSteps s) (Stats.totalSteps s).

Inductive Call :=
| getWorkflow (candidateId : string)
| toggleActionItem (candidateId actionItemId : string) (completed : bool)
| completeSession (sessionId : string).

Definition Payload (c : Call) : Type :=
  match c with
  | getWorkflow _ => WorkflowResponse.t
  | toggleActionItem _ _ _ => ToggleActionResponse.t
  | completeSession _ => CompleteSessionResponse.t
  end.

(** [user?.id] when truthy. *)
Definition userId (user : option User.t) : option string :=
  match user with
  | Some u => if truthy (User.id u) then Some (User.id u) else None
  | None => None
  end.

Definition loadData (user : option User.t) : Prog State Call (Reply Payload) :=
  match userId user with
  | None => Done
  | Some uid =>
    Await (getWorkflow uid) (fun r =>
      match r with
      | Resolve (Some res) =>
        Do (setSessions (fun _ => WorkflowResponse.sessions res))
        (Do (setActionItems (fun _ => WorkflowResponse.actionItems res))
        (Do (setSampleRoadmap (WorkflowResponse.roadmap res))
        ((if truthy_opt (WorkflowResponse.mentorName res)
          then Do (setMentorName (default EmptyString (WorkflowResponse.mentorName res)))
          else fun k => k)
        (Do (setNextSession (WorkflowResponse.nextSession res))
        (Do (setOverallProgress (default 0 (WorkflowResponse.overallProgress res)))
        ((match WorkflowResponse.stats res with
          | Some st => Do (setStats (fun _ => st))
          | None => fun k => k
          end)
        (Do (setIsLoaded true) Done)))))))
      | Resolve None => Do (setIsLoaded true) Done
      | Reject => Done
      end)
  end.

Definition handleToggleAction (user : option User.t) (itemId : string)
    (currentCompleted : bool) : Prog State Call (Reply Payload) :=
  match userId user with
  | None => Done
  | Some uid =>
    let newCompleted := negb currentCompleted in
    Do (setActionItems (fun prev =>
          map (fun a => if String.eqb (ActionItem.id a) itemId
                        then withCompleted newCompleted a else a) prev))
    (Do (setStats (fun s =>
          withCompletedActions
            (Stats.completedActions s + (if newCompleted then 1 else -1)) s))
    (Await (toggleActionItem uid itemId newCompleted) (fun r =>
       match r with
       | Resolve (Some _) => Done
       | Resolve None =>
         Do (setActionItems (fun prev =>
               map (fun a => if String.eqb (ActionItem.id a) itemId
                             then withCompleted currentCompleted a else a) prev))
         (Do (setStats (fun s =>
               withCompletedActions
                 (Stats.completedActions s + (if newCompleted then -1 else 1)) s))
         (Do (Ui (Toast Error "Failed to update action item")) Done))
       | Reject => Done
       end)))
  end.

Definition handleCompleteSession (user : option User.t) (sessionId : string)
  : Prog State Call (Reply Payload) :=
  Do (setSessions (fun prev =>
        map (fun s => if String.eqb (Session.id s) sessionId
                      then withStatusRelative "completed" "Completed" s else s) prev))
  (Do (setStats (fun s =>
        withCompletedSessions (Stats.completedSessions s + 1) s))
  (Do (Ui (Toast Success "Session marked as completed!"))
  (Await (completeSession sessionId) (fun r =>
     match r with
     | Resolve (Some _) => loadData user
     | Resolve None =>
       Do (setSessions (fun prev =>
             map (fun s => if String.eqb (Session.id s) sessionId
                           then withStatus "upcoming" s else s) prev))
       (Do (setStats (fun s =>
             withCompletedSessions (Stats.completedSessions s - 1) s))
       (Do (Ui (Toast Error "Failed to complete session")) Done))
     | Reject => Done
     end)))).

(** What the user can trigger on the mounted dashboard. *)
Inductive Action :=
| Mount
| ToggleAction (itemId : string) (currentCompleted : bool)
| CompleteSession (sessionId : string).

Definition handler (user : option User.t) (a : Action)
  : Prog State Call (Reply Payload) :=
  match a with
  | Mount => loadData user
  | ToggleAction itemId cur => handleToggleAction user itemId cur
  | CompleteSession sessionId => handleCompleteSession user sessionId
  end.

(** States of a dashboard mounted for [user]: the initial state, then
    any number of handler runs, each against whatever the network does.
    The signed-in user stays the same while the dashboard is mounted. *)
Inductive Reachable (user : option User.t) : State -> Prop :=
| reach_initial : Reachable user initial
| reach_step (s : State) (a : Action)
    (net : forall c, FetchOutcome (Payload c)) :
    Reachable user s ->
    Reachable user (exec (effects (apiOracle net) (handler user a)) s).

End WorkflowDashboard.

(* ================================================================== *)
(** ** app/mentor/dashboard/page.tsx *)

Module MentorRequest.
Record t := mk {
  id : string;
  candidateName : string;
  candidateGoal : string;
  experience : string;
  status : string;
  submittedAt : string
}.
End MentorRequest.

Module SessionDetails.
Record t := mk {
  date : string;
  time : string;
  mentorName : string;
  candidateName : string
}.
End SessionDetails.

Module AcceptResponse.
Record t := mk {
  message : string;
  calendarUrl : option string;
  sessionDetails : option SessionDetails.t
}.
End AcceptResponse.

Module CalendarInfo.
Record t := mk {
  url : string;
  date : string;
  time : string;
  candidateName : string
}.
End CalendarInfo.

Module MentorDashboard.

(** The state the accept and decline handlers read or write; the KPI
    cards, session list and mentee list are display-only here. *)
Record State := mkState {
  mentorRequests : list MentorRequest.t;
  calendarInfo : option CalendarInfo.t;
  isLoaded : bool
}.

Definition setMentorRequests (f : list MentorRequest.t -> list MentorRequest.t)
  : Eff State :=
  SetState (fun s => mkState (f (mentorRequests s)) (calendarInfo s) (isLoaded s)).

Definition setCalendarInfo (v : option CalendarInfo.t) : Eff State :=
  SetState (fun s => mkState (mentorRequests s) v (isLoaded s)).

(** [{ ...r, status: v }] *)
Definition withStatus (v : string) (r : MentorRequest.t) : MentorRequest.t :=
  MentorRequest.mk (MentorRequest.id r) (MentorRequest.candidateName r)
                   (MentorRequest.candidateGoal r) (MentorRequest.experience r)
                   v (MentorRequest.submittedAt r).

Inductive Call :=
| postMentorAccept (mentorshipId : string)
| postMentorDecline (mentorshipId : string).

Definition Payload (c : Call) : Type :=
  match c with
  | postMentorAccept _ => AcceptResponse.t
  | postMentorDecline _ => string
  end.

(** [res.sessionDetails?.field || ""] *)
Definition detailOrEmpty (d : option SessionDetails.t)
    (field : SessionDetails.t -> string) : string :=
  match d with
  | Some x => field x
  | None => EmptyString
  end.

Definition handleAccept (reqId : string) : Prog State Call (Reply Payload) :=
  Await (postMentorAccept reqId) (fun r =>
    match r with
    | Resolve (Some res) =>
      Do (setMentorRequests (fun prev =>
            map (fun r => if String.eqb (MentorRequest.id r) reqId
                          then withStatus "accepted" r else r) prev))
      (match AcceptResponse.calendarUrl res with
       | Some url =>
         if truthy url then
           Do (setCalendarInfo (Some (CalendarInfo.mk url
                 (detailOrEmpty (AcceptResponse.sessionDetails res) SessionDetails.date)
                 (detailOrEmpty (AcceptResponse.sessionDetails res) SessionDetails.time)
                 (detailOrEmpty (AcceptResponse.sessionDetails res)
                                SessionDetails.candidateName))))
           (Do (Ui (WindowOpen url "_blank")) Done)
         else Done
       | None => Done
       end)
    | Resolve None => Done
    | Reject => Done
    end).

Definition handleDecline (reqId : string) : Prog State Call (Reply Payload) :=
  Await (postMentorDecline reqId) (fun r =>
    match r with
    | Resolve (Some _) =>
      Do (setMentorRequests (fun prev =>
            map (fun r => if String.eqb (MentorRequest.id r) reqId
                          then withStatus "declined" r else r) prev))
      Done
    | Resolve None => Done
    | Reject => Done
    end).

End MentorDashboard.

(* ================================================================== *)
(** ** Validation as the sign-up form words it *)

(** The form cannot be submitted: a required field is empty, the
    password is shorter than six characters (UTF-16 code units, as
    JavaScript counts them), or a mentor gave no LinkedIn URL. *)
Definition signupInvalid (form : SignupPage.State) : Prop :=
  SignupPage.name form = EmptyString
  \/ SignupPage.email form = EmptyString
  \/ SignupPage.password form = EmptyString
  \/ (jsLength (SignupPage.password form) < 6)%nat
  \/ (SignupPage.role form = "mentor"
      /\ SignupPage.linkedinUrl form = EmptyString).

(** The canonical home of a role. *)
Definition roleHome (r : Role) : string :=
  match r with
  | mentor => "/mentor/dashboard"
  | admin => "/"
  | candidate => "/candidate/workflow"
  end.

(* ================================================================== *)
(** ** lib/auth-context.tsx: restoring and ending a session *)

Module AuthSession.
Import AuthProvider.

Definition removeItem (key : string) : Async unit :=
  fun s => (Resolve tt,
            mkState (user s) (token s) (isLoading s)
                    (delete key (localStorage s))).

Definition setIsLoading (v : bool) : Async unit :=
  fun s => (Resolve tt, mkState (user s) (token s) v (localStorage s)).

(** [localStorage.getItem(key)] *)
Definition getItem (key : string) : Async (option string) :=
  fun s => (Resolve (localStorage s !! key), s).

(** State of a freshly mounted provider over the browser's storage. *)
Definition mounted (storage : gmap string string) : State :=
  mkState None None true storage.

(** The mount effect: validate a stored token against [/auth/me]. *)
Definition restore (net : FetchOutcome User.t) : Async unit :=
  let* stored := getItem "guided_token" in
  if truthy_opt stored then
    exec* setToken stored in
    tryCatch
      (let* r := awaiting (fetch net) in
       let* data := awaiting (if ok r then json r else Reject) in
       exec* setUser (Some data) in
       setIsLoading false)
      (exec* removeItem "guided_token" in
       exec* setToken None in
       setIsLoading false)
  else setIsLoading false.

Definition logout : Async unit :=
  exec* removeItem "guided_token" in
  exec* removeItem "candidateId" in
  exec* removeItem "onboardingData" in
  exec* setToken None in
  setUser None.

End AuthSession.

(* ================================================================== *)
(** ** lib/api.ts: the token on outgoing requests *)

Module ApiClient.

(** [getToken]: [None] for [window] stands for server-side rendering. *)
Definition getToken (window : option (gmap string string)) : option string :=
  match window with
  | None => None
  | Some localStorage => localStorage !! "guided_token"
  end.

(** The [headers] object [apiFetch] passes to [fetch]; in an object
    literal a later spread overrides an earlier key. *)
Definition requestHeaders (token : option string)
    (optionsHeaders : gmap string string) : gmap string string :=
  optionsHeaders
  ∪ ((match token with
      | Some t => if truthy t then {[ "Authorization" := "Bearer " ++ t ]} else ∅
      | None => ∅
      end)
     ∪ {[ "Content-Type" := "application/json" ]}).

End ApiClient.

(* ================================================================== *)
(** ** Awaiting one handler inside another *)

Section Embedding.
Context {St St' : Type} {C C' : Type} {R : C -> Type} {R' : C' -> Type}.
Variable inState : (St -> St) -> St' -> St'.
Variable inCall : C -> C'.
Variable outReply : forall c : C, Promise (R' (inCall c)) -> Promise (R c).

(** [await inner(); rest]: the inner handler's effects and calls, then
    the rest of the outer one. *)
Fixpoint awaitHandler (inner : Prog St C R) (rest : Prog St' C' R')
  : Prog St' C' R' :=
  match inner with
  | Done => rest
  | Do (Ui u) k => Do (Ui u) (awaitHandler k rest)
  | Do (SetState f) k => Do (SetState (inState f)) (awaitHandler k rest)
  | Await c k => Await (inCall c) (fun r => awaitHandler (k (outReply c r)) rest)
  end.

End Embedding.

(* ================================================================== *)
(** ** app/login/page.tsx: the form *)

Module LoginForm.

Record State := mkState {
  email : string;
  password : string;
  showPassword : bool;
  isLoading : bool
}.

Definition setEmail (v : string) : Eff State :=
  SetState (fun s => mkState v (password s) (showPassword s) (isLoading s)).

Definition setPassword (v : string) : Eff State :=
  SetState (fun s => mkState (email s) v (showPassword s) (isLoading s)).

Definition setIsLoading (v : bool) : Eff State :=
  SetState (fun s => mkState (email s) (password s) (showPassword s) v).

Inductive Call :=
| login (email password : string)
| candidateStatus.

Definition Result (c : Call) : Type :=
  match c with
  | login _ _ => AuthResult.t
  | candidateStatus => option CandidateStatus.t
  end.

(** [await smartRedirect(role, verified)] inside a form handler. *)
Definition awaitSmartRedirect (role : Role) (verified : bool)
    (rest : Prog State Call Result) : Prog State Call Result :=
  awaitHandler (fun _ s => s) (fun _ : StatusCall => candidateStatus)
               (fun _ r => r)
               (LoginPage.smartRedirect role verified) rest.

(** What both handlers do after [login] has been called. *)
Definition afterLogin (r : Promise AuthResult.t) : Prog State Call Result :=
  match r with
  | Resolve result =>
    match AuthResult.success result, AuthResult.user result with
    | true, Some u =>
      Do (Ui (Toast Success "Welcome back!"))
        (awaitSmartRedirect (User.role u) (User.verified u)
           (Do (setIsLoading false) Done))
    | _, _ =>
      Do (Ui (Toast Error (or_default (AuthResult.error result) "Login failed")))
        (Do (setIsLoading false) Done)
    end
  | Reject => Done
  end.

Definition handleSubmit (form : State) : Prog State Call Result :=
  Do (Ui PreventDefault)
  (if negb (truthy (email form)) || negb (truthy (password form)) then
     Do (Ui (Toast Error "Please fill in all fields")) Done
   else
     Do (setIsLoading true)
       (Await (login (email form) (password form)) afterLogin)).

Definition quickLogin (email : string) : Prog State Call Result :=
  Do (setEmail email)
  (Do (setPassword "password")
  (Do (setIsLoading true)
  (Await (login email "password") afterLogin))).

(** The page's calls answered by the session store and the API client:
    [login] runs against [authNet] on the store state [session], the
    status request against [statusNet']. *)
Definition oracle (authNet : FetchOutcome AuthData.t)
    (session : AuthProvider.State)
    (statusNet' : FetchOutcome CandidateStatus.t)
  : forall c, Promise (Result c) :=
  fun c =>
    match c with
    | login e p => fst (AuthProvider.login authNet e p session)
    | candidateStatus => apiFetch statusNet'
    end.

End LoginForm.

(* ================================================================== *)
(** ** Derived lists of the dashboards *)

Module WorkflowView.

(** [sessions.filter((s) => s.status === "upcoming")] *)
Definition upcomingSessions (sessions : list Session.t) : list Session.t :=
  List.filter (fun s => String.eqb (Session.status s) "upcoming") sessions.

(** [sessions.filter((s) => s.status === "completed")] *)
Definition completedSessionsList (sessions : list Session.t) : list Session.t :=
  List.filter (fun s => String.eqb (Session.status s) "completed") sessions.

End WorkflowView.

Module MentorView.

(** [mentorRequests.filter((r) => r.status === "pending")] *)
Definition pendingRequests (requests : list MentorRequest.t)
  : list MentorRequest.t :=
  List.filter (fun r => String.eqb (MentorRequest.status r) "pending") requests.

End MentorView.

(* ================================================================== *)
(** ** Which roles each page's guard admits *)

(** The [allowedRoles] each page passes to its [RouteGuard]; [None] for
    a page rendered without a guard. *)
Definition pageGuard (path : string) : option (list Role) :=
  if String.eqb path "/candidate/onboarding" then Some [candidate]
  else if String.eqb path "/candidate/roadmap" then Some [candidate]
  else if String.eqb path "/candidate/mentors" then Some [candidate]
  else if String.eqb path "/candidate/checkout" then Some [candidate]
  else if String.eqb path "/candidate/workflow" then Some [candidate]
  else if String.eqb path "/mentor/dashboard" then Some [mentor]
  else if String.eqb path "/mentor/verification" then Some [mentor]
  else if String.eqb path "/admin/dashboard" then Some [admin]
  else None.

(** What the guard of [path] does for a session; an unguarded page
    renders and redirects nowhere. *)
Definition guardRedirect (path : string) (user : option User.t)
    (isLoading : bool) : list UiEffect :=
  match pageGuard path with
  | Some allowedRoles => RouteGuard.redirect user isLoading allowedRoles
  | None => []
  end.

Definition guardRender (path : string) (user : option User.t)
    (isLoading : bool) : RouteGuard.Rendered :=
  match pageGuard path with
  | Some allowedRoles => RouteGuard.render user isLoading allowedRoles
  | None => RouteGuard.Children
  end.

(* ================================================================== *)
(** ** app/mentor/verification/page.tsx: submitting the LinkedIn URL *)

(** [s.includes(needle)] *)
Fixpoint includes (s needle : string) : bool :=
  String.prefix needle s
  || match s with
     | EmptyString => false
     | String _ rest => includes rest needle
     end.

Module SubmitReply.
Record t := mk {
  message : string;
  status : string
}.
End SubmitReply.

Module MentorVerificationSubmit.
Import MentorVerificationPage.

Definition setIsSubmitting (v : bool) : Eff State :=
  SetState (fun s => mkState (linkedinUrl s) (status s) v).

Inductive Call := postMentorVerifySubmit (linkedinUrl : string).
Definition Payload (_ : Call) : Type := SubmitReply.t.

Definition handleSubmit (form : State) : Prog State Call (Reply Payload) :=
  Do (Ui PreventDefault)
  (if negb (includes (linkedinUrl form) "linkedin.com") then
     Do (Ui (Toast Error "Please enter a valid LinkedIn URL")) Done
   else
     Do (setIsSubmitting true)
       (Await (postMentorVerifySubmit (linkedinUrl form)) (fun r =>
          match r with
          | Resolve (Some _) =>
            Do (setStatus pending)
              (Do (Ui (Toast Success "Verification request submitted!"))
                (Do (setIsSubmitting false) Done))
          | Resolve None =>
            Do (Ui (Toast Error "Submission failed. Please try again."))
              (Do (setIsSubmitting false) Done)
          | Reject => Done
          end))).

End MentorVerificationSubmit.

(* ================================================================== *)
(** ** app/candidate/onboarding/page.tsx: the wizard's navigation *)

Module FormData.
Record t := mk {
  careerGoal : string;
  targetRole : string;
  targetCompany : string;
  skillLevel : string;
  experienceLevel : string;
  resumeUploaded : bool
}.
End FormData.

Module OnboardingPage.

(** The wizard's React state together with the browser storage its last
    step writes to. *)
Record State := mkState {
  currentStep : Z;
  formData : FormData.t;
  isSubmitting : bool;
  localStorage : gmap string string
}.

Definition initial (storage : gmap string string) : State :=
  mkState 1 (FormData.mk EmptyString EmptyString EmptyString EmptyString
                         EmptyString false) false storage.

(** [steps.length] *)
Definition totalSteps : Z := 5.

Definition setCurrentStep (v : Z) : Eff State :=
  SetState (fun s => mkState v (formData s) (isSubmitting s) (localStorage s)).

Definition setIsSubmitting (v : bool) : Eff State :=
  SetState (fun s => mkState (currentStep s) (formData s) v (localStorage s)).

Definition setItem (key value : string) : Eff State :=
  SetState (fun s => mkState (currentStep s) (formData s) (isSubmitting s)
                             (<[key := value]> (localStorage s))).

Inductive Call := postOnboarding (data : FormData.t).

Section Wizard.
(** The reply of [postOnboarding]; the wizard never reads it. *)
Variable OnboardingResponse : Type.
(** [JSON.stringify] on the form data. *)
Variable stringify : FormData.t -> string.

Definition Payload (_ : Call) : Type := OnboardingResponse.

(** [handleNext], closed over the state of the render it belongs to.
    The request's outcome is ignored: the [try]/[catch] swallows a
    rejection and the reply is not read. *)
Definition handleNext (st : State) : Prog State Call (Reply Payload) :=
  if currentStep st <? totalSteps then
    Do (setCurrentStep (currentStep st + 1)) Done
  else
    Do (setIsSubmitting true)
      (Await (postOnboarding (formData st)) (fun _ =>
         Do (setItem "onboardingData" (stringify (formData st)))
           (Do (setIsSubmitting false)
             (Do (Ui (Push "/candidate/roadmap")) Done)))).

Definition handleBack (st : State) : Prog State Call (Reply Payload) :=
  if 1 <? currentStep st then Do (setCurrentStep (currentStep st - 1)) Done
  else Done.

End Wizard.

End OnboardingPage.

(* ================================================================== *)
(** ** app/candidate/checkout/page.tsx: confirming the purchase *)

Module CheckoutResponse.
Record t := mk {
  message : string;
  mentorId : string;
  mentorName : string;
  sessionsCount : Z;
  subtotal : Z;
  platformFee : Z;
  total : Z
}.
End CheckoutResponse.

Module CheckoutResult.
Record t := mk {
  mentorName : string;
  sessionsCount : Z;
  total : Z
}.
End CheckoutResult.

Module CheckoutPage.

Section Mentor.
(** The mentor profile shown on the page; the handler only tests that
    it has been loaded. *)
Variable MentorData : Type.

Record State := mkState {
  mentor : option MentorData;
  confirmed : bool;
  isProcessing : bool;
  checkoutResult : option CheckoutResult.t;
  error : string
}.

Definition setConfirmed (v : bool) : Eff State :=
  SetState (fun s => mkState (mentor s) v (isProcessing s)
                             (checkoutResult s) (error s)).

Definition setIsProcessing (v : bool) : Eff State :=
  SetState (fun s => mkState (mentor s) (confirmed s) v
                             (checkoutResult s) (error s)).

Definition setCheckoutResult (v : option CheckoutResult.t) : Eff State :=
  SetState (fun s => mkState (mentor s) (confirmed s) (isProcessing s)
                             v (error s)).

Definition setError (v : string) : Eff State :=
  SetState (fun s => mkState (mentor s) (confirmed s) (isProcessing s)
                             (checkoutResult s) v).

Inductive Call := postCheckout (mentorId candidateId : string).
Definition Payload (_ : Call) : Type := CheckoutResponse.t.

(** [searchParams.get("mentor") || "m1"] *)
Definition mentorIdOf (param : option string) : string := or_default param "m1".

(** [handleConfirm], closed over the render's [user], [mentor] and
    [mentorId]. *)
Definition handleConfirm (user : option User.t) (mentorId : string)
    (st : State) : Prog State Call (Reply Payload) :=
  match WorkflowDashboard.userId user, mentor st with
  | Some uid, Some _ =>
    Do (setIsProcessing true)
    (Do (setError EmptyString)
    (Await (postCheckout mentorId uid) (fun r =>
       match r with
       | Resolve reply =>
         Do (setIsProcessing false)
           (match reply with
            | Some res =>
              Do (setCheckoutResult
                    (Some (CheckoutResult.mk (CheckoutResponse.mentorName res)
                             (CheckoutResponse.sessionsCount res)
                             (CheckoutResponse.total res))))
              (Do (setConfirmed true)
              (Do (Ui (Toast Success "Mentorship confirmed!")) Done))
            | None =>
              Do (setError "Payment failed. Please try again.")
              (Do (Ui (Toast Error "Something went wrong. Please try again."))
                 Done)
            end)
       | Reject => Done
       end)))
  | _, _ => Done
  end.

End Mentor.

End CheckoutPage.

(* ================================================================== *)
(** ** app/candidate/mentors/page.tsx: client-side filters *)

Module Mentor.
(** [rating] is the one field that is not an integer; its type is left
    open.  Prices and years of experience are whole numbers. *)
Record t {Rating : Type} := mk {
  id : string;
  name : string;
  role : string;
  company : string;
  avatar : string;
  experience : Z;
  domain : string;
  pricePerSession : Z;
  available : bool;
  rating : Rating;
  sessions : Z;
  bio : string
}.
Arguments t : clear implicits.
End Mentor.

Module MentorDiscoveryPage.

Section Filters.
Context {Rating : Type}.
(** [field.toLowerCase().includes(query.toLowerCase())] *)
Variable containsIgnoringCase : string -> string -> bool.

Definition matchesSearch (searchQuery : string) (m : Mentor.t Rating) : bool :=
  String.eqb searchQuery EmptyString
  || containsIgnoringCase (Mentor.name m) searchQuery
  || containsIgnoringCase (Mentor.role m) searchQuery
  || containsIgnoringCase (Mentor.company m) searchQuery.

Definition matchesDomain (domainFilter : string) (m : Mentor.t Rating) : bool :=
  String.eqb domainFilter "all" || String.eqb (Mentor.domain m) domainFilter.

Definition matchesPrice (priceFilter : string) (m : Mentor.t Rating) : bool :=
  String.eqb priceFilter "all"
  || (String.eqb priceFilter "under-6000" && (Mentor.pricePerSession m <? 6000))
  || (String.eqb priceFilter "6000-10000"
      && (6000 <=? Mentor.pricePerSession m)
      && (Mentor.pricePerSession m <=? 10000))
  || (String.eqb priceFilter "over-10000" && (10000 <? Mentor.pricePerSession m)).

Definition matchesExperience (experienceFilter : string) (m : Mentor.t Rating)
  : bool :=
  String.eqb experienceFilter "all"
  || (String.eqb experienceFilter "5+" && (5 <=? Mentor.experience m))
  || (String.eqb experienceFilter "8+" && (8 <=? Mentor.experience m))
  || (String.eqb experienceFilter "10+" && (10 <=? Mentor.experience m)).

Definition filtered (searchQuery domainFilter priceFilter experienceFilter : string)
    (allMentors : list (Mentor.t Rating)) : list (Mentor.t Rating) :=
  List.filter (fun m =>
      matchesSearch searchQuery m && matchesDomain domainFilter m
      && matchesPrice priceFilter m && matchesExperience experienceFilter m)
    allMentors.

End Filters.

(** [[...new Set(values)]]: each value once, in order of first
    appearance. *)
Fixpoint uniqueInOrder (seen values : list string) : list string :=
  match values with
  | [] => []
  | v :: rest =>
    if bool_decide (v ∈ seen) then uniqueInOrder seen rest
    else v :: uniqueInOrder (v :: seen) rest
  end.

Definition domains {Rating} (allMentors : list (Mentor.t Rating)) : list string :=
  uniqueInOrder [] (map Mentor.domain allMentors).

End MentorDiscoveryPage.

(* ================================================================== *)
(** ** What the dashboard counters stand for *)

(** The number of action items ticked off, as the checklist shows it. *)
Definition completedCount (items : list ActionItem.t) : Z :=
  Z.of_nat (length (List.filter ActionItem.completed items)).

(** The number of sessions listed as completed. *)
Definition completedSessionCount (sessions : list Session.t) : Z :=
  Z.of_nat (length (WorkflowView.completedSessionsList sessions)).


(* ================================================================== *)
(** ** The sign-up form wired to the session store *)

(** The form's [signup] call answered by the session store's [signup]
    running against [net] on the store state [session]. *)
Definition signupOracle (net : FetchOutcome AuthData.t)
    (session : AuthProvider.State)
  : forall c, Promise (SignupPage.Result c) :=
  fun c =>
    match c with
    | SignupPage.signup data => fst (AuthProvider.signup net data session)
    end.


(* ================================================================== *)
(** ** States the onboarding wizard can be in *)

Section WizardStates.
Variable OnboardingResponse : Type.
Variable stringify : FormData.t -> string.
Variable storage : gmap string string.

(** The wizard starts on step 1.  From then on the user edits the form
    and presses Continue or Back; a handler belongs to some earlier
    render, and its state updates arrive one at a time, possibly while
    a submission is still pending and after other handlers have run.
    So from a state [s] the next state is reached by any one effect of
    a handler closed over any reachable state [s0]. *)
Inductive WizardReachable : OnboardingPage.State -> Prop :=
| wizard_initial : WizardReachable (OnboardingPage.initial storage)
| wizard_edit (s : OnboardingPage.State) (data : FormData.t) :
    WizardReachable s ->
    WizardReachable
      (OnboardingPage.mkState (OnboardingPage.currentStep s) data
         (OnboardingPage.isSubmitting s) (OnboardingPage.localStorage s))
| wizard_next (s s0 : OnboardingPage.State) (e : Eff OnboardingPage.State)
    (oracle : forall c, Promise (Reply (OnboardingPage.Payload OnboardingResponse) c)) :
    WizardReachable s -> WizardReachable s0 ->
    In e (effects oracle
            (OnboardingPage.handleNext OnboardingResponse stringify s0)) ->
    WizardReachable (exec [e] s)
| wizard_back (s s0 : OnboardingPage.State) (e : Eff OnboardingPage.State)
    (oracle : forall c, Promise (Reply (OnboardingPage.Payload OnboardingResponse) c)) :
    WizardReachable s -> WizardReachable s0 ->
    In e (effects oracle (OnboardingPage.handleBack OnboardingResponse s0)) ->
    WizardReachable (exec [e] s).

End WizardStates.


(* ================================================================== *)
(** ** Sample data *)

Definition alex : User.t :=
  User.mk "u1" "candidate@example.test" "Alex" candidate false.

Definition maya : User.t :=
  User.mk "u2" "mentor@example.test" "Maya" mentor true.

Definition signedOut : AuthProvider.State :=
  AuthProvider.mkState None None false ∅.

Definition alexAuth : AuthData.t := AuthData.mk None "tok-1" alex.

Definition mentorFormWithoutLinkedin : SignupPage.State :=
  SignupPage.mkState "Maya" "mentor@example.test" "secret-pw" "mentor"
                     EmptyString false false.

Definition signupRefused : forall c, Promise (SignupPage.Result c) :=
  fun _ => Resolve (AuthResult.mk false (Some "Email already registered") None).

Definition item3 : ActionItem.t :=
  ActionItem.mk "a3" "Build REST API project" false "2026-02-20".

Definition item4 : ActionItem.t :=
  ActionItem.mk "a4" "Write system design doc" false "2026-02-22".

Definition session3 : Session.t :=
  Session.mk "s3" "Portfolio Review" "2026-02-21" "10:00 AM" "upcoming"
             "Ananya Iyer" None (Some "Tomorrow").

Definition dashboard0 : WorkflowDashboard.State :=
  WorkflowDashboard.mkState [session3] [item3; item4] [] "Ananya Iyer" None 40
                            (Stats.mk 2 4 2 5 1 5) true.

(** A network that serves the workflow of [dashboard0]. *)
Definition workflowOnline
  : forall c, FetchOutcome (WorkflowDashboard.Payload c) :=
  fun c =>
    match c with
    | WorkflowDashboard.getWorkflow cid =>
      Arrived true 200
        (Resolve (WorkflowResponse.mk cid (Some "Ananya Iyer") "active"
                    [session3] [item3; item4] [] None (Some 40)
                    (Some (Stats.mk 2 4 2 5 1 5))))
    | WorkflowDashboard.toggleActionItem _ _ _ => NetworkError
    | WorkflowDashboard.completeSession _ => NetworkError
    end.

(** A checklist on which two open items carry the same id. *)
Definition item3twin : ActionItem.t :=
  ActionItem.mk "a3" "Review the API project" false "2026-02-21".

Definition twinWorkflow : WorkflowResponse.t :=
  WorkflowResponse.mk "u1" (Some "Ananya Iyer") "active"
    [session3] [item3; item3twin] [] None (Some 40)
    (Some (Stats.mk 2 4 0 2 1 5)).

Definition twinServing
  : forall c, FetchOutcome (WorkflowDashboard.Payload c) :=
  fun c =>
    match c with
    | WorkflowDashboard.getWorkflow _ => Arrived true 200 (Resolve twinWorkflow)
    | WorkflowDashboard.toggleActionItem _ _ _ => NetworkError
    | WorkflowDashboard.completeSession _ => NetworkError
    end.

Definition twinDashboard : WorkflowDashboard.State :=
  WorkflowDashboard.mkState [session3] [item3; item3twin] [] "Ananya Iyer"
                            None 40 (Stats.mk 2 4 0 2 1 5) true.

(** A password of five accented letters: ten bytes, five code units. *)
Definition accentedForm : SignupPage.State :=
  SignupPage.mkState "Zoé" "zoe@example.test" "ééééé" "candidate"
                     EmptyString false false.

(** A network on which every workflow request fails to connect. *)
Definition workflowOffline
  : forall c, FetchOutcome (WorkflowDashboard.Payload c) :=
  fun _ => NetworkError.

(** A network on which accept succeeds with a link and session details. *)
Definition mentorScheduling
  : forall c, FetchOutcome (MentorDashboard.Payload c) :=
  fun c =>
    match c with
    | MentorDashboard.postMentorAccept _ =>
      Arrived true 200
        (Resolve (AcceptResponse.mk "accepted"
                    (Some "https://calendar.example.test/e1")
                    (Some (SessionDetails.mk "2026-02-12" "10:00 AM"
                             "Maya" "Arjun Mehta"))))
    | MentorDashboard.postMentorDecline _ =>
      Arrived true 200 (Resolve "declined")
    end.

Definition request1 : MentorRequest.t :=
  MentorRequest.mk "req1" "Arjun Mehta" "Frontend engineer" "2 years"
                   "pending" "2026-02-08".

Definition request2 : MentorRequest.t :=
  MentorRequest.mk "req2" "Sneha Patel" "Full-stack" "4 years"
                   "pending" "2026-02-07".

Definition inbox0 : MentorDashboard.State :=
  MentorDashboard.mkState [request1; request2] None true.

(** A network on which every mentor request fails to connect. *)
Definition mentorOffline
  : forall c, FetchOutcome (MentorDashboard.Payload c) :=
  fun _ => NetworkError.

(** A network on which accept and decline succeed; accept returns a
    calendar link. *)
Definition mentorOnline
  : forall c, FetchOutcome (MentorDashboard.Payload c) :=
  fun c =>
    match c with
    | MentorDashboard.postMentorAccept _ =>
      Arrived true 200
        (Resolve (AcceptResponse.mk "accepted"
                    (Some "https://calendar.example.test/e1") None))
    | MentorDashboard.postMentorDecline _ =>
      Arrived true 200 (Resolve "declined")
    end.

Definition storedSession : gmap string string :=
  <["guided_token" := "tok-1"]> (<["theme" := "dark"]> ∅).

Definition alexSignup : SignupData.t :=
  SignupData.mk "candidate@example.test" "secret-pw" "Alex" "candidate" None.

Definition item1 : ActionItem.t :=
  ActionItem.mk "a1" "Complete LeetCode medium problems" true "2026-02-12".

Definition session1 : Session.t :=
  Session.mk "s1" "Goal Setting" "2026-02-10" "10:00 AM" "completed"
             "Ananya Iyer" (Some "Defined 12-week goals.") None.

(** A workflow with one finished and one upcoming session, one ticked
    and two open action items. *)
Definition workflow1 : WorkflowResponse.t :=
  WorkflowResponse.mk "u1" (Some "Ananya Iyer") "active"
    [session1; session3] [item1; item3; item4] [] None (Some 25)
    (Some (Stats.mk 1 2 1 3 0 5)).

(** A network that serves [workflow1] and accepts every mutation. *)
Definition workflowServing1
  : forall c, FetchOutcome (WorkflowDashboard.Payload c) :=
  fun c =>
    match c with
    | WorkflowDashboard.getWorkflow _ => Arrived true 200 (Resolve workflow1)
    | WorkflowDashboard.toggleActionItem _ aid v =>
      Arrived true 200 (Resolve (ToggleActionResponse.mk "ok" aid v 2 3))
    | WorkflowDashboard.completeSession _ =>
      Arrived true 200 (Resolve (CompleteSessionResponse.mk "ok" 2 2))
    end.

Definition dashboard1 : WorkflowDashboard.State :=
  WorkflowDashboard.mkState [session1; session3] [item1; item3; item4] []
                            "Ananya Iyer" None 25 (Stats.mk 1 2 1 3 0 5) true.

Definition alexForm : SignupPage.State :=
  SignupPage.mkState "Alex" "candidate@example.test" "secret-pw" "candidate"
                     EmptyString false false.

Definition alexLogin : LoginForm.State :=
  LoginForm.mkState "candidate@example.test" "password" false false.

(** Two catalogue entries; ratings in tenths. *)
Definition ananya : Mentor.t Z :=
  Mentor.mk Z "m1" "Ananya Iyer" "Senior Software Engineer" "Google" "AI" 8
            "Software Engineering" 6000 true 49 142 "System design coach".

Definition priya : Mentor.t Z :=
  Mentor.mk Z "m3" "Priya Sharma" "Data Scientist" "Infosys" "PS" 5
            "Data Science" 5000 false 47 67 "ML interviews".

(* ================================================================== *)
(** * Properties *)

(** ** The API client *)

Lemma apiFetch_failed {T} (o : FetchOutcome T) :
  fetch_failed o = true -> apiFetch o = Resolve None.
Proof.
  destruct o as [| |b c j]; try reflexivity.
  destruct b, j; simpl; intros H; try reflexivity; discriminate H.
Qed.

Lemma apiFetch_delivered {T} (c : Z) (v : T) :
  apiFetch (Arrived true c (Resolve v)) = Resolve (Some v).
Proof. reflexivity. Qed.

Lemma apiFetch_never_rejects {T} (o : FetchOutcome T) :
  exists v, apiFetch o = Resolve v.
Proof.
  destruct (fetch_failed o) eqn:Hf.
  - exists None. now apply apiFetch_failed.
  - destruct o as [| |[] c [v|]]; try discriminate Hf.
    exists (Some v). reflexivity.
Qed.

(** ** Progression resolver *)

Section Resolver.
Variable oracle : forall c : StatusCall, Promise (StatusReply c).

Lemma smartRedirect_not_mentor (role : Role) (verified : bool) :
  role <> mentor ->
  run oracle (LoginPage.smartRedirect role verified) =
  navigatedOnce (resolvedDestination (oracle getCandidateStatus)).
Proof.
  intros Hr. unfold LoginPage.smartRedirect.
  rewrite bool_decide_eq_false_2 by exact Hr.
  cbn [run]. unfold navigatedOnce, resolvedDestination.
  destruct (oracle getCandidateStatus) as [[flags|]|]; try reflexivity.
  unfold nextStep, optional_flag.
  destruct (CandidateStatus.hasMentor flags),
           (CandidateStatus.hasRoadmap flags),
           (CandidateStatus.hasOnboarded flags); reflexivity.
Qed.

Lemma handleDashboard_not_mentor (u : User.t) :
  User.role u <> mentor ->
  run oracle (LandingPage.handleDashboard (Some u)) =
  navigatedOnce (resolvedDestination (oracle getCandidateStatus)).
Proof.
  intros Hr. unfold LandingPage.handleDashboard.
  rewrite bool_decide_eq_false_2 by exact Hr.
  cbn [run]. unfold navigatedOnce, resolvedDestination.
  destruct (oracle getCandidateStatus) as [[flags|]|]; try reflexivity.
  unfold nextStep, optional_flag.
  destruct (CandidateStatus.hasMentor flags),
           (CandidateStatus.hasRoadmap flags),
           (CandidateStatus.hasOnboarded flags); reflexivity.
Qed.

Lemma handleGetStarted_candidate (u : User.t) :
  User.role u = candidate ->
  run oracle (LandingPage.handleGetStarted (Some u)) =
  navigatedOnce (resolvedDestination (oracle getCandidateStatus)).
Proof.
  intros Hr. unfold LandingPage.handleGetStarted.
  rewrite bool_decide_eq_true_2 by exact Hr.
  cbn [negb run]. unfold navigatedOnce, resolvedDestination.
  destruct (oracle getCandidateStatus) as [[flags|]|]; try reflexivity.
  unfold nextStep, optional_flag.
  destruct (CandidateStatus.hasMentor flags),
           (CandidateStatus.hasRoadmap flags),
           (CandidateStatus.hasOnboarded flags); reflexivity.
Qed.

End Resolver.

Lemma nextStep_destination (flags : CandidateStatus.t) :
  nextStep flags ∈ candidateDestinations.
Proof.
  unfold nextStep, candidateDestinations.
  destruct (CandidateStatus.hasMentor flags),
           (CandidateStatus.hasRoadmap flags),
           (CandidateStatus.hasOnboarded flags);
    rewrite !elem_of_cons; tauto.
Qed.

(** C1. For a signed-in candidate whose progress flags arrive, the
    landing "Get Started" action, the landing dashboard shortcut and the
    post-login redirect each fetch the flags once and navigate exactly
    once, all three to the same screen of the candidate funnel; that
    screen is chosen by first match in the order hasMentor (workflow),
    hasRoadmap (mentor discovery), hasOnboarded (roadmap), none
    (onboarding). *)
Theorem resolver_sites_agree_on_priority
    (u : User.t) (httpCode : Z) (flags : CandidateStatus.t) :
  User.role u = candidate ->
  let oracle := apiOracle (statusNet (Arrived true httpCode (Resolve flags))) in
  run oracle (LandingPage.handleGetStarted (Some u))
    = navigatedOnce (nextStep flags)
  /\ run oracle (LoginPage.smartRedirect (User.role u) (User.verified u))
    = navigatedOnce (nextStep flags)
  /\ run oracle (LandingPage.handleDashboard (Some u))
    = navigatedOnce (nextStep flags)
  /\ nextStep flags ∈ candidateDestinations
  /\ (CandidateStatus.hasMentor flags = true ->
      nextStep flags = "/candidate/workflow")
  /\ (CandidateStatus.hasMentor flags = false ->
      CandidateStatus.hasRoadmap flags = true ->
      nextStep flags = "/candidate/mentors")
  /\ (CandidateStatus.hasMentor flags = false ->
      CandidateStatus.hasRoadmap flags = false ->
      CandidateStatus.hasOnboarded flags = true ->
      nextStep flags = "/candidate/roadmap")
  /\ (CandidateStatus.hasMentor flags = false ->
      CandidateStatus.hasRoadmap flags = false ->
      CandidateStatus.hasOnboarded flags = false ->
      nextStep flags = "/candidate/onboarding").
Proof.
  intros Hu oracle.
  assert (Hm : User.role u <> mentor) by (rewrite Hu; discriminate).
  repeat split.
  - now rewrite handleGetStarted_candidate.
  - now rewrite smartRedirect_not_mentor.
  - now rewrite handleDashboard_not_mentor.
  - apply nextStep_destination.
  - unfold nextStep. now intros ->.
  - unfold nextStep. now intros -> ->.
  - unfold nextStep. now intros -> -> ->.
  - unfold nextStep. now intros -> -> ->.
Qed.

Lemma resolver_sites_agree_on_priority_witness :
  run (apiOracle (statusNet (Arrived true 200
         (Resolve (CandidateStatus.mk "active" true false true None)))))
      (LandingPage.handleGetStarted (Some alex))
  = navigatedOnce "/candidate/mentors".
Proof.
  exact (proj1 (resolver_sites_agree_on_priority alex 200
                  (CandidateStatus.mk "active" true false true None)
                  eq_refl)).
Defined.

(** C7. When the progress-flag request fails (network error, timeout,
    non-2xx response, or a body that is not JSON) the API client yields
    [null] without throwing, and every resolver call site navigates
    exactly once, to onboarding. *)
Theorem resolver_onboarding_on_failed_fetch
    (u : User.t) (o : FetchOutcome CandidateStatus.t) :
  User.role u = candidate ->
  fetch_failed o = true ->
  let oracle := apiOracle (statusNet o) in
  apiFetch o = Resolve None
  /\ run oracle (LandingPage.handleGetStarted (Some u))
    = navigatedOnce "/candidate/onboarding"
  /\ run oracle (LoginPage.smartRedirect (User.role u) (User.verified u))
    = navigatedOnce "/candidate/onboarding"
  /\ run oracle (LandingPage.handleDashboard (Some u))
    = navigatedOnce "/candidate/onboarding".
Proof.
  intros Hu Hf oracle.
  assert (Hm : User.role u <> mentor) by (rewrite Hu; discriminate).
  assert (Ho : oracle getCandidateStatus = Resolve None)
    by (apply apiFetch_failed, Hf).
  repeat split.
  - now apply apiFetch_failed.
  - rewrite handleGetStarted_candidate by exact Hu. now rewrite Ho.
  - rewrite smartRedirect_not_mentor by exact Hm. now rewrite Ho.
  - rewrite handleDashboard_not_mentor by exact Hm. now rewrite Ho.
Qed.

Lemma resolver_onboarding_on_failed_fetch_witness :
  run (apiOracle (statusNet (Arrived false 503 Reject)))
      (LoginPage.smartRedirect candidate false)
  = navigatedOnce "/candidate/onboarding".
Proof.
  exact (proj1 (proj2 (proj2
    (resolver_onboarding_on_failed_fetch alex (Arrived false 503 Reject)
       eq_refl eq_refl)))).
Defined.

(** ** Session store *)

(** C8. [login] always settles with a result, never with an exception.
    When the server accepts, the token is persisted and token and
    identity are both set, and the result is [{success: true, user}].
    When the request is rejected, unreadable or never arrives, the
    result is [{success: false, error}] and the store is exactly as it
    was. *)
Theorem login_settles_all_or_nothing
    (net : FetchOutcome AuthData.t) (email password : string)
    (s : AuthProvider.State) :
  exists r s',
    AuthProvider.login net email password s = (Resolve r, s')
    /\ AuthResult.success r = negb (fetch_failed net)
    /\ (forall c d, net = Arrived true c (Resolve d) ->
          r = AuthResult.mk true None (Some (AuthData.user d))
          /\ s' = AuthProvider.mkState
                    (Some (AuthData.user d)) (Some (AuthData.token d))
                    (AuthProvider.isLoading s)
                    (<["guided_token" := AuthData.token d]>
                       (AuthProvider.localStorage s)))
    /\ (fetch_failed net = true ->
          is_Some (AuthResult.error r)
          /\ AuthResult.user r = None
          /\ s' = s).
Proof.
  destruct net as [| |b c [d|]].
  1,2: do 2 eexists; repeat split; try discriminate; eauto.
  - destruct b.
    + do 2 eexists. split; [reflexivity|]. split; [reflexivity|].
      split; [|discriminate].
      intros c' d' [= <- <-]. split; reflexivity.
    + do 2 eexists. split; [reflexivity|]. split; [reflexivity|].
      split; [discriminate|]. intros _. cbn. eauto.
  - do 2 eexists. split; [reflexivity|].
    split; [now destruct b|]. split; [discriminate|].
    intros _. cbn. eauto.
Qed.

Lemma login_settles_all_or_nothing_witness :
  AuthProvider.login (Arrived true 200 (Resolve alexAuth))
                     "candidate@example.test" "password" signedOut
  = (Resolve (AuthResult.mk true None (Some alex)),
     AuthProvider.mkState (Some alex) (Some "tok-1") false
                          (<["guided_token" := "tok-1"]> ∅))
  /\ AuthProvider.login NetworkError
                        "candidate@example.test" "password" signedOut
     = (Resolve (AuthResult.mk false (Some "Cannot connect to server") None),
        signedOut).
Proof.
  split.
  - destruct (login_settles_all_or_nothing
                (Arrived true 200 (Resolve alexAuth))
                "candidate@example.test" "password" signedOut)
      as (r & s' & Hrun & _ & Hok & _).
    destruct (Hok 200 alexAuth eq_refl) as [-> ->]. exact Hrun.
  - reflexivity.
Defined.

(** ** Access gate *)

Lemma guard_children_iff user isLoading allowedRoles :
  RouteGuard.render user isLoading allowedRoles = RouteGuard.Children
  <-> isLoading = false
      /\ exists u, user = Some u /\ User.role u ∈ allowedRoles.
Proof.
  unfold RouteGuard.render.
  destruct isLoading; [split; [discriminate | intros [[=] _]]|].
  destruct user as [u|].
  - destruct (decide (User.role u ∈ allowedRoles)) as [Hin|Hout].
    + rewrite bool_decide_eq_true_2 by exact Hin. cbn. split; eauto.
    + rewrite bool_decide_eq_false_2 by exact Hout. cbn.
      split; [discriminate|]. intros [_ (u' & [= <-] & Hin)]. contradiction.
  - split; [discriminate|]. intros [_ (u' & [=] & _)].
Qed.

(** C6. The route guard has three non-rendering states and one
    rendering state.  While the session is loading it shows the loading
    indicator and redirects nowhere, whoever the user is.  Once loaded,
    with no user it redirects to sign-in and renders nothing; with a
    user whose role is not allowed it redirects to that role's home
    (mentor dashboard for a mentor, the top-level page for an admin, the
    candidate workflow otherwise) and renders nothing.  The children are
    rendered exactly when the session is loaded and the user's role is
    allowed, and then no redirect is issued. *)
Theorem route_guard_states
    (user : option User.t) (isLoading : bool) (allowedRoles : list Role) :
  (isLoading = true ->
     RouteGuard.render user isLoading allowedRoles = RouteGuard.LoadingIndicator
     /\ RouteGuard.redirect user isLoading allowedRoles = [])
  /\ (isLoading = false -> user = None ->
     RouteGuard.redirect user isLoading allowedRoles = [Replace "/login"]
     /\ RouteGuard.render user isLoading allowedRoles = RouteGuard.Nothing)
  /\ (forall u, isLoading = false -> user = Some u ->
     User.role u ∉ allowedRoles ->
     RouteGuard.redirect user isLoading allowedRoles
       = [Replace (roleHome (User.role u))]
     /\ RouteGuard.render user isLoading allowedRoles = RouteGuard.Nothing)
  /\ (RouteGuard.render user isLoading allowedRoles = RouteGuard.Children
     <-> isLoading = false
         /\ exists u, user = Some u /\ User.role u ∈ allowedRoles)
  /\ (RouteGuard.render user isLoading allowedRoles = RouteGuard.Children ->
     RouteGuard.redirect user isLoading allowedRoles = []).
Proof.
  split; [|split; [|split; [|split]]].
  - intros ->. split; reflexivity.
  - intros -> ->. split; reflexivity.
  - intros u -> -> Hout. unfold RouteGuard.redirect, RouteGuard.render.
    rewrite bool_decide_eq_false_2 by exact Hout. cbn.
    split; [|reflexivity]. now destruct (User.role u).
  - apply guard_children_iff.
  - intros H. apply guard_children_iff in H as [-> (u & -> & Hin)].
    unfold RouteGuard.redirect.
    now rewrite bool_decide_eq_true_2 by exact Hin.
Qed.

Lemma route_guard_states_witness :
  RouteGuard.redirect (Some maya) false [candidate]
    = [Replace "/mentor/dashboard"]
  /\ RouteGuard.render (Some maya) false [candidate] = RouteGuard.Nothing.
Proof.
  destruct (route_guard_states (Some maya) false [candidate])
    as (_ & _ & Hwrong & _).
  apply (Hwrong maya eq_refl eq_refl).
  rewrite list_elem_of_singleton. discriminate.
Defined.

(** ** Mentor verification screen *)

Lemma load_status (token : option string)
    (oracle : forall c, Promise (Reply MentorVerificationPage.Payload c))
    (s : MentorVerificationPage.State) :
  truthy_opt token = true ->
  MentorVerificationPage.status
    (exec (effects oracle (MentorVerificationPage.load token)) s)
  = match oracle MentorVerificationPage.getMentorVerificationStatus with
    | Resolve (Some d) =>
      if VerificationStatus.verified d then MentorVerificationPage.verified
      else if VerificationStatus.pending d then MentorVerificationPage.pending
      else MentorVerificationPage.unsubmitted
    | Resolve None => MentorVerificationPage.unsubmitted
    | Reject => MentorVerificationPage.status s
    end.
Proof.
  intros Htok. unfold MentorVerificationPage.load.
  rewrite Htok. cbn [negb effects].
  destruct (oracle MentorVerificationPage.getMentorVerificationStatus)
    as [[[v p l]|]|]; try reflexivity.
  cbn [VerificationStatus.verified VerificationStatus.pending
       VerificationStatus.linkedinUrl].
  destruct v, p, (truthy l); reflexivity.
Qed.

(** C9. With a session token present, the verification screen leaves
    the loading state once the status request settles.  From an arrived
    status, [verified] wins over [pending]: verified if [verified] is
    set, else pending if [pending] is set, else unsubmitted.  When the
    request fails the screen shows the submission form (unsubmitted). *)
Theorem verification_status_tristate
    (token : option string)
    (net : forall c, FetchOutcome (MentorVerificationPage.Payload c))
    (s : MentorVerificationPage.State) :
  truthy_opt token = true ->
  let final :=
    exec (effects (apiOracle net) (MentorVerificationPage.load token)) s in
  MentorVerificationPage.status final <> MentorVerificationPage.loading
  /\ (forall c d,
       net MentorVerificationPage.getMentorVerificationStatus
         = Arrived true c (Resolve d) ->
       MentorVerificationPage.status final
       = if VerificationStatus.verified d then MentorVerificationPage.verified
         else if VerificationStatus.pending d then MentorVerificationPage.pending
         else MentorVerificationPage.unsubmitted)
  /\ (fetch_failed (net MentorVerificationPage.getMentorVerificationStatus) = true ->
       MentorVerificationPage.status final = MentorVerificationPage.unsubmitted).
Proof.
  intros Htok final. subst final.
  rewrite (load_status _ _ _ Htok). unfold apiOracle.
  split; [|split].
  - destruct (apiFetch_never_rejects
                (net MentorVerificationPage.getMentorVerificationStatus))
      as [[d|] ->]; [|discriminate].
    destruct (VerificationStatus.verified d), (VerificationStatus.pending d);
      discriminate.
  - intros c d ->. now rewrite apiFetch_delivered.
  - intros Hf. now rewrite (apiFetch_failed _ Hf).
Qed.

Lemma verification_status_tristate_witness :
  MentorVerificationPage.status
    (exec (effects
             (apiOracle (fun _ => Arrived true 200
                (Resolve (VerificationStatus.mk true true "https://linkedin.com/in/maya"))))
             (MentorVerificationPage.load (Some "tok-2")))
          MentorVerificationPage.initial)
  = MentorVerificationPage.verified.
Proof.
  destruct (verification_status_tristate (Some "tok-2")
              (fun _ => Arrived true 200
                 (Resolve (VerificationStatus.mk true true "https://linkedin.com/in/maya")))
              MentorVerificationPage.initial eq_refl)
    as (_ & Hok & _).
  exact (Hok 200 _ eq_refl).
Defined.

(** ** Sign-up form *)

Lemma truthy_false_iff (s : string) : truthy s = false <-> s = EmptyString.
Proof. destruct s; split; intros H; try reflexivity; discriminate H. Qed.

(** C10. When client-side validation fails (an empty name, email or
    password, a password shorter than six characters, or a mentor without
    a LinkedIn URL) the submit handler does nothing beyond cancelling
    the browser's submit and showing one error notification: it issues
    no sign-up request, navigates nowhere and changes no form state. *)
Theorem signup_rejected_before_request
    (oracle : forall c, Promise (SignupPage.Result c))
    (form : SignupPage.State) :
  signupInvalid form ->
  (exists msg,
     run oracle (SignupPage.handleSubmit form)
     = [Performed (Ui PreventDefault); Performed (Ui (Toast Error msg))])
  /\ calls oracle (SignupPage.handleSubmit form) = []
  /\ exec (effects oracle (SignupPage.handleSubmit form)) form = form.
Proof.
  intros Hinv. unfold SignupPage.handleSubmit.
  destruct (negb (truthy (SignupPage.name form))
            || negb (truthy (SignupPage.email form))
            || negb (truthy (SignupPage.password form))) eqn:Hempty;
    [split; [eexists; reflexivity | split; reflexivity]|].
  destruct (Z.of_nat (jsLength (SignupPage.password form)) <? 6) eqn:Hlen;
    [split; [eexists; reflexivity | split; reflexivity]|].
  destruct (String.eqb (SignupPage.role form) "mentor"
            && negb (truthy (SignupPage.linkedinUrl form))) eqn:Hurl;
    [split; [eexists; reflexivity | split; reflexivity]|].
  exfalso.
  apply orb_false_elim in Hempty as [Hempty Hpw].
  apply orb_false_elim in Hempty as [Hname Hemail].
  apply negb_false_iff in Hname, Hemail, Hpw.
  apply Z.ltb_ge in Hlen.
  destruct Hinv as [H|[H|[H|[H|[Hrole H]]]]].
  - apply truthy_false_iff in H. congruence.
  - apply truthy_false_iff in H. congruence.
  - apply truthy_false_iff in H. congruence.
  - lia.
  - rewrite Hrole, H in Hurl. discriminate Hurl.
Qed.

Lemma signup_rejected_before_request_witness :
  calls signupRefused (SignupPage.handleSubmit mentorFormWithoutLinkedin) = [].
Proof.
  apply (signup_rejected_before_request signupRefused mentorFormWithoutLinkedin).
  unfold signupInvalid. right. right. right. right. split; reflexivity.
Defined.

(** Length is counted as JavaScript counts it: a password of five
    accented letters is too short although it takes ten bytes, and the
    form is turned away with the length error. *)
Lemma signup_counts_code_units (oracle : forall c, Promise (SignupPage.Result c)) :
  jsLength (SignupPage.password accentedForm) = 5%nat
  /\ String.length (SignupPage.password accentedForm) = 10%nat
  /\ run oracle (SignupPage.handleSubmit accentedForm)
     = [Performed (Ui PreventDefault);
        Performed (Ui (Toast Error "Password must be at least 6 characters"))].
Proof. repeat split. Qed.

(** ** Workflow dashboard *)

Lemma lookup_map {A B} (f : A -> B) (l : list A) (i : nat) :
  map f l !! i = f <$> (l !! i).
Proof.
  revert i. induction l as [|x l IH]; intros [|i]; cbn; auto.
Qed.

Lemma toggle_sync_state user uid itemId cur (s : WorkflowDashboard.State) :
  WorkflowDashboard.userId user = Some uid ->
  exec (sync_effects (WorkflowDashboard.handleToggleAction user itemId cur)) s
  = WorkflowDashboard.mkState
      (WorkflowDashboard.sessions s)
      (map (fun a => if String.eqb (ActionItem.id a) itemId
                     then WorkflowDashboard.withCompleted (negb cur) a else a)
           (WorkflowDashboard.actionItems s))
      (WorkflowDashboard.sampleRoadmap s) (WorkflowDashboard.mentorName s)
      (WorkflowDashboard.nextSession s) (WorkflowDashboard.overallProgress s)
      (WorkflowDashboard.withCompletedActions
         (Stats.completedActions (WorkflowDashboard.stats s)
          + (if negb cur then 1 else -1))
         (WorkflowDashboard.stats s))
      (WorkflowDashboard.isLoaded s).
Proof.
  intros Hu. unfold WorkflowDashboard.handleToggleAction. rewrite Hu.
  reflexivity.
Qed.

Lemma toggle_failed_state user uid itemId cur net (s : WorkflowDashboard.State) :
  WorkflowDashboard.userId user = Some uid ->
  fetch_failed (net (WorkflowDashboard.toggleActionItem uid itemId (negb cur)))
    = true ->
  exec (effects (apiOracle net)
          (WorkflowDashboard.handleToggleAction user itemId cur)) s
  = WorkflowDashboard.mkState
      (WorkflowDashboard.sessions s)
      (map (fun a => if String.eqb (ActionItem.id a) itemId
                     then WorkflowDashboard.withCompleted cur a else a)
        (map (fun a => if String.eqb (ActionItem.id a) itemId
                       then WorkflowDashboard.withCompleted (negb cur) a else a)
             (WorkflowDashboard.actionItems s)))
      (WorkflowDashboard.sampleRoadmap s) (WorkflowDashboard.mentorName s)
      (WorkflowDashboard.nextSession s) (WorkflowDashboard.overallProgress s)
      (WorkflowDashboard.withCompletedActions
         (Stats.completedActions (WorkflowDashboard.stats s)
          + (if negb cur then 1 else -1) + (if negb cur then -1 else 1))
         (WorkflowDashboard.stats s))
      (WorkflowDashboard.isLoaded s).
Proof.
  intros Hu Hf. unfold WorkflowDashboard.handleToggleAction. rewrite Hu.
  cbv zeta. cbn [effects]. unfold apiOracle.
  rewrite (apiFetch_failed _ Hf).
  destruct s as [ss ai rm mn ns op [cs ts ca ta cst tst] il]. reflexivity.
Qed.

(** Setters of the other state variables leave the checklist alone. *)
Lemma complete_keeps_items user sessionId oracle (s : WorkflowDashboard.State) :
  WorkflowDashboard.userId user = None ->
  WorkflowDashboard.actionItems
    (exec (effects oracle (WorkflowDashboard.handleCompleteSession user sessionId)) s)
  = WorkflowDashboard.actionItems s.
Proof.
  intros Hu. unfold WorkflowDashboard.handleCompleteSession.
  cbn [effects].
  destruct (oracle (WorkflowDashboard.completeSession sessionId)) as [[res|]|];
    try reflexivity.
  unfold WorkflowDashboard.loadData. rewrite Hu. reflexivity.
Qed.

(** Without a user id nothing ever fills the checklist. *)
Lemma no_user_no_items user (s : WorkflowDashboard.State) :
  WorkflowDashboard.userId user = None ->
  WorkflowDashboard.Reachable user s ->
  WorkflowDashboard.actionItems s = [].
Proof.
  intros Hu Hreach.
  induction Hreach as [|s a net Hreach IH]; [reflexivity|].
  destruct a as [|itemId cur|sessionId]; cbn [WorkflowDashboard.handler].
  - unfold WorkflowDashboard.loadData. rewrite Hu. exact IH.
  - unfold WorkflowDashboard.handleToggleAction. rewrite Hu. exact IH.
  - rewrite complete_keeps_items by exact Hu. exact IH.
Qed.

(** An action item on the dashboard implies a signed-in user with an id. *)
Lemma items_need_user user (s : WorkflowDashboard.State) i a :
  WorkflowDashboard.Reachable user s ->
  WorkflowDashboard.actionItems s !! i = Some a ->
  exists uid, WorkflowDashboard.userId user = Some uid.
Proof.
  intros Hreach Ha.
  destruct (WorkflowDashboard.userId user) as [uid|] eqn:Hu; [eauto|].
  rewrite (no_user_no_items _ _ Hu Hreach) in Ha. discriminate Ha.
Qed.

Lemma twinDashboard_reachable :
  WorkflowDashboard.Reachable (Some alex) twinDashboard.
Proof.
  exact (WorkflowDashboard.reach_step (Some alex) WorkflowDashboard.initial
           WorkflowDashboard.Mount twinServing
           (WorkflowDashboard.reach_initial (Some alex))).
Qed.

(** C5 as stated fails: the toggle finds its item by id, so on a
    checklist where another open item carries the same id, toggling
    the first item changes the other one as well. *)
Lemma toggle_changes_items_sharing_the_id :
  WorkflowDashboard.Reachable (Some alex) twinDashboard
  /\ ~ (forall j b,
          j <> 0%nat ->
          WorkflowDashboard.actionItems twinDashboard !! j = Some b ->
          WorkflowDashboard.actionItems
            (exec (sync_effects
                     (WorkflowDashboard.handleToggleAction (Some alex) "a3" false))
                  twinDashboard) !! j
          = Some b).
Proof.
  split; [exact twinDashboard_reachable|].
  intros H. specialize (H 1%nat item3twin (ltac:(discriminate)) eq_refl).
  cbn in H. discriminate H.
Qed.

(** C5 (amended). On a mounted workflow dashboard whose
    [completedActions] is a safe integer, toggling an action item whose
    [completed] flag is false has taken effect on the in-memory state by
    the time the handler suspends on the remote call: every item with
    that id (the toggled item among them) has [completed] true and is
    otherwise the same, every item with another id is untouched, and
    [completedActions] has grown by exactly one with the other counters
    unchanged.  If the remote call then fails, every item with that id
    has [completed] false and is otherwise the same, so the toggled
    item is what it was before the toggle, items with other ids are
    untouched and all counters are back to what they were. *)
Theorem toggle_action_optimistic
    (user : option User.t) (s : WorkflowDashboard.State)
    (i : nat) (a : ActionItem.t)
    (net : forall c, FetchOutcome (WorkflowDashboard.Payload c)) :
  WorkflowDashboard.Reachable user s ->
  WorkflowDashboard.actionItems s !! i = Some a ->
  ActionItem.completed a = false ->
  safeInteger (Stats.completedActions (WorkflowDashboard.stats s)) ->
  let p := WorkflowDashboard.handleToggleAction user (ActionItem.id a) false in
  let applied := exec (sync_effects p) s in
  let settled := exec (effects (apiOracle net) p) s in
  WorkflowDashboard.actionItems applied !! i
    = Some (ActionItem.mk (ActionItem.id a) (ActionItem.title a) true
                          (ActionItem.dueDate a))
  /\ (forall j b,
       WorkflowDashboard.actionItems s !! j = Some b ->
       WorkflowDashboard.actionItems applied !! j
       = Some (if String.eqb (ActionItem.id b) (ActionItem.id a)
               then ActionItem.mk (ActionItem.id b) (ActionItem.title b) true
                                  (ActionItem.dueDate b)
               else b))
  /\ length (WorkflowDashboard.actionItems applied)
     = length (WorkflowDashboard.actionItems s)
  /\ WorkflowDashboard.stats applied
     = Stats.mk
         (Stats.completedSessions (WorkflowDashboard.stats s))
         (Stats.totalSessions (WorkflowDashboard.stats s))
         (Stats.completedActions (WorkflowDashboard.stats s) + 1)
         (Stats.totalActions (WorkflowDashboard.stats s))
         (Stats.completedSteps (WorkflowDashboard.stats s))
         (Stats.totalSteps (WorkflowDashboard.stats s))
  /\ ((forall uid,
        fetch_failed
          (net (WorkflowDashboard.toggleActionItem uid (ActionItem.id a) true))
        = true) ->
      WorkflowDashboard.actionItems settled !! i = Some a
      /\ (forall j b,
           WorkflowDashboard.actionItems s !! j = Some b ->
           WorkflowDashboard.actionItems settled !! j
           = Some (if String.eqb (ActionItem.id b) (ActionItem.id a)
                   then ActionItem.mk (ActionItem.id b) (ActionItem.title b)
                                      false (ActionItem.dueDate b)
                   else b))
      /\ WorkflowDashboard.stats settled = WorkflowDashboard.stats s).
Proof.
  intros Hreach Ha Hflag _ p applied settled. subst p applied settled.
  destruct (items_need_user _ _ _ _ Hreach Ha) as [uid Hu].
  rewrite (toggle_sync_state _ _ _ _ _ Hu).
  cbn [WorkflowDashboard.actionItems WorkflowDashboard.stats negb].
  assert (Happlied : forall j b,
    WorkflowDashboard.actionItems s !! j = Some b ->
    map (fun x => if String.eqb (ActionItem.id x) (ActionItem.id a)
                  then WorkflowDashboard.withCompleted true x else x)
        (WorkflowDashboard.actionItems s) !! j
    = Some (if String.eqb (ActionItem.id b) (ActionItem.id a)
            then ActionItem.mk (ActionItem.id b) (ActionItem.title b) true
                               (ActionItem.dueDate b)
            else b)).
  { intros j b Hb. now rewrite lookup_map, Hb. }
  split; [|split; [|split; [|split]]].
  - rewrite (Happlied i a Ha). now rewrite String.eqb_refl.
  - exact Happlied.
  - apply length_map.
  - now destruct (WorkflowDashboard.stats s).
  - intros Hf. rewrite (toggle_failed_state _ _ _ false _ _ Hu (Hf uid)).
    cbn [WorkflowDashboard.actionItems WorkflowDashboard.stats negb].
    assert (Hsettled : forall j b,
      WorkflowDashboard.actionItems s !! j = Some b ->
      map (fun x => if String.eqb (ActionItem.id x) (ActionItem.id a)
                    then WorkflowDashboard.withCompleted false x else x)
        (map (fun x => if String.eqb (ActionItem.id x) (ActionItem.id a)
                       then WorkflowDashboard.withCompleted true x else x)
             (WorkflowDashboard.actionItems s)) !! j
      = Some (if String.eqb (ActionItem.id b) (ActionItem.id a)
              then ActionItem.mk (ActionItem.id b) (ActionItem.title b) false
                                 (ActionItem.dueDate b)
              else b)).
    { intros j b Hb. rewrite !lookup_map, Hb.
      cbn [fmap option_fmap option_map]. f_equal.
      destruct (String.eqb (ActionItem.id b) (ActionItem.id a)) eqn:Hid.
      - change (ActionItem.id (WorkflowDashboard.withCompleted true b))
          with (ActionItem.id b).
        now rewrite Hid.
      - now rewrite Hid. }
    split; [|split].
    + rewrite (Hsettled i a Ha), String.eqb_refl.
      destruct a as [ia ta ca da]. cbn in Hflag. now subst ca.
    + exact Hsettled.
    + destruct (WorkflowDashboard.stats s) as [cs ts ca ta cst tst].
      unfold WorkflowDashboard.withCompletedActions. cbn. f_equal. lia.
Qed.

Lemma safe_small (n : Z) : - 1000 < n < 1000 -> safeInteger n.
Proof. unfold safeInteger. intros H. split; [|]; lia. Qed.

Lemma dashboard0_reachable : WorkflowDashboard.Reachable (Some alex) dashboard0.
Proof.
  exact (WorkflowDashboard.reach_step (Some alex) WorkflowDashboard.initial
           WorkflowDashboard.Mount workflowOnline
           (WorkflowDashboard.reach_initial (Some alex))).
Qed.

Lemma toggle_action_optimistic_witness :
  WorkflowDashboard.actionItems
    (exec (sync_effects
             (WorkflowDashboard.handleToggleAction (Some alex) "a3" false))
          dashboard0)
    !! 0%nat
  = Some (ActionItem.mk "a3" "Build REST API project" true "2026-02-20")
  /\ WorkflowDashboard.actionItems
      (exec (effects (apiOracle workflowOffline)
               (WorkflowDashboard.handleToggleAction (Some alex) "a3" false))
            dashboard0)
      !! 0%nat
    = Some (ActionItem.mk "a3" "Build REST API project" false "2026-02-20").
Proof.
  destruct (toggle_action_optimistic (Some alex) dashboard0 0%nat item3
              workflowOffline dashboard0_reachable eq_refl eq_refl
              (safe_small 2 ltac:(lia)))
    as (Happlied & _ & _ & _ & Hfailed).
  split; [exact Happlied|].
  exact (proj1 (Hfailed (fun _ => eq_refl))).
Defined.

(** Without a signed-in user the toggle is not performed at all. *)
Lemma toggle_needs_user itemId cur oracle :
  run oracle (WorkflowDashboard.handleToggleAction None itemId cur) = [].
Proof. reflexivity. Qed.

Lemma complete_failed_state user sessionId net (s : WorkflowDashboard.State) :
  fetch_failed (net (WorkflowDashboard.completeSession sessionId)) = true ->
  exec (effects (apiOracle net)
          (WorkflowDashboard.handleCompleteSession user sessionId)) s
  = WorkflowDashboard.mkState
      (map (fun x => if String.eqb (Session.id x) sessionId
                     then WorkflowDashboard.withStatus "upcoming" x else x)
        (map (fun x => if String.eqb (Session.id x) sessionId
                       then WorkflowDashboard.withStatusRelative
                              "completed" "Completed" x
                       else x)
             (WorkflowDashboard.sessions s)))
      (WorkflowDashboard.actionItems s)
      (WorkflowDashboard.sampleRoadmap s) (WorkflowDashboard.mentorName s)
      (WorkflowDashboard.nextSession s) (WorkflowDashboard.overallProgress s)
      (WorkflowDashboard.withCompletedSessions
         (Stats.completedSessions (WorkflowDashboard.stats s) + 1 - 1)
         (WorkflowDashboard.stats s))
      (WorkflowDashboard.isLoaded s).
Proof.
  intros Hf. unfold WorkflowDashboard.handleCompleteSession.
  cbn [effects]. unfold apiOracle. rewrite (apiFetch_failed _ Hf).
  destruct s as [ss ai rm mn ns op [cs ts ca ta cst tst] il]. reflexivity.
Qed.

(** After a failed completion, status and counter are restored but every
    session the apply touched keeps the label the apply gave it. *)
Lemma complete_failed_keeps_label user sessionId net
    (s : WorkflowDashboard.State) (i : nat) (x : Session.t) :
  fetch_failed (net (WorkflowDashboard.completeSession sessionId)) = true ->
  WorkflowDashboard.sessions s !! i = Some x ->
  Session.id x = sessionId ->
  let settled :=
    exec (effects (apiOracle net)
            (WorkflowDashboard.handleCompleteSession user sessionId)) s in
  WorkflowDashboard.sessions settled !! i
  = Some (WorkflowDashboard.withStatusRelative "upcoming" "Completed" x)
  /\ Stats.completedSessions (WorkflowDashboard.stats settled)
     = Stats.completedSessions (WorkflowDashboard.stats s).
Proof.
  intros Hf Hx Hid settled. subst settled.
  rewrite (complete_failed_state _ _ _ _ Hf).
  cbn [WorkflowDashboard.sessions WorkflowDashboard.stats].
  rewrite !lookup_map, Hx. cbn.
  apply String.eqb_eq in Hid. rewrite Hid. cbn. rewrite Hid.
  split; [reflexivity|].
  destruct (WorkflowDashboard.stats s). cbn. lia.
Qed.

(** C2. An upcoming session labelled "Tomorrow" is marked complete while
    the server is unreachable.  After the handler's revert the status is
    "upcoming" again and [completedSessions] is back at its earlier
    value, but the session's relative label is "Completed", not
    "Tomorrow": the revert does not undo the label the apply wrote. *)
Theorem complete_session_revert_loses_label :
  let settled :=
    exec (effects (apiOracle workflowOffline)
            (WorkflowDashboard.handleCompleteSession (Some alex) "s3"))
         dashboard0 in
  Session.relative <$> WorkflowDashboard.sessions dashboard0 = [Some "Tomorrow"]
  /\ Session.relative <$> WorkflowDashboard.sessions settled = [Some "Completed"]
  /\ Session.status <$> WorkflowDashboard.sessions settled = ["upcoming"]
  /\ WorkflowDashboard.stats settled = WorkflowDashboard.stats dashboard0
  /\ WorkflowDashboard.sessions settled <> WorkflowDashboard.sessions dashboard0.
Proof.
  cbv zeta. rewrite (complete_failed_state _ _ workflowOffline _ eq_refl).
  repeat split. cbn. discriminate.
Qed.

(** ** Mentor dashboard *)

Lemma decline_settled_state reqId
    (oracle : forall c, Promise (Reply MentorDashboard.Payload c))
    (s : MentorDashboard.State) :
  exec (effects oracle (MentorDashboard.handleDecline reqId)) s
  = match oracle (MentorDashboard.postMentorDecline reqId) with
    | Resolve (Some _) =>
      MentorDashboard.mkState
        (map (fun r => if String.eqb (MentorRequest.id r) reqId
                       then MentorDashboard.withStatus "declined" r else r)
             (MentorDashboard.mentorRequests s))
        (MentorDashboard.calendarInfo s) (MentorDashboard.isLoaded s)
    | _ => s
    end.
Proof.
  unfold MentorDashboard.handleDecline. cbn [effects].
  destruct (oracle (MentorDashboard.postMentorDecline reqId)) as [[m|]|];
    reflexivity.
Qed.

(** C3 as stated fails: the decline handler has not touched the list
    when it suspends on the remote call, so a pending request is still
    pending then, not declined. *)
Lemma decline_is_not_optimistic :
  ~ (forall r,
       r ∈ MentorDashboard.mentorRequests
             (exec (sync_effects (MentorDashboard.handleDecline "req1")) inbox0) ->
       MentorRequest.id r = "req1" ->
       MentorRequest.status r = "declined").
Proof.
  intros H. specialize (H request1). cbn in H.
  assert (Hd : MentorRequest.status request1 = "declined").
  { apply H; [apply list_elem_of_here | reflexivity]. }
  discriminate Hd.
Qed.

(** C3 (amended). Declining a request changes nothing in the in-memory
    list until the remote decline call has settled.  If the call
    succeeds, every request with that id gets status "declined" with
    its other fields unchanged and all other requests are untouched; if
    it fails, the state is exactly as before, so a pending request
    stays pending. *)
Theorem decline_applies_on_success_only
    (reqId : string)
    (net : forall c, FetchOutcome (MentorDashboard.Payload c))
    (s : MentorDashboard.State) :
  let p := MentorDashboard.handleDecline reqId in
  let settled := exec (effects (apiOracle net) p) s in
  sync_effects p = []
  /\ exec (sync_effects p) s = s
  /\ (forall c msg,
       net (MentorDashboard.postMentorDecline reqId)
         = Arrived true c (Resolve msg) ->
       forall i r,
         MentorDashboard.mentorRequests s !! i = Some r ->
         MentorDashboard.mentorRequests settled !! i
         = Some (if String.eqb (MentorRequest.id r) reqId
                 then MentorRequest.mk
                        (MentorRequest.id r) (MentorRequest.candidateName r)
                        (MentorRequest.candidateGoal r)
                        (MentorRequest.experience r)
                        "declined" (MentorRequest.submittedAt r)
                 else r))
  /\ (fetch_failed (net (MentorDashboard.postMentorDecline reqId)) = true ->
       settled = s).
Proof.
  intros p settled. subst p settled.
  rewrite decline_settled_state. unfold apiOracle.
  split; [reflexivity|]. split; [reflexivity|]. split.
  - intros c msg -> i r Hr. rewrite apiFetch_delivered.
    cbn [MentorDashboard.mentorRequests]. now rewrite lookup_map, Hr.
  - intros Hf. now rewrite (apiFetch_failed _ Hf).
Qed.

Lemma decline_applies_on_success_only_witness :
  exec (effects (apiOracle mentorOffline) (MentorDashboard.handleDecline "req1"))
       inbox0 = inbox0
  /\ MentorDashboard.mentorRequests
       (exec (effects (apiOracle mentorOnline)
                (MentorDashboard.handleDecline "req1")) inbox0) !! 0%nat
     = Some (MentorRequest.mk "req1" "Arjun Mehta" "Frontend engineer"
                              "2 years" "declined" "2026-02-08").
Proof.
  split.
  - exact (proj2 (proj2 (proj2
      (decline_applies_on_success_only "req1" mentorOffline inbox0))) eq_refl).
  - exact (proj1 (proj2 (proj2
      (decline_applies_on_success_only "req1" mentorOnline inbox0)))
      200 "declined" eq_refl 0%nat request1 eq_refl).
Defined.

Lemma accept_run reqId
    (oracle : forall c, Promise (Reply MentorDashboard.Payload c)) :
  exists rest,
    run oracle (MentorDashboard.handleAccept reqId)
    = Issued (MentorDashboard.postMentorAccept reqId)
      :: Settled (MentorDashboard.postMentorAccept reqId) :: rest
    /\ (forall url target,
         Performed (Ui (WindowOpen url target)) ∈ rest ->
         exists res,
           oracle (MentorDashboard.postMentorAccept reqId) = Resolve (Some res)
           /\ AcceptResponse.calendarUrl res = Some url
           /\ truthy url = true).
Proof.
  unfold MentorDashboard.handleAccept. cbn [run].
  eexists. split; [reflexivity|].
  intros url target.
  destruct (oracle (MentorDashboard.postMentorAccept reqId)) as [[res|]|];
    cbn [run]; [|intros H; inversion H..].
  destruct (AcceptResponse.calendarUrl res) as [u|] eqn:Hu.
  - destruct (truthy u) eqn:Ht; cbn [run]; rewrite !elem_of_cons.
    + intros [H|[H|[H|H]]]; try discriminate H.
      * injection H as -> ->. eauto.
      * inversion H.
    + intros [H|H]; [discriminate H | inversion H].
  - cbn [run]. rewrite !elem_of_cons.
    intros [H|H]; [discriminate H | inversion H].
Qed.

(** C4. Accepting a request does nothing before the remote accept call
    has settled.  The scheduling link is opened only in a run whose
    accept call succeeded and returned that link, and then only after
    the call settled.  If the call fails nothing is done at all: no
    window is opened and the state, with the request still pending, is
    unchanged. *)
Theorem accept_opens_calendar_after_success
    (reqId : string)
    (net : forall c, FetchOutcome (MentorDashboard.Payload c))
    (s : MentorDashboard.State) :
  let p := MentorDashboard.handleAccept reqId in
  let accept := MentorDashboard.postMentorAccept reqId in
  sync_effects p = []
  /\ (forall url target,
       Performed (Ui (WindowOpen url target)) ∈ run (apiOracle net) p ->
       exists c res,
         net accept = Arrived true c (Resolve res)
         /\ AcceptResponse.calendarUrl res = Some url)
  /\ (forall pre post url target,
       run (apiOracle net) p
       = (pre ++ Performed (Ui (WindowOpen url target)) :: post)%list ->
       Settled accept ∈ pre)
  /\ (fetch_failed (net accept) = true ->
       run (apiOracle net) p = [Issued accept; Settled accept]
       /\ exec (effects (apiOracle net) p) s = s).
Proof.
  intros p accept. subst p accept.
  destruct (accept_run reqId (apiOracle net)) as (rest & Hrun & Hopen).
  split; [reflexivity|]. split; [|split].
  - intros url target. rewrite Hrun, !elem_of_cons.
    intros [H|[H|H]]; try discriminate H.
    destruct (Hopen url target H) as (res & Hres & Hurl & _).
    unfold apiOracle in Hres.
    destruct (net (MentorDashboard.postMentorAccept reqId))
      as [| |[] c [d|]]; try discriminate Hres.
    injection Hres as ->. eauto.
  - intros pre post url target. rewrite Hrun.
    destruct pre as [|a [|b pre]]; cbn; intros H; try discriminate H.
    injection H as _ <- _. rewrite !elem_of_cons. auto.
  - intros Hf. unfold MentorDashboard.handleAccept.
    cbn [run effects]. unfold apiOracle.
    rewrite (apiFetch_failed _ Hf). split; reflexivity.
Qed.

Lemma accept_opens_calendar_after_success_witness :
  run (apiOracle mentorOffline) (MentorDashboard.handleAccept "req1")
  = [Issued (MentorDashboard.postMentorAccept "req1");
     Settled (MentorDashboard.postMentorAccept "req1")]
  /\ exec (effects (apiOracle mentorOffline)
             (MentorDashboard.handleAccept "req1")) inbox0 = inbox0.
Proof.
  exact (proj2 (proj2 (proj2
    (accept_opens_calendar_after_success "req1" mentorOffline inbox0)))
    eq_refl).
Defined.

(** The resolver never sends a candidate to checkout: of the five
    funnel screens it reaches the other four. *)
Lemma nextStep_skips_checkout (flags : CandidateStatus.t) :
  nextStep flags <> "/candidate/checkout".
Proof.
  unfold nextStep.
  destruct (CandidateStatus.hasMentor flags),
           (CandidateStatus.hasRoadmap flags),
           (CandidateStatus.hasOnboarded flags); discriminate.
Qed.

(* ================================================================== *)
(** * Further properties *)

(** ** Session store: sign-up, restore, logout *)

(** X1. [signup] always settles with a result.  When the server accepts,
    the token is persisted and token and identity are both set; on any
    failure the result carries an error and the store is untouched. *)
Theorem signup_settles_all_or_nothing
    (net : FetchOutcome AuthData.t) (signupData : SignupData.t)
    (s : AuthProvider.State) :
  exists r s',
    AuthProvider.signup net signupData s = (Resolve r, s')
    /\ AuthResult.success r = negb (fetch_failed net)
    /\ (forall c d, net = Arrived true c (Resolve d) ->
          r = AuthResult.mk true None (Some (AuthData.user d))
          /\ s' = AuthProvider.mkState
                    (Some (AuthData.user d)) (Some (AuthData.token d))
                    (AuthProvider.isLoading s)
                    (<["guided_token" := AuthData.token d]>
                       (AuthProvider.localStorage s)))
    /\ (fetch_failed net = true ->
          is_Some (AuthResult.error r)
          /\ AuthResult.user r = None
          /\ s' = s).
Proof.
  destruct net as [| |b c [d|]].
  1,2: do 2 eexists; repeat split; try discriminate; eauto.
  - destruct b; do 2 eexists; (split; [reflexivity|]);
      (split; [reflexivity|]).
    + split; [|discriminate]. intros c' d' [= <- <-]. split; reflexivity.
    + split; [discriminate|]. intros _. cbn. eauto.
  - do 2 eexists. split; [reflexivity|].
    split; [now destruct b|]. split; [discriminate|].
    intros _. cbn. eauto.
Qed.

Lemma signup_settles_all_or_nothing_witness :
  snd (AuthProvider.signup (Arrived false 409 (Resolve alexAuth))
                            alexSignup signedOut)
  = signedOut.
Proof.
  destruct (signup_settles_all_or_nothing
              (Arrived false 409 (Resolve alexAuth)) alexSignup signedOut)
    as (r & s' & Hrun & _ & _ & Hfail).
  destruct (Hfail eq_refl) as (_ & _ & Hs).
  rewrite Hrun. exact Hs.
Defined.

Lemma restore_cases (net : FetchOutcome User.t) (storage : gmap string string) :
  AuthSession.restore net (AuthSession.mounted storage)
  = (Resolve tt,
     match storage !! "guided_token" with
     | Some t =>
       if truthy t then
         match net with
         | Arrived true _ (Resolve u) =>
           AuthProvider.mkState (Some u) (Some t) false storage
         | _ =>
           AuthProvider.mkState None None false (delete "guided_token" storage)
         end
       else AuthProvider.mkState None None false storage
     | None => AuthProvider.mkState None None false storage
     end).
Proof.
  unfold AuthSession.restore, AuthSession.mounted, AuthProvider.bind,
    AuthSession.getItem.
  cbn [AuthProvider.localStorage].
  destruct (storage !! "guided_token") as [t|] eqn:Hs; cbn [truthy_opt];
    [|reflexivity].
  destruct (truthy t); [|reflexivity].
  destruct net as [| |[] c [u|]]; reflexivity.
Qed.

(** X2. Restoring a session on mount always settles and ends the
    loading state.  A stored token the server validates yields that
    token with the returned identity and leaves storage alone; a stored
    token that fails validation is removed from storage and no token or
    identity is kept; with no stored token nothing is requested or
    changed.  In every case token and identity are both present or both
    absent, and a kept token is the one in storage. *)
Theorem restore_settles_consistent
    (net : FetchOutcome User.t) (storage : gmap string string) :
  exists s',
    AuthSession.restore net (AuthSession.mounted storage) = (Resolve tt, s')
    /\ AuthProvider.isLoading s' = false
    /\ (is_Some (AuthProvider.user s') <-> is_Some (AuthProvider.token s'))
    /\ (forall t, AuthProvider.token s' = Some t ->
          AuthProvider.localStorage s' !! "guided_token" = Some t)
    /\ (forall t c u,
          storage !! "guided_token" = Some t -> truthy t = true ->
          net = Arrived true c (Resolve u) ->
          s' = AuthProvider.mkState (Some u) (Some t) false storage)
    /\ (forall t,
          storage !! "guided_token" = Some t -> truthy t = true ->
          fetch_failed net = true ->
          s' = AuthProvider.mkState None None false
                 (delete "guided_token" storage))
    /\ (truthy_opt (storage !! "guided_token") = false ->
          s' = AuthProvider.mkState None None false storage).
Proof.
  eexists. split; [apply restore_cases|].
  destruct (storage !! "guided_token") as [t|] eqn:Hs.
  - destruct (truthy t) eqn:Ht.
    + destruct net as [| |[] c [u|]]; cbn;
        (split; [reflexivity|]); (split; [split; intros [x Hx]; try discriminate Hx; eauto|]);
        (split; [intros t' [=]; subst; try exact Hs|]);
        (split; [intros t' c' u' [= <-] _ [=]; subst; try reflexivity|]);
        (split; [intros t' [= <-] _ Hf; try reflexivity; try discriminate Hf|]);
        try (intros Hfalse; cbn in Hfalse; congruence).
    + cbn. split; [reflexivity|].
      split; [split; intros [x Hx]; discriminate Hx|].
      split; [intros t' [=]|].
      split; [intros t' c u [= <-] Ht'; congruence|].
      split; [intros t' [= <-] Ht'; congruence|]. reflexivity.
  - cbn. split; [reflexivity|].
    split; [split; intros [x Hx]; discriminate Hx|].
    split; [intros t' [=]|].
    split; [intros t' c u [=]|].
    split; [intros t' [=]|]. reflexivity.
Qed.

Lemma restore_settles_consistent_witness :
  AuthSession.restore (Arrived false 401 Reject) (AuthSession.mounted storedSession)
  = (Resolve tt,
     AuthProvider.mkState None None false (delete "guided_token" storedSession)).
Proof.
  destruct (restore_settles_consistent (Arrived false 401 Reject) storedSession)
    as (s' & Hrun & _ & _ & _ & _ & Hbad & _).
  rewrite Hrun. f_equal.
  exact (Hbad "tok-1" eq_refl eq_refl eq_refl).
Defined.

Lemma logout_state (s : AuthProvider.State) :
  AuthSession.logout s
  = (Resolve tt,
     AuthProvider.mkState None None (AuthProvider.isLoading s)
       (delete "onboardingData"
          (delete "candidateId"
             (delete "guided_token" (AuthProvider.localStorage s))))).
Proof. reflexivity. Qed.

(** X3. Logging out always settles; afterwards there is no identity and
    no token in memory, the three session keys are gone from storage
    and every other stored key is as it was.  Logging out again changes
    nothing. *)
Theorem logout_clears_session (s : AuthProvider.State) :
  let s' := snd (AuthSession.logout s) in
  fst (AuthSession.logout s) = Resolve tt
  /\ AuthProvider.user s' = None
  /\ AuthProvider.token s' = None
  /\ AuthProvider.localStorage s' !! "guided_token" = None
  /\ AuthProvider.localStorage s' !! "candidateId" = None
  /\ AuthProvider.localStorage s' !! "onboardingData" = None
  /\ (forall k, k <> "guided_token" -> k <> "candidateId" ->
        k <> "onboardingData" ->
        AuthProvider.localStorage s' !! k = AuthProvider.localStorage s !! k)
  /\ snd (AuthSession.logout s') = s'.
Proof.
  cbv zeta. rewrite !logout_state. cbn [fst snd AuthProvider.user
    AuthProvider.token AuthProvider.localStorage AuthProvider.isLoading].
  repeat split.
  - rewrite !lookup_delete_ne by discriminate. apply lookup_delete_eq.
  - rewrite lookup_delete_ne by discriminate. apply lookup_delete_eq.
  - apply lookup_delete_eq.
  - intros k H1 H2 H3. now rewrite !lookup_delete_ne by congruence.
  - f_equal. apply map_eq. intros k.
    rewrite !lookup_delete. repeat case_decide; reflexivity.
Qed.

Lemma bearer_lookup (token : option string) (h : gmap string string) :
  h !! "Authorization" = None ->
  ApiClient.requestHeaders token h !! "Authorization"
  = match token with
    | Some t => if truthy t then Some ("Bearer " ++ t) else None
    | None => None
    end.
Proof.
  intros Hh. unfold ApiClient.requestHeaders.
  rewrite lookup_union_r by exact Hh.
  destruct token as [t|]; [destruct (truthy t)|].
  - rewrite lookup_union_l' by (rewrite lookup_singleton_eq; eauto).
    apply lookup_singleton_eq.
  - now rewrite lookup_union_r, lookup_singleton_ne by (try apply lookup_empty; discriminate).
  - now rewrite lookup_union_r, lookup_singleton_ne by (try apply lookup_empty; discriminate).
Qed.

(** X4. After a successful login that returned a non-empty token, a
    request built by the API client from browser storage carries
    [Authorization: Bearer <that token>]; after a logout that follows,
    the request carries no [Authorization] header.  (The caller adds no
    headers of its own.) *)
Theorem login_token_reaches_requests
    (c : Z) (d : AuthData.t) (email password : string)
    (s : AuthProvider.State) :
  truthy (AuthData.token d) = true ->
  let loggedIn :=
    snd (AuthProvider.login (Arrived true c (Resolve d)) email password s) in
  let loggedOut := snd (AuthSession.logout loggedIn) in
  ApiClient.requestHeaders
    (ApiClient.getToken (Some (AuthProvider.localStorage loggedIn))) ∅
    !! "Authorization"
  = Some ("Bearer " ++ AuthData.token d)
  /\ ApiClient.requestHeaders
       (ApiClient.getToken (Some (AuthProvider.localStorage loggedOut))) ∅
       !! "Authorization"
     = None.
Proof.
  intros Ht loggedIn loggedOut. subst loggedOut loggedIn.
  rewrite logout_state. cbn [snd AuthProvider.localStorage].
  rewrite !bearer_lookup by apply lookup_empty.
  unfold ApiClient.getToken. split.
  - change (snd (AuthProvider.login (Arrived true c (Resolve d)) email password s))
      with (AuthProvider.mkState (Some (AuthData.user d)) (Some (AuthData.token d))
              (AuthProvider.isLoading s)
              (<["guided_token" := AuthData.token d]> (AuthProvider.localStorage s))).
    cbn [AuthProvider.localStorage]. rewrite lookup_insert_eq. now rewrite Ht.
  - rewrite !lookup_delete_ne by discriminate. now rewrite lookup_delete_eq.
Qed.

Lemma login_token_reaches_requests_witness :
  ApiClient.requestHeaders
    (ApiClient.getToken
       (Some (AuthProvider.localStorage
                (snd (AuthProvider.login (Arrived true 200 (Resolve alexAuth))
                        "candidate@example.test" "password" signedOut))))) ∅
    !! "Authorization"
  = Some "Bearer tok-1".
Proof.
  exact (proj1 (login_token_reaches_requests 200 alexAuth
                  "candidate@example.test" "password" signedOut eq_refl)).
Defined.

(** X5. In the headers the API client sends, a header supplied by the
    caller always wins; otherwise [Content-Type] is [application/json];
    and no [Authorization] header is sent during server-side rendering
    or when the stored token is missing or empty. *)
Theorem request_headers_precedence
    (token : option string) (h : gmap string string) :
  (forall k v, h !! k = Some v ->
     ApiClient.requestHeaders token h !! k = Some v)
  /\ (h !! "Content-Type" = None ->
      ApiClient.requestHeaders token h !! "Content-Type"
      = Some "application/json")
  /\ (h !! "Authorization" = None -> truthy_opt token = false ->
      ApiClient.requestHeaders token h !! "Authorization" = None)
  /\ ApiClient.getToken None = None.
Proof.
  split; [|split; [|split]].
  - intros k v Hk. unfold ApiClient.requestHeaders.
    now apply lookup_union_Some_l.
  - intros Hh. unfold ApiClient.requestHeaders.
    rewrite lookup_union_r by exact Hh.
    rewrite lookup_union_r; [apply lookup_singleton_eq|].
    destruct token as [t|]; [destruct (truthy t)|]; try apply lookup_empty.
    now rewrite lookup_singleton_ne.
  - intros Hh Ht. rewrite bearer_lookup by exact Hh.
    destruct token as [t|]; [|reflexivity]. cbn in Ht. now rewrite Ht.
  - reflexivity.
Qed.

Lemma request_headers_precedence_witness :
  ApiClient.requestHeaders (Some "tok-1") {[ "Authorization" := "Basic abc" ]}
    !! "Authorization"
  = Some "Basic abc".
Proof.
  apply (proj1 (request_headers_precedence (Some "tok-1")
                  {[ "Authorization" := "Basic abc" ]})).
  apply lookup_singleton_eq.
Defined.

Lemma logout_clears_session_witness :
  AuthProvider.localStorage
    (snd (AuthSession.logout
            (AuthProvider.mkState (Some alex) (Some "tok-1") false storedSession)))
    !! "theme"
  = Some "dark".
Proof.
  destruct (logout_clears_session
              (AuthProvider.mkState (Some alex) (Some "tok-1") false storedSession))
    as (_ & _ & _ & _ & _ & _ & Hkeep & _).
  rewrite Hkeep by discriminate. reflexivity.
Defined.

(** ** Progression resolver: the other branches *)

(** X6. For every signed-in user, whatever the role, the landing page's
    dashboard shortcut behaves exactly like the post-login redirect:
    the same requests and the same navigation, under every network
    behaviour. *)
Theorem dashboard_shortcut_is_smart_redirect
    (oracle : forall c : StatusCall, Promise (StatusReply c)) (u : User.t) :
  run oracle (LandingPage.handleDashboard (Some u))
  = run oracle (LoginPage.smartRedirect (User.role u) (User.verified u)).
Proof.
  unfold LandingPage.handleDashboard, LoginPage.smartRedirect.
  destruct (bool_decide (User.role u = mentor)); reflexivity.
Qed.

(** X7. The post-login redirect consults the candidate status for every
    role except mentor.  A mentor is routed without any request, once,
    to the mentor dashboard when verified and to the verification screen
    otherwise. *)
Theorem redirect_requests_status_unless_mentor
    (oracle : forall c : StatusCall, Promise (StatusReply c))
    (role : Role) (verified : bool) :
  (calls oracle (LoginPage.smartRedirect role verified) = [] <-> role = mentor)
  /\ (role = mentor ->
      run oracle (LoginPage.smartRedirect role verified)
      = [Performed (Ui (Push (if verified then "/mentor/dashboard"
                              else "/mentor/verification")))]).
Proof.
  split.
  - unfold LoginPage.smartRedirect.
    destruct (decide (role = mentor)) as [->|Hr]; [split; reflexivity|].
    rewrite bool_decide_eq_false_2 by exact Hr. cbn [calls].
    split; [discriminate | contradiction].
  - intros ->. reflexivity.
Qed.

Lemma redirect_requests_status_unless_mentor_witness :
  run (apiOracle (statusNet NetworkError)) (LoginPage.smartRedirect mentor false)
  = [Performed (Ui (Push "/mentor/verification"))].
Proof.
  exact (proj2 (redirect_requests_status_unless_mentor
                  (apiOracle (statusNet NetworkError)) mentor false) eq_refl).
Defined.

(** X8. "Get Started" consults the candidate status only for a
    signed-in candidate.  A visitor, a mentor and an admin are all sent
    to sign-up without any request, and an admin using the dashboard
    shortcut or logging in is resolved like a candidate. *)
Theorem get_started_requests_only_for_candidates
    (oracle : forall c : StatusCall, Promise (StatusReply c))
    (user : option User.t) :
  (calls oracle (LandingPage.handleGetStarted user) = [getCandidateStatus]
   <-> exists u, user = Some u /\ User.role u = candidate)
  /\ ((forall u, user = Some u -> User.role u <> candidate) ->
      calls oracle (LandingPage.handleGetStarted user) = []
      /\ ui_trace (effects oracle (LandingPage.handleGetStarted user))
         = match user with
           | None => [Push "/signup"]
           | Some _ =>
             [Toast Info "Sign up as a candidate to generate your roadmap";
              Push "/signup"]
           end)
  /\ (forall u, user = Some u -> User.role u = admin ->
      run oracle (LandingPage.handleDashboard user)
      = navigatedOnce (resolvedDestination (oracle getCandidateStatus))).
Proof.
  split; [|split].
  - destruct user as [u|].
    + unfold LandingPage.handleGetStarted.
      destruct (decide (User.role u = candidate)) as [Hc|Hc].
      * rewrite bool_decide_eq_true_2 by exact Hc. cbn [negb calls].
        split; [eauto|]. intros _.
        destruct (oracle getCandidateStatus) as [[flags|]|]; try reflexivity.
        unfold optional_flag.
        destruct (CandidateStatus.hasMentor flags),
                 (CandidateStatus.hasRoadmap flags),
                 (CandidateStatus.hasOnboarded flags); reflexivity.
      * rewrite bool_decide_eq_false_2 by exact Hc. cbn.
        split; [discriminate|]. intros (u' & [= <-] & Hu'). contradiction.
    + cbn. split; [discriminate|]. intros (u' & [=] & _).
  - intros Hnot. destruct user as [u|]; [|split; reflexivity].
    unfold LandingPage.handleGetStarted.
    rewrite bool_decide_eq_false_2 by (apply (Hnot u eq_refl)).
    split; reflexivity.
  - intros u -> Hadmin. apply handleDashboard_not_mentor.
    rewrite Hadmin. discriminate.
Qed.

Lemma get_started_requests_only_for_candidates_witness :
  calls (apiOracle (statusNet NetworkError)) (LandingPage.handleGetStarted (Some maya))
  = [].
Proof.
  apply (proj1 (proj2 (get_started_requests_only_for_candidates
           (apiOracle (statusNet NetworkError)) (Some maya)))).
  intros u [= <-]. discriminate.
Defined.

(** ** Access gate across pages *)

(** X9. A guard's redirect never bounces: once the session has loaded,
    the page a guard sends the viewer to (sign-in for a visitor, the
    role's home for a wrong role) renders for that viewer and issues no
    further redirect. *)
Theorem guard_redirect_lands
    (user : option User.t) (allowedRoles : list Role) (dest : string) :
  RouteGuard.redirect user false allowedRoles = [Replace dest] ->
  guardRedirect dest user false = []
  /\ guardRender dest user false = RouteGuard.Children.
Proof.
  unfold RouteGuard.redirect. destruct user as [u|].
  - destruct (bool_decide (User.role u ∈ allowedRoles)); cbn [negb];
      [discriminate|].
    unfold guardRedirect, guardRender, RouteGuard.redirect, RouteGuard.render.
    destruct (User.role u) eqn:Hr; cbn; intros [= <-]; cbn; rewrite ?Hr;
      split; reflexivity.
  - intros [= <-]. split; reflexivity.
Qed.

Lemma guard_redirect_lands_witness :
  guardRender "/mentor/dashboard" (Some maya) false = RouteGuard.Children.
Proof.
  exact (proj2 (guard_redirect_lands (Some maya) [candidate]
                  "/mentor/dashboard" eq_refl)).
Defined.



(** ** Workflow dashboard: counters, reloads and derived lists *)

Section KeyedUpdate.
Context {A : Type} (key : A -> string) (p : A -> bool).

Lemma map_key_absent (k : string) (f : A -> A) (l : list A) :
  ~ In k (map key l) ->
  map (fun x => if String.eqb (key x) k then f x else x) l = l.
Proof.
  induction l as [|x l IH]; [reflexivity|]. cbn. intros Hk.
  destruct (String.eqb (key x) k) eqn:Hx.
  - apply String.eqb_eq in Hx. tauto.
  - f_equal. apply IH. tauto.
Qed.

Lemma count_after_keyed_update (k : string) (f : A -> A) (l : list A)
    (i : nat) (a : A) :
  NoDup (map key l) -> l !! i = Some a -> key a = k ->
  Z.of_nat (length (List.filter p
     (map (fun x => if String.eqb (key x) k then f x else x) l)))
  = Z.of_nat (length (List.filter p l))
    + (if p (f a) then 1 else 0) - (if p a then 1 else 0).
Proof.
  revert i. induction l as [|x l IH]; intros i Hnd Hi Hk; [discriminate Hi|].
  cbn [map] in Hnd. apply NoDup_cons in Hnd as [Hx Hnd].
  destruct i as [|i]; cbn in Hi.
  - injection Hi as ->. cbn [map List.filter].
    rewrite Hk, String.eqb_refl.
    rewrite map_key_absent
      by (rewrite <- Hk; intros Hin; apply Hx, list_elem_of_In, Hin).
    destruct (p (f a)), (p a); cbn [length]; lia.
  - cbn [map List.filter].
    destruct (String.eqb (key x) k) eqn:Hxk.
    + exfalso. apply String.eqb_eq in Hxk. apply Hx.
      rewrite Hxk, <- Hk. apply list_elem_of_In, in_map.
      apply list_elem_of_In. eapply list_elem_of_lookup_2, Hi.
    + specialize (IH i Hnd Hi Hk).
      destruct (p x); cbn [length]; lia.
Qed.

End KeyedUpdate.

Lemma dashboard1_reachable : WorkflowDashboard.Reachable (Some alex) dashboard1.
Proof.
  exact (WorkflowDashboard.reach_step (Some alex) WorkflowDashboard.initial
           WorkflowDashboard.Mount workflowServing1
           (WorkflowDashboard.reach_initial (Some alex))).
Qed.

(** X11. The toggle works in both directions.  On a mounted dashboard
    whose [completedActions] is a safe integer, toggling an item whose
    flag is [cur] has, by the time the handler suspends, set that
    item's flag to the opposite of [cur], leaving its other fields
    alone, and moved [completedActions] by one: up when the item
    becomes completed, down when it becomes open again; the other
    counters are unchanged.  If the remote call fails, item and
    counters are as before. *)
Theorem toggle_flips_either_way
    (user : option User.t) (s : WorkflowDashboard.State)
    (i : nat) (a : ActionItem.t) (cur : bool)
    (net : forall c, FetchOutcome (WorkflowDashboard.Payload c)) :
  WorkflowDashboard.Reachable user s ->
  WorkflowDashboard.actionItems s !! i = Some a ->
  ActionItem.completed a = cur ->
  safeInteger (Stats.completedActions (WorkflowDashboard.stats s)) ->
  let p := WorkflowDashboard.handleToggleAction user (ActionItem.id a) cur in
  let applied := exec (sync_effects p) s in
  let settled := exec (effects (apiOracle net) p) s in
  WorkflowDashboard.actionItems applied !! i
    = Some (ActionItem.mk (ActionItem.id a) (ActionItem.title a) (negb cur)
                          (ActionItem.dueDate a))
  /\ WorkflowDashboard.stats applied
     = Stats.mk
         (Stats.completedSessions (WorkflowDashboard.stats s))
         (Stats.totalSessions (WorkflowDashboard.stats s))
         (Stats.completedActions (WorkflowDashboard.stats s)
          + (if cur then -1 else 1))
         (Stats.totalActions (WorkflowDashboard.stats s))
         (Stats.completedSteps (WorkflowDashboard.stats s))
         (Stats.totalSteps (WorkflowDashboard.stats s))
  /\ ((forall uid,
        fetch_failed
          (net (WorkflowDashboard.toggleActionItem uid (ActionItem.id a)
                  (negb cur))) = true) ->
      WorkflowDashboard.actionItems settled !! i = Some a
      /\ WorkflowDashboard.stats settled = WorkflowDashboard.stats s).
Proof.
  intros Hreach Ha Hflag _ p applied settled. subst p applied settled.
  destruct (items_need_user _ _ _ _ Hreach Ha) as [uid Hu].
  rewrite (toggle_sync_state _ _ _ _ _ Hu).
  cbn [WorkflowDashboard.actionItems WorkflowDashboard.stats].
  split; [|split].
  - rewrite lookup_map, Ha. cbn [fmap option_fmap option_map].
    now rewrite String.eqb_refl.
  - destruct (WorkflowDashboard.stats s), cur; reflexivity.
  - intros Hf. rewrite (toggle_failed_state _ _ _ cur _ _ Hu (Hf uid)).
    cbn [WorkflowDashboard.actionItems WorkflowDashboard.stats].
    split.
    + rewrite !lookup_map, Ha. cbn [fmap option_fmap option_map].
      rewrite String.eqb_refl.
      unfold WorkflowDashboard.withCompleted at 2. cbn [ActionItem.id].
      rewrite String.eqb_refl.
      destruct a as [ia ta ca da]. cbn in Hflag. now subst ca.
    + destruct (WorkflowDashboard.stats s) as [cs ts ca ta cst tst].
      unfold WorkflowDashboard.withCompletedActions. cbn. f_equal.
      destruct cur; cbn; lia.
Qed.

Lemma toggle_flips_either_way_witness :
  WorkflowDashboard.actionItems
    (exec (sync_effects
             (WorkflowDashboard.handleToggleAction (Some alex) "a1" true))
          dashboard1) !! 0%nat
  = Some (ActionItem.mk "a1" "Complete LeetCode medium problems" false
                        "2026-02-12")
  /\ WorkflowDashboard.stats
       (exec (sync_effects
                (WorkflowDashboard.handleToggleAction (Some alex) "a1" true))
             dashboard1)
     = Stats.mk 1 2 0 3 0 5.
Proof.
  destruct (toggle_flips_either_way (Some alex) dashboard1 0%nat item1
              true workflowOffline dashboard1_reachable eq_refl eq_refl
              (safe_small 1 ltac:(lia)))
    as (Hitem & Hstats & _).
  split; [exact Hitem | exact Hstats].
Defined.

(** X12. The optimistic toggle keeps the counter truthful.  When item
    ids are distinct and [completedActions] equals the number of
    completed items, toggling an item listed with its current flag
    leaves [completedActions] equal to the number of completed items in
    the updated list. *)
Theorem toggle_keeps_counter_in_step
    (user : option User.t) (s : WorkflowDashboard.State)
    (i : nat) (a : ActionItem.t) :
  WorkflowDashboard.Reachable user s ->
  NoDup (map ActionItem.id (WorkflowDashboard.actionItems s)) ->
  WorkflowDashboard.actionItems s !! i = Some a ->
  Stats.completedActions (WorkflowDashboard.stats s)
    = completedCount (WorkflowDashboard.actionItems s) ->
  let applied :=
    exec (sync_effects
            (WorkflowDashboard.handleToggleAction user (ActionItem.id a)
               (ActionItem.completed a))) s in
  Stats.completedActions (WorkflowDashboard.stats applied)
  = completedCount (WorkflowDashboard.actionItems applied).
Proof.
  intros Hreach Hnd Ha Hcount applied. subst applied.
  destruct (items_need_user _ _ _ _ Hreach Ha) as [uid Hu].
  rewrite (toggle_sync_state _ _ _ _ _ Hu).
  cbn [WorkflowDashboard.actionItems WorkflowDashboard.stats].
  unfold completedCount.
  rewrite (count_after_keyed_update ActionItem.id ActionItem.completed
             _ _ _ i a Hnd Ha eq_refl).
  unfold completedCount in Hcount.
  destruct (WorkflowDashboard.stats s) as [cs ts ca ta cst tst].
  cbn in *. destruct a as [ia ta' [] da]; cbn; lia.
Qed.

Lemma toggle_keeps_counter_in_step_witness :
  Stats.completedActions
    (WorkflowDashboard.stats
       (exec (sync_effects
                (WorkflowDashboard.handleToggleAction (Some alex) "a3" false))
             dashboard1))
  = completedCount
      (WorkflowDashboard.actionItems
         (exec (sync_effects
                  (WorkflowDashboard.handleToggleAction (Some alex) "a3" false))
               dashboard1)).
Proof.
  apply (toggle_keeps_counter_in_step (Some alex) dashboard1 1%nat item3
           dashboard1_reachable).
  - cbn. repeat constructor; rewrite ?list_elem_of_In; cbn; intuition discriminate.
  - reflexivity.
  - reflexivity.
Defined.

(** X13. The counter is not derived from the list.  With a signed-in
    user and [completedActions] a safe integer, a toggle whose id
    matches no item carrying the flag it was invoked with (an unknown
    id, or a stale flag) leaves every item as it is, yet still moves
    [completedActions] by one. *)
Theorem toggle_without_match_drifts
    (user : option User.t) (uid itemId : string) (cur : bool)
    (s : WorkflowDashboard.State) :
  WorkflowDashboard.userId user = Some uid ->
  safeInteger (Stats.completedActions (WorkflowDashboard.stats s)) ->
  (forall a, In a (WorkflowDashboard.actionItems s) ->
     ActionItem.id a = itemId -> ActionItem.completed a = negb cur) ->
  let applied :=
    exec (sync_effects (WorkflowDashboard.handleToggleAction user itemId cur)) s in
  WorkflowDashboard.actionItems applied = WorkflowDashboard.actionItems s
  /\ Stats.completedActions (WorkflowDashboard.stats applied)
     = Stats.completedActions (WorkflowDashboard.stats s)
       + (if cur then -1 else 1).
Proof.
  intros Hu _ Hnone applied. subst applied.
  rewrite (toggle_sync_state _ _ _ _ _ Hu).
  cbn [WorkflowDashboard.actionItems WorkflowDashboard.stats].
  split.
  - induction (WorkflowDashboard.actionItems s) as [|a l IH]; [reflexivity|].
    cbn [map]. rewrite IH by (intros b Hb; apply Hnone; now right). f_equal.
    destruct (String.eqb (ActionItem.id a) itemId) eqn:Hid; [|reflexivity].
    apply String.eqb_eq in Hid.
    specialize (Hnone a (or_introl eq_refl) Hid).
    destruct a as [ia ta ca da]. cbn in Hnone. now subst ca.
  - destruct (WorkflowDashboard.stats s), cur; reflexivity.
Qed.

Lemma toggle_without_match_drifts_witness :
  WorkflowDashboard.actionItems
    (exec (sync_effects
             (WorkflowDashboard.handleToggleAction (Some alex) "a9" false))
          dashboard1)
  = WorkflowDashboard.actionItems dashboard1
  /\ Stats.completedActions
       (WorkflowDashboard.stats
          (exec (sync_effects
                   (WorkflowDashboard.handleToggleAction (Some alex) "a9" false))
                dashboard1))
     = 2.
Proof.
  apply (toggle_without_match_drifts (Some alex) "u1" "a9" false dashboard1
           eq_refl (safe_small 1 ltac:(lia))).
  intros a [<-|[<-|[<-|[]]]]; discriminate.
Defined.

Lemma toggle_succeeded_state user uid itemId cur net c reply
    (s : WorkflowDashboard.State) :
  WorkflowDashboard.userId user = Some uid ->
  net (WorkflowDashboard.toggleActionItem uid itemId (negb cur))
    = Arrived true c (Resolve reply) ->
  exec (effects (apiOracle net)
          (WorkflowDashboard.handleToggleAction user itemId cur)) s
  = exec (sync_effects (WorkflowDashboard.handleToggleAction user itemId cur)) s.
Proof.
  intros Hu Hok. unfold WorkflowDashboard.handleToggleAction. rewrite Hu.
  cbv zeta. cbn [effects sync_effects]. unfold apiOracle. rewrite Hok.
  reflexivity.
Qed.

Lemma set_flag_twice (itemId : string) (v w : bool) (l : list ActionItem.t) :
  (forall a, In a l -> ActionItem.id a = itemId -> ActionItem.completed a = w) ->
  map (fun a => if String.eqb (ActionItem.id a) itemId
                then WorkflowDashboard.withCompleted w a else a)
    (map (fun a => if String.eqb (ActionItem.id a) itemId
                   then WorkflowDashboard.withCompleted v a else a) l)
  = l.
Proof.
  induction l as [|a l IH]; intros Hflags; [reflexivity|].
  cbn [map]. rewrite IH by (intros b Hb; apply Hflags; now right). f_equal.
  destruct (String.eqb (ActionItem.id a) itemId) eqn:Hid.
  - change (ActionItem.id (WorkflowDashboard.withCompleted v a))
      with (ActionItem.id a).
    rewrite Hid. apply String.eqb_eq in Hid.
    specialize (Hflags a (or_introl eq_refl) Hid).
    destruct a as [ia ta ca da]. cbn in Hflags. now subst ca.
  - now rewrite Hid.
Qed.

(** X14. Toggling an item and toggling it back, both confirmed by the
    server, returns the dashboard to the state it started from,
    provided [completedActions] is a safe integer and every item with
    that id carried the flag the first toggle was invoked with. *)
Theorem toggle_twice_is_identity
    (user : option User.t) (uid itemId : string) (cur : bool)
    (net : forall c, FetchOutcome (WorkflowDashboard.Payload c))
    (c1 c2 : Z) (r1 r2 : ToggleActionResponse.t)
    (s : WorkflowDashboard.State) :
  WorkflowDashboard.userId user = Some uid ->
  net (WorkflowDashboard.toggleActionItem uid itemId (negb cur))
    = Arrived true c1 (Resolve r1) ->
  net (WorkflowDashboard.toggleActionItem uid itemId cur)
    = Arrived true c2 (Resolve r2) ->
  safeInteger (Stats.completedActions (WorkflowDashboard.stats s)) ->
  (forall a, In a (WorkflowDashboard.actionItems s) ->
     ActionItem.id a = itemId -> ActionItem.completed a = cur) ->
  exec (effects (apiOracle net)
          (WorkflowDashboard.handleToggleAction user itemId (negb cur)))
    (exec (effects (apiOracle net)
             (WorkflowDashboard.handleToggleAction user itemId cur)) s)
  = s.
Proof.
  intros Hu H1 H2 _ Hflags.
  rewrite (toggle_succeeded_state _ _ _ cur _ _ _ _ Hu H1).
  assert (H2' : net (WorkflowDashboard.toggleActionItem uid itemId
                       (negb (negb cur))) = Arrived true c2 (Resolve r2))
    by now rewrite negb_involutive.
  rewrite (toggle_succeeded_state _ _ _ (negb cur) _ _ _ _ Hu H2').
  rewrite !(toggle_sync_state _ _ _ _ _ Hu).
  cbn [WorkflowDashboard.sessions WorkflowDashboard.actionItems
       WorkflowDashboard.sampleRoadmap WorkflowDashboard.mentorName
       WorkflowDashboard.nextSession WorkflowDashboard.overallProgress
       WorkflowDashboard.stats WorkflowDashboard.isLoaded].
  rewrite negb_involutive, (set_flag_twice _ _ _ _ Hflags).
  destruct s as [ss ai rm mn ns op [cs ts ca ta cst tst] il].
  unfold WorkflowDashboard.withCompletedActions. cbn. do 2 f_equal.
  destruct cur; cbn; lia.
Qed.

Lemma toggle_twice_is_identity_witness :
  exec (effects (apiOracle workflowServing1)
          (WorkflowDashboard.handleToggleAction (Some alex) "a3" true))
    (exec (effects (apiOracle workflowServing1)
             (WorkflowDashboard.handleToggleAction (Some alex) "a3" false))
          dashboard1)
  = dashboard1.
Proof.
  apply (toggle_twice_is_identity (Some alex) "u1" "a3" false workflowServing1
           200 200 _ _ dashboard1 eq_refl eq_refl eq_refl
           (safe_small 1 ltac:(lia))).
  intros a [<-|[<-|[<-|[]]]]; intros; try reflexivity; discriminate.
Defined.

Lemma loadData_state user uid net (s : WorkflowDashboard.State) :
  WorkflowDashboard.userId user = Some uid ->
  exec (effects (apiOracle net) (WorkflowDashboard.loadData user)) s
  = match apiFetch (net (WorkflowDashboard.getWorkflow uid)) with
    | Resolve (Some res) =>
      WorkflowDashboard.mkState
        (WorkflowResponse.sessions res) (WorkflowResponse.actionItems res)
        (WorkflowResponse.roadmap res)
        (or_default (WorkflowResponse.mentorName res)
                    (WorkflowDashboard.mentorName s))
        (WorkflowResponse.nextSession res)
        (default 0 (WorkflowResponse.overallProgress res))
        (default (WorkflowDashboard.stats s) (WorkflowResponse.stats res))
        true
    | Resolve None =>
      WorkflowDashboard.mkState
        (WorkflowDashboard.sessions s) (WorkflowDashboard.actionItems s)
        (WorkflowDashboard.sampleRoadmap s) (WorkflowDashboard.mentorName s)
        (WorkflowDashboard.nextSession s) (WorkflowDashboard.overallProgress s)
        (WorkflowDashboard.stats s) true
    | Reject => s
    end.
Proof.
  intros Hu. unfold WorkflowDashboard.loadData. rewrite Hu.
  cbn [effects]. unfold apiOracle.
  destruct (apiFetch (net (WorkflowDashboard.getWorkflow uid)))
    as [[res|]|]; try reflexivity.
  destruct res as [cid [mn|] st ss ai rm ns op [stt|]];
    cbn [WorkflowResponse.mentorName WorkflowResponse.stats truthy_opt
         or_default default];
    try destruct (truthy mn); reflexivity.
Qed.

(** X15. Loading the dashboard for a signed-in user always ends the
    loading state.  When the workflow arrives, sessions, action items,
    roadmap, next session and progress are the server's (a missing
    progress counts as 0), while an empty mentor name or missing stats
    leave the earlier values in place.  When the request fails, all
    data shown so far is kept.  Without a user id nothing is requested
    and nothing changes. *)
Theorem load_data_outcomes
    (user : option User.t)
    (net : forall c, FetchOutcome (WorkflowDashboard.Payload c))
    (s : WorkflowDashboard.State) :
  let loaded := exec (effects (apiOracle net) (WorkflowDashboard.loadData user)) s in
  (forall uid, WorkflowDashboard.userId user = Some uid ->
     WorkflowDashboard.isLoaded loaded = true
     /\ (forall c res,
          net (WorkflowDashboard.getWorkflow uid) = Arrived true c (Resolve res) ->
          WorkflowDashboard.sessions loaded = WorkflowResponse.sessions res
          /\ WorkflowDashboard.actionItems loaded = WorkflowResponse.actionItems res
          /\ WorkflowDashboard.sampleRoadmap loaded = WorkflowResponse.roadmap res
          /\ WorkflowDashboard.nextSession loaded = WorkflowResponse.nextSession res
          /\ WorkflowDashboard.overallProgress loaded
             = default 0 (WorkflowResponse.overallProgress res)
          /\ WorkflowDashboard.mentorName loaded
             = or_default (WorkflowResponse.mentorName res)
                          (WorkflowDashboard.mentorName s)
          /\ WorkflowDashboard.stats loaded
             = default (WorkflowDashboard.stats s) (WorkflowResponse.stats res))
     /\ (fetch_failed (net (WorkflowDashboard.getWorkflow uid)) = true ->
          loaded
          = WorkflowDashboard.mkState
              (WorkflowDashboard.sessions s) (WorkflowDashboard.actionItems s)
              (WorkflowDashboard.sampleRoadmap s) (WorkflowDashboard.mentorName s)
              (WorkflowDashboard.nextSession s)
              (WorkflowDashboard.overallProgress s)
              (WorkflowDashboard.stats s) true))
  /\ (WorkflowDashboard.userId user = None ->
      run (apiOracle net) (WorkflowDashboard.loadData user) = []
      /\ loaded = s).
Proof.
  intros loaded. subst loaded. split.
  - intros uid Hu. rewrite (loadData_state _ _ _ _ Hu).
    split; [|split].
    + destruct (apiFetch_never_rejects (net (WorkflowDashboard.getWorkflow uid)))
        as [[res|] ->]; reflexivity.
    + intros c res ->. rewrite apiFetch_delivered. repeat split.
    + intros Hf. now rewrite (apiFetch_failed _ Hf).
  - intros Hu. unfold WorkflowDashboard.loadData. rewrite Hu.
    split; reflexivity.
Qed.

Lemma load_data_outcomes_witness :
  exec (effects (apiOracle workflowOffline)
          (WorkflowDashboard.loadData (Some alex))) dashboard1
  = dashboard1.
Proof.
  exact (proj2 (proj2 (proj1 (load_data_outcomes (Some alex) workflowOffline
                                dashboard1) "u1" eq_refl)) eq_refl).
Defined.

Lemma complete_sync_state user sessionId (s : WorkflowDashboard.State) :
  exec (sync_effects (WorkflowDashboard.handleCompleteSession user sessionId)) s
  = WorkflowDashboard.mkState
      (map (fun x => if String.eqb (Session.id x) sessionId
                     then WorkflowDashboard.withStatusRelative
                            "completed" "Completed" x
                     else x)
           (WorkflowDashboard.sessions s))
      (WorkflowDashboard.actionItems s)
      (WorkflowDashboard.sampleRoadmap s) (WorkflowDashboard.mentorName s)
      (WorkflowDashboard.nextSession s) (WorkflowDashboard.overallProgress s)
      (WorkflowDashboard.withCompletedSessions
         (Stats.completedSessions (WorkflowDashboard.stats s) + 1)
         (WorkflowDashboard.stats s))
      (WorkflowDashboard.isLoaded s).
Proof. reflexivity. Qed.

Lemma complete_succeeded_state user sessionId net c reply
    (s : WorkflowDashboard.State) :
  net (WorkflowDashboard.completeSession sessionId)
    = Arrived true c (Resolve reply) ->
  exec (effects (apiOracle net)
          (WorkflowDashboard.handleCompleteSession user sessionId)) s
  = exec (effects (apiOracle net) (WorkflowDashboard.loadData user))
         (exec (sync_effects
                  (WorkflowDashboard.handleCompleteSession user sessionId)) s).
Proof.
  intros Hok. unfold WorkflowDashboard.handleCompleteSession.
  cbn [effects sync_effects].
  assert (Hreply : apiOracle net (WorkflowDashboard.completeSession sessionId)
                   = Resolve (Some reply))
    by (unfold apiOracle; now rewrite Hok).
  rewrite Hreply. reflexivity.
Qed.

(** X16. When the server confirms a completed session the dashboard
    reloads.  If the reload arrives, sessions, action items and (when
    present) stats are exactly the server's, whatever the optimistic
    apply had written.  If the reload fails, or there is no user id to
    reload for, the optimistic result stays: every session with that id
    has status "completed" and relative label "Completed" with its
    other fields unchanged, the other sessions are untouched, and
    [completedSessions], a safe integer before, is one higher with the
    other counters unchanged. *)
Theorem complete_session_reconciles
    (user : option User.t) (sessionId : string)
    (net : forall c, FetchOutcome (WorkflowDashboard.Payload c))
    (c : Z) (reply : CompleteSessionResponse.t)
    (s : WorkflowDashboard.State) :
  net (WorkflowDashboard.completeSession sessionId)
    = Arrived true c (Resolve reply) ->
  safeInteger (Stats.completedSessions (WorkflowDashboard.stats s)) ->
  let p := WorkflowDashboard.handleCompleteSession user sessionId in
  let settled := exec (effects (apiOracle net) p) s in
  let optimistic :=
    (forall i x,
       WorkflowDashboard.sessions s !! i = Some x ->
       WorkflowDashboard.sessions settled !! i
       = Some (if String.eqb (Session.id x) sessionId
               then Session.mk (Session.id x) (Session.title x) (Session.date x)
                               (Session.time x) "completed" (Session.mentor x)
                               (Session.notes x) (Some "Completed")
               else x))
    /\ WorkflowDashboard.stats settled
       = Stats.mk
           (Stats.completedSessions (WorkflowDashboard.stats s) + 1)
           (Stats.totalSessions (WorkflowDashboard.stats s))
           (Stats.completedActions (WorkflowDashboard.stats s))
           (Stats.totalActions (WorkflowDashboard.stats s))
           (Stats.completedSteps (WorkflowDashboard.stats s))
           (Stats.totalSteps (WorkflowDashboard.stats s)) in
  (forall uid c' res,
     WorkflowDashboard.userId user = Some uid ->
     net (WorkflowDashboard.getWorkflow uid) = Arrived true c' (Resolve res) ->
     WorkflowDashboard.sessions settled = WorkflowResponse.sessions res
     /\ WorkflowDashboard.actionItems settled = WorkflowResponse.actionItems res
     /\ (forall st, WorkflowResponse.stats res = Some st ->
           WorkflowDashboard.stats settled = st))
  /\ (forall uid,
     WorkflowDashboard.userId user = Some uid ->
     fetch_failed (net (WorkflowDashboard.getWorkflow uid)) = true ->
     optimistic)
  /\ (WorkflowDashboard.userId user = None -> optimistic).
Proof.
  intros Hok _ p settled optimistic. subst p settled optimistic.
  rewrite (complete_succeeded_state _ _ _ _ _ _ Hok).
  assert (Hopt : forall st,
    st = exec (sync_effects
                 (WorkflowDashboard.handleCompleteSession user sessionId)) s ->
    (forall i x,
       WorkflowDashboard.sessions s !! i = Some x ->
       WorkflowDashboard.sessions st !! i
       = Some (if String.eqb (Session.id x) sessionId
               then Session.mk (Session.id x) (Session.title x) (Session.date x)
                               (Session.time x) "completed" (Session.mentor x)
                               (Session.notes x) (Some "Completed")
               else x))
    /\ WorkflowDashboard.stats st
       = Stats.mk
           (Stats.completedSessions (WorkflowDashboard.stats s) + 1)
           (Stats.totalSessions (WorkflowDashboard.stats s))
           (Stats.completedActions (WorkflowDashboard.stats s))
           (Stats.totalActions (WorkflowDashboard.stats s))
           (Stats.completedSteps (WorkflowDashboard.stats s))
           (Stats.totalSteps (WorkflowDashboard.stats s))).
  { intros st ->. rewrite complete_sync_state.
    cbn [WorkflowDashboard.sessions WorkflowDashboard.stats]. split.
    - intros i x Hx. now rewrite lookup_map, Hx.
    - now destruct (WorkflowDashboard.stats s). }
  split; [|split].
  - intros uid c' res Hu Hres.
    rewrite (loadData_state _ _ _ _ Hu), Hres, apiFetch_delivered.
    split; [reflexivity|]. split; [reflexivity|].
    intros st Hsome. cbn [WorkflowDashboard.stats]. now rewrite Hsome.
  - intros uid Hu Hf.
    rewrite (loadData_state _ _ _ _ Hu), (apiFetch_failed _ Hf).
    cbn [WorkflowDashboard.sessions WorkflowDashboard.stats].
    now apply Hopt.
  - intros Hu. unfold WorkflowDashboard.loadData. rewrite Hu.
    now apply Hopt.
Qed.

Lemma complete_session_reconciles_witness :
  WorkflowDashboard.sessions
    (exec (effects (apiOracle workflowServing1)
             (WorkflowDashboard.handleCompleteSession (Some alex) "s3"))
          dashboard1)
  = [session1; session3].
Proof.
  exact (proj1 (proj1 (complete_session_reconciles (Some alex) "s3"
                         workflowServing1 200 _ dashboard1 eq_refl
                         (safe_small 1 ltac:(lia)))
                      "u1" 200 workflow1 eq_refl eq_refl)).
Defined.

Lemma upcoming_after_revert (sessionId : string) (l : list Session.t) :
  (forall x, In x l -> Session.id x = sessionId -> Session.status x = "upcoming") ->
  WorkflowView.upcomingSessions
    (map (fun x => if String.eqb (Session.id x) sessionId
                   then WorkflowDashboard.withStatus "upcoming" x else x)
       (map (fun x => if String.eqb (Session.id x) sessionId
                      then WorkflowDashboard.withStatusRelative
                             "completed" "Completed" x
                      else x) l))
  = map (fun x => if String.eqb (Session.id x) sessionId
                  then Session.mk (Session.id x) (Session.title x) (Session.date x)
                                  (Session.time x) "upcoming" (Session.mentor x)
                                  (Session.notes x) (Some "Completed")
                  else x)
        (WorkflowView.upcomingSessions l)
  /\ WorkflowView.completedSessionsList
       (map (fun x => if String.eqb (Session.id x) sessionId
                      then WorkflowDashboard.withStatus "upcoming" x else x)
          (map (fun x => if String.eqb (Session.id x) sessionId
                         then WorkflowDashboard.withStatusRelative
                                "completed" "Completed" x
                         else x) l))
     = WorkflowView.completedSessionsList l.
Proof.
  unfold WorkflowView.upcomingSessions, WorkflowView.completedSessionsList.
  induction l as [|x l IH]; intros Hup; [split; reflexivity|].
  destruct IH as [IH1 IH2]; [intros y Hy; apply Hup; now right|].
  cbn [map List.filter].
  destruct (String.eqb (Session.id x) sessionId) eqn:Hid.
  - change (Session.id (WorkflowDashboard.withStatusRelative
                          "completed" "Completed" x)) with (Session.id x).
    rewrite Hid. apply String.eqb_eq in Hid.
    rewrite (Hup x (or_introl eq_refl) Hid).
    cbn. rewrite IH1, IH2. apply String.eqb_eq in Hid. rewrite Hid.
    split; reflexivity.
  - rewrite Hid.
    destruct (String.eqb (Session.status x) "upcoming"),
             (String.eqb (Session.status x) "completed");
      cbn [map]; rewrite ?Hid, ?IH1, ?IH2; split; reflexivity.
Qed.

(** X17. Marking an upcoming session complete moves it between the two
    lists the dashboard shows: once the handler suspends, no session
    with that id is listed as upcoming.  If the remote call then fails,
    the completed list is exactly what it was, and the upcoming list is
    the earlier one, in the same order, except that every session with
    that id now carries the relative label "Completed" (its status is
    "upcoming" and its other fields are unchanged). *)
Theorem complete_session_moves_between_lists
    (user : option User.t) (sessionId : string)
    (net : forall c, FetchOutcome (WorkflowDashboard.Payload c))
    (s : WorkflowDashboard.State) :
  (forall x, In x (WorkflowDashboard.sessions s) ->
     Session.id x = sessionId -> Session.status x = "upcoming") ->
  let p := WorkflowDashboard.handleCompleteSession user sessionId in
  let applied := exec (sync_effects p) s in
  let settled := exec (effects (apiOracle net) p) s in
  (forall y, In y (WorkflowView.upcomingSessions (WorkflowDashboard.sessions applied)) ->
     Session.id y <> sessionId)
  /\ (fetch_failed (net (WorkflowDashboard.completeSession sessionId)) = true ->
      WorkflowView.upcomingSessions (WorkflowDashboard.sessions settled)
      = map (fun x =>
               if String.eqb (Session.id x) sessionId
               then Session.mk (Session.id x) (Session.title x) (Session.date x)
                               (Session.time x) "upcoming" (Session.mentor x)
                               (Session.notes x) (Some "Completed")
               else x)
            (WorkflowView.upcomingSessions (WorkflowDashboard.sessions s))
      /\ WorkflowView.completedSessionsList (WorkflowDashboard.sessions settled)
         = WorkflowView.completedSessionsList (WorkflowDashboard.sessions s)).
Proof.
  intros Hup p applied settled. subst p applied settled. split.
  - rewrite complete_sync_state. cbn [WorkflowDashboard.sessions].
    unfold WorkflowView.upcomingSessions.
    intros y Hy Hid. apply filter_In in Hy as [Hy Hst].
    apply in_map_iff in Hy as (x & Hx & _).
    destruct (String.eqb (Session.id x) sessionId) eqn:Hxid; subst y.
    + discriminate Hst.
    + apply String.eqb_neq in Hxid. contradiction.
  - intros Hf. rewrite (complete_failed_state _ _ _ _ Hf).
    cbn [WorkflowDashboard.sessions].
    now apply upcoming_after_revert.
Qed.

Lemma complete_session_moves_between_lists_witness :
  WorkflowView.upcomingSessions
    (WorkflowDashboard.sessions
       (exec (effects (apiOracle workflowOffline)
                (WorkflowDashboard.handleCompleteSession (Some alex) "s3"))
             dashboard1))
  = [Session.mk "s3" "Portfolio Review" "2026-02-21" "10:00 AM" "upcoming"
                "Ananya Iyer" None (Some "Completed")].
Proof.
  refine (proj1 (proj2 (complete_session_moves_between_lists (Some alex) "s3"
                          workflowOffline dashboard1 _) eq_refl)).
  intros x [<-|[<-|[]]]; intros; try reflexivity; discriminate.
Defined.

(** ** Mentor dashboard: the inbox after a decision *)

Lemma accept_settled_requests reqId
    (oracle : forall c, Promise (Reply MentorDashboard.Payload c))
    (s : MentorDashboard.State) :
  MentorDashboard.mentorRequests
    (exec (effects oracle (MentorDashboard.handleAccept reqId)) s)
  = match oracle (MentorDashboard.postMentorAccept reqId) with
    | Resolve (Some _) =>
      map (fun r => if String.eqb (MentorRequest.id r) reqId
                    then MentorDashboard.withStatus "accepted" r else r)
          (MentorDashboard.mentorRequests s)
    | _ => MentorDashboard.mentorRequests s
    end.
Proof.
  unfold MentorDashboard.handleAccept. cbn [effects].
  destruct (oracle (MentorDashboard.postMentorAccept reqId)) as [[res|]|];
    try reflexivity.
  destruct (AcceptResponse.calendarUrl res) as [url|]; [|reflexivity].
  destruct (truthy url); reflexivity.
Qed.

Lemma pending_after_decision (reqId verdict : string)
    (l : list MentorRequest.t) :
  verdict <> "pending" ->
  MentorView.pendingRequests
    (map (fun r => if String.eqb (MentorRequest.id r) reqId
                   then MentorDashboard.withStatus verdict r else r) l)
  = List.filter (fun r => negb (String.eqb (MentorRequest.id r) reqId))
                (MentorView.pendingRequests l)
  /\ map MentorRequest.id
       (map (fun r => if String.eqb (MentorRequest.id r) reqId
                      then MentorDashboard.withStatus verdict r else r) l)
     = map MentorRequest.id l.
Proof.
  intros Hv. apply String.eqb_neq in Hv.
  unfold MentorView.pendingRequests.
  induction l as [|r l [IH1 IH2]]; [split; reflexivity|].
  cbn [map List.filter]. rewrite IH1, IH2.
  destruct (String.eqb (MentorRequest.id r) reqId) eqn:Hid.
  - cbn [MentorDashboard.withStatus MentorRequest.status MentorRequest.id].
    rewrite Hv. split; [|reflexivity].
    destruct (String.eqb (MentorRequest.status r) "pending"); [|reflexivity].
    cbn [List.filter]. now rewrite Hid.
  - split; [|reflexivity].
    destruct (String.eqb (MentorRequest.status r) "pending"); [|reflexivity].
    cbn [List.filter]. now rewrite Hid.
Qed.

(** X18. Once the server has confirmed an accept or a decline, the
    pending inbox is what it was minus the requests with that id, in the
    same order, and the full list still holds the same requests in the
    same order (only statuses changed). *)
Theorem decision_leaves_the_inbox
    (reqId : string)
    (net : forall c, FetchOutcome (MentorDashboard.Payload c))
    (s : MentorDashboard.State) :
  let accepted :=
    exec (effects (apiOracle net) (MentorDashboard.handleAccept reqId)) s in
  let declined :=
    exec (effects (apiOracle net) (MentorDashboard.handleDecline reqId)) s in
  let others :=
    List.filter (fun r => negb (String.eqb (MentorRequest.id r) reqId))
      (MentorView.pendingRequests (MentorDashboard.mentorRequests s)) in
  (fetch_failed (net (MentorDashboard.postMentorAccept reqId)) = false ->
     MentorView.pendingRequests (MentorDashboard.mentorRequests accepted) = others
     /\ map MentorRequest.id (MentorDashboard.mentorRequests accepted)
        = map MentorRequest.id (MentorDashboard.mentorRequests s))
  /\ (fetch_failed (net (MentorDashboard.postMentorDecline reqId)) = false ->
     MentorView.pendingRequests (MentorDashboard.mentorRequests declined) = others
     /\ map MentorRequest.id (MentorDashboard.mentorRequests declined)
        = map MentorRequest.id (MentorDashboard.mentorRequests s)).
Proof.
  cbv zeta. split; intros Hok.
  - rewrite accept_settled_requests. unfold apiOracle.
    destruct (net (MentorDashboard.postMentorAccept reqId))
      as [| |[] c [res|]]; try discriminate Hok.
    rewrite apiFetch_delivered. now apply pending_after_decision.
  - rewrite decline_settled_state. unfold apiOracle.
    destruct (net (MentorDashboard.postMentorDecline reqId))
      as [| |[] c [res|]]; try discriminate Hok.
    rewrite apiFetch_delivered. cbn [MentorDashboard.mentorRequests].
    now apply pending_after_decision.
Qed.

Lemma decision_leaves_the_inbox_witness :
  MentorView.pendingRequests
    (MentorDashboard.mentorRequests
       (exec (effects (apiOracle mentorOnline)
                (MentorDashboard.handleDecline "req1")) inbox0))
  = [request2].
Proof.
  exact (proj1 (proj2 (decision_leaves_the_inbox "req1" mentorOnline inbox0)
                      eq_refl)).
Defined.

(** X19. A confirmed accept opens the calendar exactly when the reply
    carries a non-empty link.  Then one new window is opened on that
    link and the banner holds the link together with the date, time and
    candidate name of the reply's session details, or three empty
    strings when the reply has no session details.  With no link or an
    empty one, no window is opened and the banner is left as it was. *)
Theorem accept_calendar_follows_link
    (reqId : string)
    (net : forall c, FetchOutcome (MentorDashboard.Payload c))
    (c : Z) (res : AcceptResponse.t) (s : MentorDashboard.State) :
  net (MentorDashboard.postMentorAccept reqId) = Arrived true c (Resolve res) ->
  let p := MentorDashboard.handleAccept reqId in
  let settled := exec (effects (apiOracle net) p) s in
  (forall url,
     AcceptResponse.calendarUrl res = Some url -> truthy url = true ->
     ui_trace (effects (apiOracle net) p) = [WindowOpen url "_blank"]
     /\ MentorDashboard.calendarInfo settled
        = Some (match AcceptResponse.sessionDetails res with
                | Some d =>
                  CalendarInfo.mk url (SessionDetails.date d)
                    (SessionDetails.time d) (SessionDetails.candidateName d)
                | None =>
                  CalendarInfo.mk url EmptyString EmptyString EmptyString
                end))
  /\ (truthy_opt (AcceptResponse.calendarUrl res) = false ->
      ui_trace (effects (apiOracle net) p) = []
      /\ MentorDashboard.calendarInfo settled = MentorDashboard.calendarInfo s).
Proof.
  intros Hok p settled. subst p settled.
  unfold MentorDashboard.handleAccept. cbn [effects].
  assert (Hreply : apiOracle net (MentorDashboard.postMentorAccept reqId)
                   = Resolve (Some res))
    by (unfold apiOracle; now rewrite Hok).
  rewrite Hreply. split.
  - intros url -> ->. split; [reflexivity|].
    now destruct (AcceptResponse.sessionDetails res).
  - intros Hno. destruct (AcceptResponse.calendarUrl res) as [url|];
      [cbn in Hno; rewrite Hno|]; split; reflexivity.
Qed.

Lemma accept_calendar_follows_link_witness :
  ui_trace (effects (apiOracle mentorScheduling) (MentorDashboard.handleAccept "req1"))
  = [WindowOpen "https://calendar.example.test/e1" "_blank"]
  /\ MentorDashboard.calendarInfo
       (exec (effects (apiOracle mentorScheduling)
                (MentorDashboard.handleAccept "req1")) inbox0)
     = Some (CalendarInfo.mk "https://calendar.example.test/e1"
                             "2026-02-12" "10:00 AM" "Arjun Mehta").
Proof.
  exact (proj1 (accept_calendar_follows_link "req1" mentorScheduling 200 _
                  inbox0 eq_refl)
               "https://calendar.example.test/e1" eq_refl eq_refl).
Defined.

(** ** Mentor verification: submitting the URL *)

Lemma prefix_iff (needle s : string) :
  String.prefix needle s = true <-> exists post, s = needle ++ post.
Proof.
  revert s. induction needle as [|a needle IH]; intros s.
  - split; [intros _; now exists s | intros _; now destruct s].
  - destruct s as [|b s]; cbn.
    + split; [discriminate | intros [post [=]]].
    + destruct (Ascii.ascii_dec a b) as [->|Hab].
      * rewrite IH. split; intros [post Hp]; exists post.
        -- now rewrite Hp.
        -- now injection Hp.
      * split; [discriminate|]. intros [post [= Hb _]]. congruence.
Qed.

(** The model of [String.prototype.includes] finds exactly the strings
    that contain the needle. *)
Lemma includes_iff (s needle : string) :
  includes s needle = true <-> exists pre post, s = pre ++ needle ++ post.
Proof.
  induction s as [|a s IH].
  - cbn [includes]. rewrite orb_false_r, prefix_iff. split.
    + intros [post Hp]. now exists EmptyString, post.
    + intros (pre & post & Hp). destruct pre as [|b pre]; [|discriminate Hp].
      now exists post.
  - cbn [includes]. rewrite orb_true_iff, prefix_iff, IH. split.
    + intros [[post Hp]|(pre & post & Hp)].
      * now exists EmptyString, post.
      * exists (String a pre), post. cbn. now rewrite Hp.
    + intros (pre & post & Hp). destruct pre as [|b pre].
      * left. now exists post.
      * right. injection Hp as _ Hp. now exists pre, post.
Qed.

(** X20. The verification form sends nothing unless the URL contains
    "linkedin.com": otherwise the handler only cancels the submit and
    shows one error.  With such a URL it issues exactly one request
    carrying it; a confirmed submission moves the screen to pending, a
    failed one leaves the status as it was, and in both cases the
    submitting flag is cleared and the entered URL is kept. *)
Theorem verification_submit_outcomes
    (net : forall c, FetchOutcome (MentorVerificationSubmit.Payload c))
    (form : MentorVerificationPage.State) :
  let p := MentorVerificationSubmit.handleSubmit form in
  let url := MentorVerificationPage.linkedinUrl form in
  let settled := exec (effects (apiOracle net) p) form in
  ((~ exists pre post, url = pre ++ "linkedin.com" ++ post) ->
     run (apiOracle net) p
     = [Performed (Ui PreventDefault);
        Performed (Ui (Toast Error "Please enter a valid LinkedIn URL"))])
  /\ ((exists pre post, url = pre ++ "linkedin.com" ++ post) ->
      calls (apiOracle net) p
      = [MentorVerificationSubmit.postMentorVerifySubmit url]
      /\ MentorVerificationPage.isSubmitting settled = false
      /\ MentorVerificationPage.linkedinUrl settled = url
      /\ MentorVerificationPage.status settled
         = if fetch_failed
                (net (MentorVerificationSubmit.postMentorVerifySubmit url))
           then MentorVerificationPage.status form
           else MentorVerificationPage.pending).
Proof.
  cbv zeta. unfold MentorVerificationSubmit.handleSubmit. split.
  - intros Hno.
    destruct (includes (MentorVerificationPage.linkedinUrl form) "linkedin.com")
      eqn:Hinc; [|reflexivity].
    apply includes_iff in Hinc. contradiction.
  - intros Hyes. apply includes_iff in Hyes. rewrite Hyes.
    cbn [negb calls effects]. unfold apiOracle.
    destruct (fetch_failed (net (MentorVerificationSubmit.postMentorVerifySubmit
                (MentorVerificationPage.linkedinUrl form)))) eqn:Hf.
    + rewrite (apiFetch_failed _ Hf). repeat split.
    + destruct (net (MentorVerificationSubmit.postMentorVerifySubmit
                (MentorVerificationPage.linkedinUrl form)))
        as [| |[] c [res|]]; try discriminate Hf.
      rewrite apiFetch_delivered. repeat split.
Qed.

Lemma verification_submit_outcomes_witness :
  calls (apiOracle (fun _ => NetworkError))
        (MentorVerificationSubmit.handleSubmit
           (MentorVerificationPage.mkState "https://linkedin.com/in/maya"
              MentorVerificationPage.unsubmitted false))
  = [MentorVerificationSubmit.postMentorVerifySubmit "https://linkedin.com/in/maya"].
Proof.
  refine (proj1 (proj2 (verification_submit_outcomes (fun _ => NetworkError)
            (MentorVerificationPage.mkState "https://linkedin.com/in/maya"
               MentorVerificationPage.unsubmitted false)) _)).
  exists "https://", "/in/maya". reflexivity.
Defined.

(** ** Sign-up and login forms, end to end *)

Lemma truthy_true_iff (s : string) : truthy s = true <-> s <> EmptyString.
Proof.
  destruct s; cbn; split; intros H; try reflexivity; try discriminate.
  now contradiction H.
Qed.

Lemma login_result net email password (s : AuthProvider.State) :
  exists r, fst (AuthProvider.login net email password s) = Resolve r
            /\ AuthResult.success r = negb (fetch_failed net)
            /\ (forall c d, net = Arrived true c (Resolve d) ->
                  AuthResult.user r = Some (AuthData.user d)).
Proof.
  destruct net as [| |[] c [d|]]; eexists; (split; [reflexivity|]);
    (split; [reflexivity|]); intros c' d' [=]; subst; reflexivity.
Qed.

Lemma signup_result net data (s : AuthProvider.State) :
  exists r, fst (AuthProvider.signup net data s) = Resolve r
            /\ AuthResult.success r = negb (fetch_failed net).
Proof.
  destruct net as [| |[] c [d|]]; eexists; split; reflexivity.
Qed.

(** X21. A form that passes validation issues exactly one sign-up
    request, carrying the fields as entered, and always clears its
    loading flag.  It navigates only when the sign-up succeeded, and
    then by the role chosen in the form: to mentor verification for a
    mentor, to onboarding otherwise.  On failure it shows one error and
    stays on the page. *)
Theorem signup_submits_valid_form
    (net : FetchOutcome AuthData.t) (session : AuthProvider.State)
    (form : SignupPage.State) :
  ~ signupInvalid form ->
  let oracle := signupOracle net session in
  let p := SignupPage.handleSubmit form in
  calls oracle p
  = [SignupPage.signup
       (SignupData.mk (SignupPage.email form) (SignupPage.password form)
          (SignupPage.name form) (SignupPage.role form)
          (Some (SignupPage.linkedinUrl form)))]
  /\ SignupPage.isLoading (exec (effects oracle p) form) = false
  /\ (fetch_failed net = false ->
      ui_trace (effects oracle p)
      = [PreventDefault;
         Toast Success
           (if String.eqb (SignupPage.role form) "mentor"
            then "Account created! Your profile is pending verification."
            else "Account created! Let's set up your profile.");
         Push (if String.eqb (SignupPage.role form) "mentor"
               then "/mentor/verification" else "/candidate/onboarding")])
  /\ (fetch_failed net = true ->
      exists msg,
        ui_trace (effects oracle p) = [PreventDefault; Toast Error msg]).
Proof.
  intros Hvalid oracle p. subst oracle p.
  assert (Hname : truthy (SignupPage.name form) = true).
  { apply truthy_true_iff. intros H. apply Hvalid. now left. }
  assert (Hemail : truthy (SignupPage.email form) = true).
  { apply truthy_true_iff. intros H. apply Hvalid. right. now left. }
  assert (Hpw : truthy (SignupPage.password form) = true).
  { apply truthy_true_iff. intros H. apply Hvalid. right. right. now left. }
  assert (Hlen : (Z.of_nat (jsLength (SignupPage.password form)) <? 6) = false).
  { apply Z.ltb_ge. destruct (Z.lt_ge_cases
      (Z.of_nat (jsLength (SignupPage.password form))) 6) as [Hlt|Hge];
      [|exact Hge].
    exfalso. apply Hvalid. right. right. right. left. lia. }
  assert (Hurl : String.eqb (SignupPage.role form) "mentor"
                 && negb (truthy (SignupPage.linkedinUrl form)) = false).
  { destruct (String.eqb (SignupPage.role form) "mentor") eqn:Hr; [|reflexivity].
    destruct (truthy (SignupPage.linkedinUrl form)) eqn:Hl; [reflexivity|].
    exfalso. apply Hvalid. right. right. right. right.
    apply String.eqb_eq in Hr. apply truthy_false_iff in Hl. now split. }
  unfold SignupPage.handleSubmit.
  rewrite Hname, Hemail, Hpw, Hlen, Hurl. cbn [negb orb calls effects].
  unfold signupOracle.
  destruct (signup_result net
              (SignupData.mk (SignupPage.email form) (SignupPage.password form)
                 (SignupPage.name form) (SignupPage.role form)
                 (Some (SignupPage.linkedinUrl form))) session)
    as (r & Hrun & Hsucc).
  rewrite Hrun, Hsucc.
  destruct (fetch_failed net); cbn [negb].
  - split; [reflexivity|]. split; [reflexivity|].
    split; [discriminate|]. intros _. eexists. reflexivity.
  - split; [reflexivity|]. split; [reflexivity|].
    split; [|discriminate]. intros _. reflexivity.
Qed.

Lemma signup_submits_valid_form_witness :
  ui_trace (effects (signupOracle (Arrived true 201 (Resolve alexAuth)) signedOut)
              (SignupPage.handleSubmit alexForm))
  = [PreventDefault;
     Toast Success "Account created! Let's set up your profile.";
     Push "/candidate/onboarding"].
Proof.
  assert (Hvalid : ~ signupInvalid alexForm).
  { intros [H|[H|[H|[H|[H _]]]]]; try discriminate H.
    change (jsLength (SignupPage.password alexForm)) with 9%nat in H. lia. }
  exact (proj1 (proj2 (proj2 (signup_submits_valid_form
           (Arrived true 201 (Resolve alexAuth)) signedOut alexForm Hvalid)))
           eq_refl).
Defined.

Lemma smartRedirect_awaited role verified rest oracle :
  ui_trace (effects oracle (LoginForm.awaitSmartRedirect role verified rest))
  = ((if bool_decide (role = mentor)
      then [Push (if verified then "/mentor/dashboard" else "/mentor/verification")]
      else [Push (resolvedDestination (oracle LoginForm.candidateStatus))])
     ++ ui_trace (effects oracle rest))%list
  /\ calls oracle (LoginForm.awaitSmartRedirect role verified rest)
     = ((if bool_decide (role = mentor) then [] else [LoginForm.candidateStatus])
        ++ calls oracle rest)%list
  /\ forall s, exec (effects oracle (LoginForm.awaitSmartRedirect role verified rest)) s
               = exec (effects oracle rest) s.
Proof.
  unfold LoginForm.awaitSmartRedirect, LoginPage.smartRedirect.
  destruct (bool_decide (role = mentor)); [repeat split|].
  cbn [awaitHandler effects calls].
  destruct (oracle LoginForm.candidateStatus) as [[flags|]|];
    [|repeat split..].
  unfold resolvedDestination, nextStep, optional_flag.
  destruct (CandidateStatus.hasMentor flags),
           (CandidateStatus.hasRoadmap flags),
           (CandidateStatus.hasOnboarded flags); repeat split.
Qed.

(** X22. The login form sends nothing while the email or the password
    is empty: the handler only cancels the submit and shows one error.
    With both filled in and the login failing (rejected, unreadable or
    unreachable), it calls [login] once, shows one error, navigates
    nowhere and clears its loading flag. *)
Theorem login_form_failure_paths
    (authNet : FetchOutcome AuthData.t) (session : AuthProvider.State)
    (statusNet' : FetchOutcome CandidateStatus.t) (form : LoginForm.State) :
  let oracle := LoginForm.oracle authNet session statusNet' in
  let p := LoginForm.handleSubmit form in
  (LoginForm.email form = EmptyString \/ LoginForm.password form = EmptyString ->
     run oracle p
     = [Performed (Ui PreventDefault);
        Performed (Ui (Toast Error "Please fill in all fields"))])
  /\ (LoginForm.email form <> EmptyString ->
      LoginForm.password form <> EmptyString ->
      fetch_failed authNet = true ->
      calls oracle p
      = [LoginForm.login (LoginForm.email form) (LoginForm.password form)]
      /\ (exists msg, ui_trace (effects oracle p) = [PreventDefault; Toast Error msg])
      /\ LoginForm.isLoading (exec (effects oracle p) form) = false).
Proof.
  cbv zeta. unfold LoginForm.handleSubmit. split.
  - intros [H|H]; rewrite H; cbn [truthy negb orb];
      [reflexivity | now rewrite orb_true_r].
  - intros He Hp Hf.
    apply truthy_true_iff in He, Hp. rewrite He, Hp.
    cbn [negb orb calls effects].
    destruct (login_result authNet (LoginForm.email form)
                (LoginForm.password form) session)
      as (r & Hrun & Hsucc & _).
    change (LoginForm.oracle authNet session statusNet'
              (LoginForm.login (LoginForm.email form) (LoginForm.password form))
            = Resolve r) in Hrun.
    rewrite Hrun. unfold LoginForm.afterLogin.
    rewrite Hsucc, Hf. cbn [negb].
    split; [reflexivity|]. split; [eexists|]; reflexivity.
Qed.

Lemma login_form_failure_paths_witness :
  calls (LoginForm.oracle NetworkError signedOut NetworkError)
        (LoginForm.handleSubmit alexLogin)
  = [LoginForm.login "candidate@example.test" "password"].
Proof.
  refine (proj1 (proj2 (login_form_failure_paths NetworkError signedOut
                          NetworkError alexLogin) _ _ eq_refl));
    discriminate.
Defined.

Lemma afterLogin_settles oracle (r : AuthResult.t) (s : LoginForm.State) :
  LoginForm.isLoading
    (exec (effects oracle (LoginForm.afterLogin (Resolve r))) s) = false.
Proof.
  unfold LoginForm.afterLogin.
  destruct (AuthResult.success r), (AuthResult.user r) as [u|];
    try reflexivity.
  cbn [effects exec].
  now rewrite (proj2 (proj2 (smartRedirect_awaited _ _ _ _))).
Qed.

(** X23. A successful login from the form greets the user and navigates
    exactly once: a mentor goes to the dashboard or to verification by
    the [verified] flag without any further request; anyone else goes to
    the screen the progress flags resolve to (onboarding when they
    cannot be fetched), after one status request.  The loading flag is
    cleared afterwards. *)
Theorem login_form_success_navigates
    (c : Z) (d : AuthData.t) (session : AuthProvider.State)
    (statusNet' : FetchOutcome CandidateStatus.t) (form : LoginForm.State) :
  LoginForm.email form <> EmptyString ->
  LoginForm.password form <> EmptyString ->
  let oracle := LoginForm.oracle (Arrived true c (Resolve d)) session statusNet' in
  let p := LoginForm.handleSubmit form in
  let u := AuthData.user d in
  ui_trace (effects oracle p)
  = [PreventDefault; Toast Success "Welcome back!";
     Push (if bool_decide (User.role u = mentor)
           then (if User.verified u then "/mentor/dashboard"
                 else "/mentor/verification")
           else resolvedDestination (apiFetch statusNet'))]
  /\ calls oracle p
     = LoginForm.login (LoginForm.email form) (LoginForm.password form)
       :: (if bool_decide (User.role u = mentor) then []
           else [LoginForm.candidateStatus])
  /\ LoginForm.isLoading (exec (effects oracle p) form) = false.
Proof.
  intros He Hp oracle p u. subst oracle p u.
  apply truthy_true_iff in He, Hp.
  unfold LoginForm.handleSubmit. rewrite He, Hp.
  cbn [negb orb calls effects ui_trace exec].
  change (LoginForm.oracle (Arrived true c (Resolve d)) session statusNet'
            (LoginForm.login (LoginForm.email form) (LoginForm.password form)))
    with (Resolve (AuthResult.mk true None (Some (AuthData.user d)))).
  split; [|split].
  - cbn [LoginForm.afterLogin AuthResult.success AuthResult.user effects ui_trace].
    rewrite (proj1 (smartRedirect_awaited _ _ _ _)).
    destruct (bool_decide (User.role (AuthData.user d) = mentor)); reflexivity.
  - cbn [LoginForm.afterLogin AuthResult.success AuthResult.user calls].
    rewrite (proj1 (proj2 (smartRedirect_awaited _ _ _ _))).
    destruct (bool_decide (User.role (AuthData.user d) = mentor)); reflexivity.
  - apply afterLogin_settles.
Qed.

Lemma login_form_success_navigates_witness :
  ui_trace
    (effects (LoginForm.oracle (Arrived true 200 (Resolve alexAuth)) signedOut
                (Arrived true 200
                   (Resolve (CandidateStatus.mk "active" true false false None))))
             (LoginForm.handleSubmit alexLogin))
  = [PreventDefault; Toast Success "Welcome back!"; Push "/candidate/roadmap"].
Proof.
  refine (proj1 (login_form_success_navigates 200 alexAuth signedOut
                   (Arrived true 200
                      (Resolve (CandidateStatus.mk "active" true false false None)))
                   alexLogin _ _)); discriminate.
Defined.

(** X24. The demo quick-login is the form submission with the password
    fixed to "password" and without the empty-field check: it always
    calls [login] with that email and password, even for an empty
    email, fills both fields into the form, ends with the loading flag
    cleared, and shows and navigates exactly as submitting that form
    would. *)
Theorem quick_login_is_prefilled_submit
    (authNet : FetchOutcome AuthData.t) (session : AuthProvider.State)
    (statusNet' : FetchOutcome CandidateStatus.t)
    (email : string) (s : LoginForm.State) :
  let oracle := LoginForm.oracle authNet session statusNet' in
  let p := LoginForm.quickLogin email in
  let settled := exec (effects oracle p) s in
  (exists rest, calls oracle p = LoginForm.login email "password" :: rest)
  /\ LoginForm.email settled = email
  /\ LoginForm.password settled = "password"
  /\ LoginForm.isLoading settled = false
  /\ (email <> EmptyString ->
      ui_trace (effects oracle
                  (LoginForm.handleSubmit
                     (LoginForm.mkState email "password"
                        (LoginForm.showPassword s) (LoginForm.isLoading s))))
      = PreventDefault :: ui_trace (effects oracle p)).
Proof.
  cbv zeta. unfold LoginForm.quickLogin.
  cbn [calls effects exec LoginForm.setEmail LoginForm.setPassword
       LoginForm.setIsLoading].
  destruct (login_result authNet email "password" session)
    as (r & Hrun & _ & _).
  change (LoginForm.oracle authNet session statusNet'
            (LoginForm.login email "password") = Resolve r) in Hrun.
  rewrite Hrun.
  split; [eexists; reflexivity|].
  assert (Hkeep : forall st,
    LoginForm.email
      (exec (effects (LoginForm.oracle authNet session statusNet')
               (LoginForm.afterLogin (Resolve r))) st) = LoginForm.email st
    /\ LoginForm.password
         (exec (effects (LoginForm.oracle authNet session statusNet')
                  (LoginForm.afterLogin (Resolve r))) st) = LoginForm.password st).
  { intros st. unfold LoginForm.afterLogin.
    destruct (AuthResult.success r), (AuthResult.user r) as [u|];
      try (split; reflexivity).
    cbn [effects exec].
    rewrite (proj2 (proj2 (smartRedirect_awaited _ _ _ _))).
    split; reflexivity. }
  split; [apply Hkeep|]. split; [apply Hkeep|].
  split; [apply afterLogin_settles|].
  intros He. apply truthy_true_iff in He.
  unfold LoginForm.handleSubmit.
  cbn [LoginForm.email LoginForm.password truthy negb orb]. rewrite He.
  cbn [negb orb effects ui_trace LoginForm.setIsLoading]. now rewrite Hrun.
Qed.

Lemma quick_login_is_prefilled_submit_witness :
  ui_trace
    (effects (LoginForm.oracle NetworkError signedOut NetworkError)
       (LoginForm.handleSubmit alexLogin))
  = PreventDefault
    :: ui_trace
         (effects (LoginForm.oracle NetworkError signedOut NetworkError)
            (LoginForm.quickLogin "candidate@example.test")).
Proof.
  refine (proj2 (proj2 (proj2 (proj2 (quick_login_is_prefilled_submit
            NetworkError signedOut NetworkError "candidate@example.test"
            alexLogin)))) _).
  discriminate.
Defined.

(** ** Onboarding wizard *)

(** X25. The wizard never leaves its five steps.  In every state it
    can reach from a fresh wizard by editing, Continue and Back,
    including the states while a submission is pending and those
    produced by a handler of an earlier render firing late, the current
    step is between 1 and 5. *)
Theorem wizard_step_in_range
    (OnboardingResponse : Type) (stringify : FormData.t -> string)
    (storage : gmap string string) (s : OnboardingPage.State) :
  WizardReachable OnboardingResponse stringify storage s ->
  1 <= OnboardingPage.currentStep s <= OnboardingPage.totalSteps.
Proof.
  unfold OnboardingPage.totalSteps.
  induction 1 as [|s data _ IH|s s0 e oracle _ IH _ IH0 He
                  |s s0 e oracle _ IH _ IH0 He].
  - cbn. lia.
  - exact IH.
  - unfold OnboardingPage.handleNext, OnboardingPage.totalSteps in He.
    destruct (OnboardingPage.currentStep s0 <? 5) eqn:Hlt; cbn in He.
    + apply Z.ltb_lt in Hlt. destruct He as [<-|[]]. cbn. lia.
    + destruct He as [<-|[<-|[<-|[<-|[]]]]]; exact IH.
  - unfold OnboardingPage.handleBack in He.
    destruct (1 <? OnboardingPage.currentStep s0) eqn:Hlt; cbn in He.
    + apply Z.ltb_lt in Hlt. destruct He as [<-|[]]. cbn. lia.
    + destruct He.
Qed.

(** The state while the last step's submission is pending is among the
    states the invariant covers. *)
Lemma wizard_pending_reachable
    (OnboardingResponse : Type) (stringify : FormData.t -> string)
    (storage : gmap string string) (s : OnboardingPage.State)
    (oracle : forall c, Promise (Reply (OnboardingPage.Payload OnboardingResponse) c)) :
  WizardReachable OnboardingResponse stringify storage s ->
  OnboardingPage.totalSteps <= OnboardingPage.currentStep s ->
  WizardReachable OnboardingResponse stringify storage
    (OnboardingPage.mkState (OnboardingPage.currentStep s)
       (OnboardingPage.formData s) true (OnboardingPage.localStorage s)).
Proof.
  intros Hs Hlast.
  apply (wizard_next OnboardingResponse stringify storage s s
           (OnboardingPage.setIsSubmitting true) oracle Hs Hs).
  unfold OnboardingPage.handleNext.
  apply Z.ltb_ge in Hlast. rewrite Hlast. left. reflexivity.
Qed.

Lemma wizard_step_in_range_witness :
  1 <= OnboardingPage.currentStep
         (exec [OnboardingPage.setCurrentStep (1 + 1)] (OnboardingPage.initial ∅))
    <= OnboardingPage.totalSteps.
Proof.
  apply (wizard_step_in_range unit (fun _ => "{}") ∅).
  apply (wizard_next unit (fun _ => "{}") ∅ (OnboardingPage.initial ∅)
           (OnboardingPage.initial ∅) _ (fun _ => Reject)
           (wizard_initial unit (fun _ => "{}") ∅)
           (wizard_initial unit (fun _ => "{}") ∅)).
  left. reflexivity.
Defined.

(** X26. Continue before the last step only advances by one, without
    any request or navigation.  On the last step it posts the form once
    and then, whatever the backend answers (success, failure or a
    rejected promise), stores the serialised form under
    "onboardingData", clears the submitting flag and navigates to the
    roadmap exactly once, staying on step 5.  Back on step 1 does
    nothing; elsewhere it goes back by one. *)
Theorem wizard_navigation
    (OnboardingResponse : Type) (stringify : FormData.t -> string)
    (oracle : forall c, Promise (Reply (OnboardingPage.Payload OnboardingResponse) c))
    (s : OnboardingPage.State) :
  let next := OnboardingPage.handleNext OnboardingResponse stringify s in
  let back := OnboardingPage.handleBack OnboardingResponse s in
  (OnboardingPage.currentStep s < OnboardingPage.totalSteps ->
     calls oracle next = []
     /\ ui_trace (effects oracle next) = []
     /\ exec (effects oracle next) s
        = OnboardingPage.mkState (OnboardingPage.currentStep s + 1)
            (OnboardingPage.formData s) (OnboardingPage.isSubmitting s)
            (OnboardingPage.localStorage s))
  /\ (OnboardingPage.totalSteps <= OnboardingPage.currentStep s ->
     calls oracle next = [OnboardingPage.postOnboarding (OnboardingPage.formData s)]
     /\ ui_trace (effects oracle next) = [Push "/candidate/roadmap"]
     /\ exec (effects oracle next) s
        = OnboardingPage.mkState (OnboardingPage.currentStep s)
            (OnboardingPage.formData s) false
            (<["onboardingData" := stringify (OnboardingPage.formData s)]>
               (OnboardingPage.localStorage s)))
  /\ (OnboardingPage.currentStep s <= 1 ->
     run oracle back = [] /\ exec (effects oracle back) s = s)
  /\ (1 < OnboardingPage.currentStep s ->
     OnboardingPage.currentStep (exec (effects oracle back) s)
     = OnboardingPage.currentStep s - 1).
Proof.
  cbv zeta. unfold OnboardingPage.handleNext, OnboardingPage.handleBack.
  split; [|split; [|split]].
  - intros Hlt. apply Z.ltb_lt in Hlt. rewrite Hlt. repeat split.
  - intros Hge. apply Z.ltb_ge in Hge. rewrite Hge. repeat split.
  - intros Hle. apply Z.ltb_ge in Hle. rewrite Hle. split; reflexivity.
  - intros Hlt. apply Z.ltb_lt in Hlt. rewrite Hlt. reflexivity.
Qed.

Lemma wizard_navigation_witness :
  ui_trace
    (effects (fun _ => Reject)
       (OnboardingPage.handleNext unit (fun _ => "{}")
          (OnboardingPage.mkState 5
             (FormData.mk "Staff engineer" "SWE" EmptyString "advanced" "5+" false)
             false ∅)))
  = [Push "/candidate/roadmap"].
Proof.
  refine (proj1 (proj2 (proj1 (proj2 (wizard_navigation unit (fun _ => "{}")
            (fun _ => Reject)
            (OnboardingPage.mkState 5
               (FormData.mk "Staff engineer" "SWE" EmptyString "advanced" "5+" false)
               false ∅))) _))).
  unfold OnboardingPage.totalSteps. cbn. lia.
Defined.

(** ** Checkout *)

(** X27. Confirming a purchase needs both a signed-in user id and a
    loaded mentor; otherwise nothing happens.  With both, one checkout
    request is sent for that mentor and user and the processing flag is
    cleared afterwards.  The page is confirmed only when the server
    confirmed: then the result holds the server's mentor name, session
    count and total and the error is cleared; on failure the page is as
    confirmed as it was and shows "Payment failed. Please try again.". *)
Theorem checkout_confirms_on_success_only
    (MentorData : Type) (user : option User.t) (mentorId : string)
    (net : forall c, FetchOutcome (CheckoutPage.Payload c))
    (s : CheckoutPage.State MentorData) :
  let p := CheckoutPage.handleConfirm MentorData user mentorId s in
  let settled := exec (effects (apiOracle net) p) s in
  (WorkflowDashboard.userId user = None \/ CheckoutPage.mentor MentorData s = None ->
     run (apiOracle net) p = [])
  /\ (forall uid m,
       WorkflowDashboard.userId user = Some uid ->
       CheckoutPage.mentor MentorData s = Some m ->
       calls (apiOracle net) p = [CheckoutPage.postCheckout mentorId uid]
       /\ CheckoutPage.isProcessing MentorData settled = false
       /\ (forall c res,
            net (CheckoutPage.postCheckout mentorId uid)
              = Arrived true c (Resolve res) ->
            CheckoutPage.confirmed MentorData settled = true
            /\ CheckoutPage.checkoutResult MentorData settled
               = Some (CheckoutResult.mk (CheckoutResponse.mentorName res)
                         (CheckoutResponse.sessionsCount res)
                         (CheckoutResponse.total res))
            /\ CheckoutPage.error MentorData settled = EmptyString)
       /\ (fetch_failed (net (CheckoutPage.postCheckout mentorId uid)) = true ->
            CheckoutPage.confirmed MentorData settled
              = CheckoutPage.confirmed MentorData s
            /\ CheckoutPage.checkoutResult MentorData settled
               = CheckoutPage.checkoutResult MentorData s
            /\ CheckoutPage.error MentorData settled
               = "Payment failed. Please try again.")).
Proof.
  cbv zeta. unfold CheckoutPage.handleConfirm. split.
  - intros [H|H]; rewrite H; [reflexivity|].
    now destruct (WorkflowDashboard.userId user).
  - intros uid m Hu Hm. rewrite Hu, Hm. cbn [calls effects].
    unfold apiOracle.
    destruct (apiFetch_never_rejects (net (CheckoutPage.postCheckout mentorId uid)))
      as [reply Hreply].
    split; [rewrite Hreply; now destruct reply|].
    split; [rewrite Hreply; now destruct reply|].
    split.
    + intros c res Hok. rewrite Hok, apiFetch_delivered. repeat split.
    + intros Hf. rewrite (apiFetch_failed _ Hf). repeat split.
Qed.

Lemma checkout_confirms_on_success_only_witness :
  CheckoutPage.confirmed unit
    (exec (effects (apiOracle (fun _ => NetworkError))
             (CheckoutPage.handleConfirm unit (Some alex) "m1"
                (CheckoutPage.mkState unit (Some tt) false false None EmptyString)))
          (CheckoutPage.mkState unit (Some tt) false false None EmptyString))
  = false.
Proof.
  exact (proj1 (proj2 (proj2 (proj2 (proj2 (checkout_confirms_on_success_only
           unit (Some alex) "m1" (fun _ => NetworkError)
           (CheckoutPage.mkState unit (Some tt) false false None EmptyString))
           "u1" tt eq_refl eq_refl))) eq_refl)).
Defined.

(** ** Mentor discovery filters *)

Section DiscoveryFilters.
Context {Rating : Type}.
Variable containsIgnoringCase : string -> string -> bool.

Local Abbreviation filtered :=
  (MentorDiscoveryPage.filtered (Rating:=Rating) containsIgnoringCase).

Lemma price_bucket_exclusive (m : Mentor.t Rating) :
  let under := MentorDiscoveryPage.matchesPrice "under-6000" m in
  let mid := MentorDiscoveryPage.matchesPrice "6000-10000" m in
  let over := MentorDiscoveryPage.matchesPrice "over-10000" m in
  (under = true /\ mid = false /\ over = false)
  \/ (under = false /\ mid = true /\ over = false)
  \/ (under = false /\ mid = false /\ over = true).
Proof.
  unfold MentorDiscoveryPage.matchesPrice. cbn.
  destruct (Z.ltb_spec (Mentor.pricePerSession m) 6000),
           (Z.leb_spec 6000 (Mentor.pricePerSession m)),
           (Z.leb_spec (Mentor.pricePerSession m) 10000),
           (Z.ltb_spec 10000 (Mentor.pricePerSession m)); cbn; try lia; tauto.
Qed.

(** X28. The three price ranges split the catalogue: every mentor falls
    in exactly one of "under-6000", "6000-10000" and "over-10000", so
    with the other filters fixed the three filtered lists together have
    as many mentors as the list filtered with price "all". *)
Theorem price_filters_partition
    (searchQuery domainFilter experienceFilter : string)
    (allMentors : list (Mentor.t Rating)) :
  (forall m : Mentor.t Rating,
     (MentorDiscoveryPage.matchesPrice "under-6000" m = true
      /\ MentorDiscoveryPage.matchesPrice "6000-10000" m = false
      /\ MentorDiscoveryPage.matchesPrice "over-10000" m = false)
     \/ (MentorDiscoveryPage.matchesPrice "under-6000" m = false
         /\ MentorDiscoveryPage.matchesPrice "6000-10000" m = true
         /\ MentorDiscoveryPage.matchesPrice "over-10000" m = false)
     \/ (MentorDiscoveryPage.matchesPrice "under-6000" m = false
         /\ MentorDiscoveryPage.matchesPrice "6000-10000" m = false
         /\ MentorDiscoveryPage.matchesPrice "over-10000" m = true))
  /\ (length (filtered searchQuery domainFilter "all" experienceFilter allMentors)
      = length (filtered searchQuery domainFilter "under-6000" experienceFilter allMentors)
        + length (filtered searchQuery domainFilter "6000-10000" experienceFilter allMentors)
        + length (filtered searchQuery domainFilter "over-10000" experienceFilter allMentors))%nat.
Proof.
  split; [exact price_bucket_exclusive|].
  unfold MentorDiscoveryPage.filtered.
  induction allMentors as [|m l IH]; [reflexivity|].
  cbn [List.filter].
  change (MentorDiscoveryPage.matchesPrice "all" m) with true.
  destruct (price_bucket_exclusive m) as [(-> & -> & ->)|[(-> & -> & ->)|(-> & -> & ->)]];
    destruct (MentorDiscoveryPage.matchesSearch containsIgnoringCase searchQuery m),
             (MentorDiscoveryPage.matchesDomain domainFilter m),
             (MentorDiscoveryPage.matchesExperience experienceFilter m);
    cbn [andb length]; lia.
Qed.

Lemma filtered_In (q d p e : string) (l : list (Mentor.t Rating)) (m : Mentor.t Rating) :
  In m (filtered q d p e l)
  <-> In m l
      /\ MentorDiscoveryPage.matchesSearch containsIgnoringCase q m = true
      /\ MentorDiscoveryPage.matchesDomain d m = true
      /\ MentorDiscoveryPage.matchesPrice p m = true
      /\ MentorDiscoveryPage.matchesExperience e m = true.
Proof.
  unfold MentorDiscoveryPage.filtered. rewrite filter_In, !andb_true_iff. tauto.
Qed.

(** X29. Filters only narrow the catalogue.  With an empty search and
    every filter on "all" the whole catalogue is shown, in order.  The
    experience thresholds are nested: whoever is shown under "10+" is
    shown under "8+", whoever under "8+" is shown under "5+", and
    whoever is shown under any experience filter is shown under "all".
    A price or experience value that is not one of the offered options
    shows nobody. *)
Theorem experience_filters_nested
    (searchQuery domainFilter priceFilter : string)
    (allMentors : list (Mentor.t Rating)) :
  filtered EmptyString "all" "all" "all" allMentors = allMentors
  /\ (forall m,
       In m (filtered searchQuery domainFilter priceFilter "10+" allMentors) ->
       In m (filtered searchQuery domainFilter priceFilter "8+" allMentors))
  /\ (forall m,
       In m (filtered searchQuery domainFilter priceFilter "8+" allMentors) ->
       In m (filtered searchQuery domainFilter priceFilter "5+" allMentors))
  /\ (forall m e,
       In m (filtered searchQuery domainFilter priceFilter e allMentors) ->
       In m (filtered searchQuery domainFilter priceFilter "all" allMentors))
  /\ (forall v,
       v <> "all" -> v <> "under-6000" -> v <> "6000-10000" -> v <> "over-10000" ->
       filtered searchQuery domainFilter v "all" allMentors = [])
  /\ (forall v,
       v <> "all" -> v <> "5+" -> v <> "8+" -> v <> "10+" ->
       filtered searchQuery domainFilter priceFilter v allMentors = []).
Proof.
  split; [|split; [|split; [|split; [|split]]]].
  - unfold MentorDiscoveryPage.filtered.
    induction allMentors as [|m l IH]; [reflexivity|].
    cbn [List.filter].
    assert (Hm : MentorDiscoveryPage.matchesSearch containsIgnoringCase
                   EmptyString m
                 && MentorDiscoveryPage.matchesDomain "all" m
                 && MentorDiscoveryPage.matchesPrice "all" m
                 && MentorDiscoveryPage.matchesExperience "all" m = true)
      by reflexivity.
    rewrite Hm. now rewrite IH.
  - intros m. rewrite !filtered_In. intros (Hin & Hs & Hd & Hp & He).
    repeat (split; [assumption|]).
    unfold MentorDiscoveryPage.matchesExperience in *. cbn in *.
    rewrite ?orb_false_r in He. rewrite ?orb_false_r.
    apply Z.leb_le in He. apply Z.leb_le. lia.
  - intros m. rewrite !filtered_In. intros (Hin & Hs & Hd & Hp & He).
    repeat (split; [assumption|]).
    unfold MentorDiscoveryPage.matchesExperience in *. cbn in *.
    rewrite ?orb_false_r in He. rewrite ?orb_false_r.
    apply Z.leb_le in He. apply Z.leb_le. lia.
  - intros m e. rewrite !filtered_In. intros (Hin & Hs & Hd & Hp & He).
    repeat (split; [assumption|]). reflexivity.
  - intros v H1 H2 H3 H4. apply String.eqb_neq in H1, H2, H3, H4.
    unfold MentorDiscoveryPage.filtered.
    induction allMentors as [|m l IH]; [reflexivity|].
    cbn [List.filter]. unfold MentorDiscoveryPage.matchesPrice at 1.
    rewrite H1, H2, H3, H4. cbn [andb orb]. rewrite !andb_false_r. exact IH.
  - intros v H1 H2 H3 H4. apply String.eqb_neq in H1, H2, H3, H4.
    unfold MentorDiscoveryPage.filtered.
    induction allMentors as [|m l IH]; [reflexivity|].
    cbn [List.filter]. unfold MentorDiscoveryPage.matchesExperience at 1.
    rewrite H1, H2, H3, H4. cbn [andb orb]. rewrite !andb_false_r. exact IH.
Qed.

Lemma uniqueInOrder_spec (values seen : list string) :
  NoDup (MentorDiscoveryPage.uniqueInOrder seen values)
  /\ forall v, In v (MentorDiscoveryPage.uniqueInOrder seen values)
               <-> In v values /\ ~ In v seen.
Proof.
  revert seen. induction values as [|x values IH]; intros seen.
  - split; [constructor | cbn; tauto].
  - cbn [MentorDiscoveryPage.uniqueInOrder].
    destruct (decide (x ∈ seen)) as [Hseen|Hnew].
    + rewrite bool_decide_eq_true_2 by exact Hseen.
      destruct (IH seen) as [Hnd Hin]. split; [exact Hnd|].
      intros v. rewrite Hin. cbn. apply list_elem_of_In in Hseen.
      split; [tauto|]. intros [[<-|Hv] Hns]; tauto.
    + rewrite bool_decide_eq_false_2 by exact Hnew.
      destruct (IH (x :: seen)) as [Hnd Hin].
      rewrite list_elem_of_In in Hnew. split.
      * apply NoDup_cons. split; [|exact Hnd].
        rewrite list_elem_of_In, Hin. cbn. tauto.
      * intros v. cbn [In]. rewrite Hin. cbn [In].
        destruct (decide (x = v)) as [->|Hne]; tauto.
Qed.

(** X30. The domain filter offers every domain of the catalogue exactly
    once and nothing else, and choosing any offered domain (with an
    empty search and the other filters on "all") shows at least one
    mentor. *)
Theorem domain_options_cover_catalogue (allMentors : list (Mentor.t Rating)) :
  NoDup (MentorDiscoveryPage.domains allMentors)
  /\ (forall d, In d (MentorDiscoveryPage.domains allMentors)
                <-> exists m, In m allMentors /\ Mentor.domain m = d)
  /\ (forall d, In d (MentorDiscoveryPage.domains allMentors) ->
        filtered EmptyString d "all" "all" allMentors <> []).
Proof.
  unfold MentorDiscoveryPage.domains.
  destruct (uniqueInOrder_spec (map Mentor.domain allMentors) []) as [Hnd Hin].
  assert (Hiff : forall d,
    In d (MentorDiscoveryPage.uniqueInOrder [] (map Mentor.domain allMentors))
    <-> exists m, In m allMentors /\ Mentor.domain m = d).
  { intros d. rewrite Hin, in_map_iff. cbn. split.
    - intros [(m & Hd & Hm) _]. eauto.
    - intros (m & Hm & Hd). split; [eauto | tauto]. }
  split; [exact Hnd|]. split; [exact Hiff|].
  intros d Hd. apply Hiff in Hd as (m & Hm & Hdom).
  intros Hempty.
  assert (Hshown : In m (filtered EmptyString d "all" "all" allMentors)).
  { apply filtered_In. repeat split; try assumption; try reflexivity.
    unfold MentorDiscoveryPage.matchesDomain.
    rewrite Hdom, String.eqb_refl. apply orb_true_r. }
  rewrite Hempty in Hshown. destruct Hshown.
Qed.

End DiscoveryFilters.

Lemma price_filters_partition_witness :
  MentorDiscoveryPage.matchesPrice "6000-10000" ananya = true
  /\ MentorDiscoveryPage.matchesPrice "under-6000" ananya = false.
Proof.
  destruct (proj1 (price_filters_partition (fun _ _ => false)
                     EmptyString "all" "all" [ananya]) ananya)
    as [(H & _)|[(H1 & H2 & _)|(_ & H & _)]];
    [discriminate H | split; assumption | discriminate H].
Defined.

Lemma experience_filters_nested_witness :
  In ananya
     (MentorDiscoveryPage.filtered (fun _ _ => false) EmptyString "all" "all" "5+"
        [ananya; priya]).
Proof.
  apply (proj1 (proj2 (proj2 (experience_filters_nested (fun _ _ => false)
           EmptyString "all" "all" [ananya; priya])))).
  left. reflexivity.
Defined.

Lemma domain_options_cover_catalogue_witness :
  MentorDiscoveryPage.filtered (fun _ _ => false) EmptyString
    "Data Science" "all" "all" [ananya; priya] <> [].
Proof.
  apply (proj2 (proj2 (domain_options_cover_catalogue (fun _ _ => false)
                         [ananya; priya]))).
  right. left. reflexivity.
Defined.
